(** * Authentication and session lifecycle of examaxis-server

    A shallow embedding of the session service, the user service, the
    user and JWT helpers and the OAuth service, with the database, the
    clock, the random source and the outbound collaborators made explicit.

    Conventions.
    - A [Date] is a number of milliseconds since the epoch; adding minutes
      is arithmetic on it, adding days is the calendar arithmetic of dayjs
      in the time zone of the process, kept abstract.
    - The database is a pair of collections held in [World]; a thrown
      exception keeps every write made before it (there is no transaction
      in the source), so the monad returns the world on both paths.
    - JavaScript truthiness of an optional string is [truthy]. *)

From Stdlib Require Import ZArith NArith List String Bool Lia DecimalString.
Import ListNotations.
Local Open Scope string_scope.
Local Open Scope Z_scope.

(** ** Data model *)

Definition Date := Z.

Record EmailInfo := mkEmailInfo {
  isVerified : bool;
  verificationToken : option string;
  verificationExpires : option Date;
  pendingEmail : option string;
  provider : option string
}.

Record PhoneInfo := mkPhoneInfo {
  phoneIsVerified : bool
}.

Record PasswordInfo := mkPasswordInfo {
  hash : option string;
  resetToken : option string;
  resetExpires : option Date
}.

Record AccountLockoutInfo := mkLockout {
  isLocked : bool;
  lockedUntil : option Date;
  failedAttemptCount : N
}.

(** [uid] is the [id] field of the source. The timestamps kept by the
    storage layer ([createdAt], [updatedAt]) are written by no function of
    the services and are left out. *)
Record User := mkUser {
  uid : string;
  fullname : string;
  email : string;
  phone : option string;
  profileImage : option string;
  emailInfo : EmailInfo;
  phoneInfo : option PhoneInfo;
  passwordInfo : PasswordInfo;
  lockoutInfo : AccountLockoutInfo;
  isActive : bool;
  lastLoginAt : option Date
}.

(** [sid] is the [id] field of the source; [refreshToken] holds the hash of
    the refresh token, never the plaintext. *)
Record Session := mkSession {
  sid : string;
  userId : string;
  refreshToken : string;
  userAgent : option string;
  ipAddress : option string;
  expiresAt : Date
}.

Record TokenPair := mkTokenPair {
  accessToken : string;
  tp_refreshToken : string;
  expiresIn : string
}.

Record IJWTPayload := mkPayload {
  jwt_userId : string;
  jwt_email : string
}.

Record EmailTemplate := mkTemplate {
  subject : string;
  text : string;
  html : string
}.

(** Exceptions. [AppError] is what [throwError(message, code)] throws (an
    [Error] marked operational); [PrismaError] carries the client's error
    code; [ExternalError] is any other thrown value. *)
Inductive Exn :=
| AppError (message : string) (code : Z)
| PrismaError (pcode : string)
| ExternalError (message : string).

Inductive Outcome (A : Type) :=
| Returns (a : A)
| Throws (e : Exn).
Arguments Returns {A} a.
Arguments Throws {A} e.

(** The world: both collections, the clock, and the number of random
    strings and of object ids handed out so far. *)
Record World := mkWorld {
  users : list User;
  sessions : list Session;
  clock : Date;
  draws : nat;
  minted : nat
}.

Definition M (A : Type) : Type := World -> Outcome A * World.

Definition ret {A} (a : A) : M A := fun w => (Returns a, w).

Definition bind {A B} (m : M A) (k : A -> M B) : M B :=
  fun w =>
    match m w with
    | (Returns a, w') => k a w'
    | (Throws e, w') => (Throws e, w')
    end.

Definition throw {A} (e : Exn) : M A := fun w => (Throws e, w).

(** [try { body } catch (error) { handler error }] *)
Definition try_catch {A} (body : M A) (handler : Exn -> M A) : M A :=
  fun w =>
    match body w with
    | (Returns a, w') => (Returns a, w')
    | (Throws e, w') => handler e w'
    end.

Definition lift {A} (o : Outcome A) : M A := fun w => (o, w).

Declare Scope m_scope.
Delimit Scope m_scope with m.
Notation "x <- c1 ;; c2" := (bind c1 (fun x => c2))
  (at level 100, c1 at next level, right associativity) : m_scope.
Notation "c1 ;;; c2" := (bind c1 (fun _ => c2))
  (at level 100, right associativity) : m_scope.
Local Open Scope m_scope.

(** [throwError(message, code = 500)] of utils/response. *)
Definition throwError {A} (message : string) (code : Z) : M A :=
  throw (AppError message code).
Definition default_code : Z := 500.

(** ** JavaScript helpers *)

Definition truthy (s : option string) : bool :=
  match s with
  | Some s => negb (s =? "")%string
  | None => false
  end.

(** The string behind a value already tested truthy, or behind a non-null
    assertion such as [redirectUrl!]; an absent one is the empty text. *)
Definition assert_present (s : option string) : string :=
  match s with Some r => r | None => "" end.

Definition opt_eqb (a : option string) (b : string) : bool :=
  match a with
  | Some a => (a =? b)%string
  | None => false
  end.

(** [$gt] on an optional date against a date: a missing field is not
    greater than any date. *)
Definition opt_gt (d : option Date) (now : Date) : bool :=
  match d with
  | Some d => now <? d
  | None => false
  end.

(** ** utils/dayjs *)

Definition currentDate : M Date := fun w => (Returns (clock w), w).

Definition ms_per_minute : Z := 60000.
Definition ms_per_day : Z := 86400000.

(** [dayjs().add(minutes, "minute")] is arithmetic on the instant. *)
Definition addMinutes (minutes : Z) : M Date :=
  now <- currentDate ;; ret (now + minutes * ms_per_minute).

(** ** Storage primitives (the Prisma client calls the services make) *)

Definition set_users (us : list User) (w : World) : World :=
  mkWorld us (sessions w) (clock w) (draws w) (minted w).

Definition set_sessions (ss : list Session) (w : World) : World :=
  mkWorld (users w) ss (clock w) (draws w) (minted w).

Definition set_clock (t : Date) (w : World) : World :=
  mkWorld (users w) (sessions w) t (draws w) (minted w).

Definition P2025 : Exn := PrismaError "P2025".
Definition P2002 : Exn := PrismaError "P2002".

(** [prisma.user.findUnique({ where: { email } })] *)
Definition user_findUnique_email (e : string) : M (option User) :=
  fun w => (Returns (find (fun u => (email u =? e)%string) (users w)), w).

(** [prisma.user.findUnique({ where: { id } })] *)
Definition user_findUnique_id (i : string) : M (option User) :=
  fun w => (Returns (find (fun u => (uid u =? i)%string) (users w)), w).

(** A find with an arbitrary filter and [limit: 1] / [findFirst]. *)
Definition user_findFirst (p : User -> bool) : M (option User) :=
  fun w => (Returns (find p (users w)), w).

(** The collection after the document with id [i] is rewritten by [f]. *)
Definition rewrite_user (i : string) (f : User -> User) (w : World) : World :=
  set_users (map (fun v => if (uid v =? i)%string then f v else v) (users w)) w.

(** [prisma.user.update({ where: { id }, data })]: the record with that id
    is rewritten by [f]; the call throws P2025 when there is none. *)
Definition user_update (i : string) (f : User -> User) : M User :=
  fun w =>
    match find (fun u => (uid u =? i)%string) (users w) with
    | Some u => (Returns (f u), rewrite_user i f w)
    | None => (Throws P2025, w)
    end.

(** Modelled from the spec: the Prisma schema, which fixes what happens to
    the sessions of a deleted account, is not in the source; the spec
    (section 3, Session, ownership) has the storage cascade-delete the
    sessions of a deleted account.

    [prisma.user.deleteMany({ where })], returning the count: the matching
    accounts go, and with them the sessions they own. *)
Definition user_deleteMany (p : User -> bool) : M nat :=
  fun w =>
    let gone := filter p (users w) in
    (Returns (List.length gone),
     set_sessions
       (filter (fun s => negb (existsb (fun u => (uid u =? userId s)%string)
                                       gone))
               (sessions w))
       (set_users (filter (fun u => negb (p u)) (users w)) w)).

(** [prisma.session.findFirst({ where })] *)
Definition session_findFirst (p : Session -> bool) : M (option Session) :=
  fun w => (Returns (find p (sessions w)), w).

(** [prisma.session.delete({ where: { refreshToken } })]: [refreshToken] is
    a unique key of the collection, so at most one row carries it; the call
    throws P2025 when none does. *)
Definition session_delete (hashed : string) : M unit :=
  fun w =>
    match find (fun s => (refreshToken s =? hashed)%string) (sessions w) with
    | Some _ =>
        (Returns tt,
         set_sessions
           (filter (fun s => negb (refreshToken s =? hashed)%string)
                   (sessions w)) w)
    | None => (Throws P2025, w)
    end.

(** [prisma.session.deleteMany({ where: { userId } })] *)
Definition session_deleteMany (i : string) : M unit :=
  fun w =>
    (Returns tt,
     set_sessions (filter (fun s => negb (userId s =? i)%string) (sessions w)) w).

(** ** Services

    The collaborators the services call are the variables of the section:
    the hash and random primitives, bcrypt, the JWT library, the mail
    transport and template renderer, the HTTP client, the configuration. *)

Record SecurityConfig := mkSecurity {
  maxLoginAttempts : Z;
  loginLockTime : Z
}.

(** [refreshExpiresDays] is [parseInt(config.jwt.refreshExpiresIn)]. *)
Record JwtConfig := mkJwtConfig {
  jwt_expiresIn : string;
  refreshExpiresDays : Z
}.

(** What [jwt.verify] can do: return the payload, or throw. The library's
    [TokenExpiredError] and [NotBeforeError] are subclasses of
    [JsonWebTokenError]; [OtherThrown] is any value of another class. *)
Inductive JwtThrown :=
| TokenExpiredError
| NotBeforeError
| JsonWebTokenError (reason : string)
| OtherThrown (what : string).

Inductive JwtVerifyResult :=
| Verified (payload : IJWTPayload)
| VerifyThrows (e : JwtThrown).

Definition instanceof_TokenExpiredError (e : JwtThrown) : bool :=
  match e with TokenExpiredError => true | _ => false end.

Definition instanceof_NotBeforeError (e : JwtThrown) : bool :=
  match e with NotBeforeError => true | _ => false end.

Definition instanceof_JsonWebTokenError (e : JwtThrown) : bool :=
  match e with
  | TokenExpiredError | NotBeforeError | JsonWebTokenError _ => true
  | OtherThrown _ => false
  end.

(** The GitHub profile handed over by passport, and the reply of the
    email endpoint. *)
Record GitHubProfile := mkProfile {
  profile_emails : option (list string);
  profile_photos : option (list string);
  displayName : option string;
  username : option string
}.

Record GithubEmail := mkGithubEmail {
  ge_email : string;
  ge_primary : bool;
  ge_verified : bool
}.

(** [fetch] either rejects or resolves to a response; [body] is [None]
    when reading the JSON list throws. *)
Record FetchResponse := mkResponse {
  ok : bool;
  status : Z;
  body : option (list GithubEmail)
}.

Inductive FetchResult :=
| Resolved (r : FetchResponse)
| Rejected (reason : string).

Definition GITHUB_EMAIL_API : string := "https://api.github.com/user/emails".
Definition AUTH_PROVIDERS_GITHUB : string := "github".

Section Services.

(** [dayjsAddDay days now] is the instant of [dayjs(now).add(days, "day")]:
    dayjs adds calendar days on the local date of the process, so across a
    change of the time zone's offset a day is not 86400000 ms. The time
    zone is not in the source; the function is a collaborator. *)
Variable dayjsAddDay : Z -> Date -> Date.
Variable hashData : string -> string.
Variable randomBytesHex : nat -> nat -> string.
Variable newObjectId : nat -> string.
Variable bcryptHash : string -> string.
Variable bcryptCompare : string -> string -> bool.
Variable jwtSign : IJWTPayload -> string.
Variable jwtVerify : string -> JwtVerifyResult.
Variable renderVerificationTemplate :
  string -> string -> string -> bool -> Outcome EmailTemplate.
Variable transporterSendMail : string -> EmailTemplate -> bool.
Variable fetch : string -> string -> FetchResult.
Variable security : SecurityConfig.
Variable jwtConfig : JwtConfig.

(** *** utils/dayjs, continued *)

Definition addDays (days : Z) : M Date :=
  now <- currentDate ;; ret (dayjsAddDay days now).

(** *** utils/crypto *)

(** [generateRandomString(length)]: the next string of the random source. *)
Definition generateRandomString (length : nat) : M string :=
  fun w =>
    (Returns (randomBytesHex length (draws w)),
     mkWorld (users w) (sessions w) (clock w) (S (draws w)) (minted w)).

(** *** helpers/user *)

Definition hashPassword (password : string) : M string :=
  ret (bcryptHash password).

Definition comparePassword (h : option string) (input : string) : bool :=
  match h with
  | Some h => if (h =? "")%string then false else bcryptCompare input h
  | None => false
  end.

Inductive TimeUnit := minutes | days.

Definition generateVerificationToken (duration : Z) (unit : TimeUnit)
  : M (string * string * Date) :=
  token <- generateRandomString 32 ;;
  let hashed := hashData token in
  expires <- (match unit with
              | days => addDays duration
              | minutes => addMinutes duration
              end) ;;
  ret (token, hashed, expires).

(** [isAccountLocked(user)], with [now] the value of [currentDate()]. A
    [Date] object is truthy, so the middle conjunct tests presence. *)
Definition isAccountLocked (now : Date) (user : User) : bool :=
  isLocked (lockoutInfo user) &&
  match lockedUntil (lockoutInfo user) with
  | Some until => now <? until
  | None => false
  end.

(** *** helpers/jwt *)

Definition generateAccessToken (user : User) : string :=
  jwtSign (mkPayload (uid user) (email user)).

Definition verifyAccessToken (token : string) : Outcome IJWTPayload :=
  match jwtVerify token with
  | Verified payload => Returns payload
  | VerifyThrows error =>
      if instanceof_TokenExpiredError error then
        Throws (AppError "Access token has expired" 401)
      else if instanceof_NotBeforeError error then
        Throws (AppError "Access token not yet valid" 401)
      else if instanceof_JsonWebTokenError error then
        Throws (AppError "Invalid access token" 401)
      else
        Throws (AppError "Invalid or expired access token" 401)
  end.

(** *** services/SessionService *)

(** [prisma.session.create({ data })]: a fresh id is minted; the call
    throws P2002 when the unique [refreshToken] is already stored. *)
Definition session_create (user_id hashed : string)
    (ua ip : option string) (expires : Date) : M Session :=
  fun w =>
    if existsb (fun s => (refreshToken s =? hashed)%string) (sessions w)
    then (Throws P2002, w)
    else
      let s := mkSession (newObjectId (minted w)) user_id hashed ua ip expires in
      (Returns s,
       mkWorld (users w) (sessions w ++ [s]) (clock w) (draws w)
               (S (minted w))).

(** [x || null] on an optional string. *)
Definition or_null (s : option string) : option string :=
  if truthy s then s else None.

Definition createSession (user : User) (ua ip : option string)
  : M (Session * string) :=
  refreshToken <- generateRandomString 40 ;;
  expiresAt <- addDays (refreshExpiresDays jwtConfig) ;;
  session <- session_create (uid user) (hashData refreshToken)
                            (or_null ua) (or_null ip) expiresAt ;;
  ret (session, refreshToken).

Definition generateTokenPair (user : User) (ua ip : option string)
  : M TokenPair :=
  let accessToken := generateAccessToken user in
  sr <- createSession user ua ip ;;
  ret (mkTokenPair accessToken (snd sr) (jwt_expiresIn jwtConfig)).

Definition revokeRefreshToken (refreshToken : string) : M unit :=
  let hashedRefreshToken := hashData refreshToken in
  session_delete hashedRefreshToken.

(** The [include: { user: true }] of the lookup is the owner found by id. *)
Definition refreshAccessToken (token : string) : M TokenPair :=
  let hashedRefreshToken := hashData token in
  now <- currentDate ;;
  session <- session_findFirst
               (fun s => (refreshToken s =? hashedRefreshToken)%string
                         && (now <? expiresAt s)) ;;
  match session with
  | None => throwError "Invalid or expired refresh token" default_code
  | Some session =>
      owner <- user_findUnique_id (userId session) ;;
      match owner with
      | None => throwError "User not found" default_code
      | Some user =>
          revokeRefreshToken token ;;;
          generateTokenPair user None None
      end
  end.

Definition revokeAllUserSessions (user_id : string) : M unit :=
  session_deleteMany user_id.

(** *** Field updates of a user document *)

Definition with_email (e : string) (u : User) : User :=
  mkUser (uid u) (fullname u) e (phone u) (profileImage u) (emailInfo u)
         (phoneInfo u) (passwordInfo u) (lockoutInfo u) (isActive u)
         (lastLoginAt u).

Definition with_fullname (n : string) (u : User) : User :=
  mkUser (uid u) n (email u) (phone u) (profileImage u) (emailInfo u)
         (phoneInfo u) (passwordInfo u) (lockoutInfo u) (isActive u)
         (lastLoginAt u).

Definition with_emailInfo (ei : EmailInfo) (u : User) : User :=
  mkUser (uid u) (fullname u) (email u) (phone u) (profileImage u) ei
         (phoneInfo u) (passwordInfo u) (lockoutInfo u) (isActive u)
         (lastLoginAt u).

Definition with_passwordInfo (pi : PasswordInfo) (u : User) : User :=
  mkUser (uid u) (fullname u) (email u) (phone u) (profileImage u)
         (emailInfo u) (phoneInfo u) pi (lockoutInfo u) (isActive u)
         (lastLoginAt u).

Definition with_lockoutInfo (li : AccountLockoutInfo) (u : User) : User :=
  mkUser (uid u) (fullname u) (email u) (phone u) (profileImage u)
         (emailInfo u) (phoneInfo u) (passwordInfo u) li (isActive u)
         (lastLoginAt u).

Definition with_lastLoginAt (d : option Date) (u : User) : User :=
  mkUser (uid u) (fullname u) (email u) (phone u) (profileImage u)
         (emailInfo u) (phoneInfo u) (passwordInfo u) (lockoutInfo u)
         (isActive u) d.

(** *** services/EmailService *)

Definition sendEmail (to : string) (template : EmailTemplate) : M unit :=
  if transporterSendMail to template then ret tt
  else throwError "Failed to send email" default_code.

(** *** services/UserService *)

Inductive UserExistsResult :=
| NotExists
| Exists (user : User) (field : string).

Definition checkUserExists (e p : option string) (excluded : option string)
  : M UserExistsResult :=
  if negb (truthy e) && negb (truthy p) then ret NotExists
  else
    existingUser <- user_findFirst
      (fun u => ((truthy e && opt_eqb e (email u))
                 || (truthy p && match phone u with
                                 | Some q => opt_eqb p q
                                 | None => false
                                 end))
                && (if truthy excluded
                    then negb (opt_eqb excluded (uid u)) else true)) ;;
    match existingUser with
    | None => ret NotExists
    | Some existingUser =>
        let field := if opt_eqb e (email existingUser)
                     then "email" else "phone" in
        ret (Exists existingUser field)
    end.

Definition deleteUnverifiedUser (user_id : string) : M unit :=
  count <- user_deleteMany
    (fun u => (uid u =? user_id)%string && negb (isVerified (emailInfo u))) ;;
  if Nat.eqb count 0 then throwError "User not found or already verified" 404
  else ret tt.

Definition sendEmailVerification (e name token redirectUrl : string)
    (isEmailChange : bool) : M unit :=
  emailTemplate <- lift (renderVerificationTemplate name token redirectUrl
                                                    isEmailChange) ;;
  sendEmail e emailTemplate.

(** The [data] of the update in [verifyEmailWithToken], for the matched
    document [userDoc]. *)
Definition verified_data (userDoc : User) (u : User) : User :=
  let info := emailInfo userDoc in
  let pending := pendingEmail info in
  with_emailInfo
    (mkEmailInfo true None None None (provider info))
    (if truthy pending then with_email (assert_present pending) u else u).

Definition verifyEmailWithToken (token : string) : M (User * bool) :=
  let hashedToken := hashData token in
  now <- currentDate ;;
  userDoc <- user_findFirst
    (fun u => opt_eqb (verificationToken (emailInfo u)) hashedToken
              && opt_gt (verificationExpires (emailInfo u)) now) ;;
  match userDoc with
  | None => throwError "Invalid or expired email verification token" 403
  | Some userDoc =>
      let user_id := uid userDoc in
      let info := emailInfo userDoc in
      let isNewlyVerified := negb (isVerified info) in
      let pending := pendingEmail info in
      (if truthy pending then
         emailTaken <- user_findFirst
           (fun u => opt_eqb pending (email u)
                     && negb (uid u =? user_id)%string) ;;
         match emailTaken with
         | Some _ => throwError "Email address is already in use" 409
         | None => ret tt
         end
       else ret tt) ;;;
      updatedUser <- user_update user_id (verified_data userDoc) ;;
      ret (updatedUser, isNewlyVerified)
  end.

Definition incrementFailedLoginAttempts (user : User) : M unit :=
  let lockout := lockoutInfo user in
  let newAttempts := (failedAttemptCount lockout + 1)%N in
  let reached := maxLoginAttempts security <=? Z.of_N newAttempts in
  until <- (if reached
            then d <- addMinutes (loginLockTime security) ;; ret (Some d)
            else ret None) ;;
  user_update (uid user)
    (with_lockoutInfo (mkLockout reached until newAttempts)) ;;;
  ret tt.

Definition resetFailedLoginAttempts (user_id : string) : M unit :=
  user_update user_id (with_lockoutInfo (mkLockout false None 0%N)) ;;;
  ret tt.

Definition authenticateUser (e password : string) : M (option User * bool) :=
  found <- user_findUnique_email e ;;
  match found with
  | None => ret (None, false)
  | Some user =>
      let info := emailInfo user in
      let passwordData := passwordInfo user in
      if truthy (provider info) && negb (truthy (hash passwordData)) then
        throwError
          "You signed in with a social account. To log in with a password, please set one using 'Forgot Password'."
          403
      else if negb (isVerified info) then
        throwError "Please verify your email before logging in" 403
      else
        now <- currentDate ;;
        if isAccountLocked now user then
          throwError
            "Account is temporarily locked due to multiple failed login attempts"
            423
        else if negb (comparePassword (hash (passwordInfo user)) password) then
          incrementFailedLoginAttempts user ;;;
          ret (Some user, false)
        else
          let lockout := lockoutInfo user in
          (if (0 <? failedAttemptCount lockout)%N
           then resetFailedLoginAttempts (uid user)
           else ret tt) ;;;
          stamp <- currentDate ;;
          user_update (uid user) (with_lastLoginAt (Some stamp)) ;;;
          ret (Some user, true)
  end.

(** The [data] of the update in [resetPasswordWithToken], for the matched
    document [userDoc]: the three composite fields are rebuilt from the
    matched document. *)
Definition reset_data (userDoc : User) (hashedPassword : string) (u : User)
  : User :=
  let lockout := lockoutInfo userDoc in
  let info := emailInfo userDoc in
  let isAccountLocked := isLocked lockout in
  let isEmailUnverified := negb (isVerified info) in
  with_emailInfo
    (if isEmailUnverified
     then mkEmailInfo true None None (pendingEmail info) (provider info)
     else info)
    (with_lockoutInfo
       (if isAccountLocked then mkLockout false None 0%N else lockout)
       (with_passwordInfo
          (mkPasswordInfo (Some hashedPassword) None None) u)).

Definition resetPasswordWithToken (token newPassword : string) : M unit :=
  let hashedToken := hashData token in
  now <- currentDate ;;
  userDoc <- user_findFirst
    (fun u => opt_eqb (resetToken (passwordInfo u)) hashedToken
              && opt_gt (resetExpires (passwordInfo u)) now) ;;
  match userDoc with
  | None => throwError "Invalid or expired password reset token" default_code
  | Some userDoc =>
      let user_id := uid userDoc in
      hashedPassword <- hashPassword newPassword ;;
      user_update user_id (reset_data userDoc hashedPassword) ;;;
      revokeAllUserSessions user_id
  end.

Record UpdateUserProfile := mkUpdates {
  upd_fullname : option string;
  upd_email : option string;
  upd_phone : option string;
  upd_password : option string;
  upd_redirectUrl : option string
}.

(** The first block of [updateUserProfile]: the existence check on the
    supplied email and phone. *)
Definition resolveConflicts (user : User) (updates : UpdateUserProfile)
  : M unit :=
  let e := upd_email updates in
  if truthy e || truthy (upd_phone updates) then
    userExists <- checkUserExists e (upd_phone updates) (Some (uid user)) ;;
    match userExists with
    | NotExists => ret tt
    | Exists existingUser field =>
        if isVerified (emailInfo existingUser) then
          throwError (if (field =? "email")%string
                      then "Email is already taken"
                      else "Phone number is already taken") 409
        else deleteUnverifiedUser (uid existingUser)
    end
  else ret tt.

Definition updateUserProfile (user : User) (updates : UpdateUserProfile)
  : M (User * string) :=
  let info := emailInfo user in
  let pwInfo := passwordInfo user in
  let e := upd_email updates in
  resolveConflicts user updates ;;;
  message <-
    (if truthy e && negb (opt_eqb e (email user)) then
       thx <- generateVerificationToken 1 days ;;
       let '(token, hashed, expires) := thx in
       try_catch
         (user_update (uid user)
            (with_emailInfo
               (mkEmailInfo (isVerified info) (Some hashed) (Some expires)
                            e (provider info))) ;;;
          sendEmailVerification (assert_present e) (fullname user) token
            (assert_present (upd_redirectUrl updates)) true ;;;
          ret "Profile updated. Verification email sent to your new email address. Please verify to complete the email change.")
         (fun error =>
            user_update (uid user)
              (with_emailInfo
                 (mkEmailInfo (isVerified info) None None None
                              (provider info))) ;;;
            throw error)
     else ret "Profile updated successfully") ;;
  hashedPassword <-
    (if truthy (upd_password updates)
     then h <- hashPassword (assert_present (upd_password updates)) ;;
          ret (Some h)
     else ret None) ;;
  let message := match hashedPassword with
                 | Some _ => "Password updated successfully"
                 | None => message
                 end in
  if truthy (upd_fullname updates) || truthy (upd_password updates) then
    updatedUser <- user_update (uid user)
      (fun u =>
         let u := if truthy (upd_fullname updates)
                  then with_fullname (assert_present (upd_fullname updates)) u
                  else u in
         match hashedPassword with
         | Some h =>
             with_passwordInfo
               (mkPasswordInfo (Some h) (resetToken pwInfo)
                               (resetExpires pwInfo)) u
         | None => u
         end) ;;
    ret (updatedUser, message)
  else ret (user, message).

(** *** services/OauthService *)

Record IOAuthUser := mkOAuthUser {
  oa_email : string;
  oa_displayName : string;
  oa_avatarUrl : option string;
  oa_provider : string;
  oa_isVerified : bool
}.

(** [prisma.user.create({ data })]: a fresh id is minted; the call throws
    P2002 when the unique [email] is already stored. *)
Definition user_create (mk : string -> User) : M User :=
  fun w =>
    let u := mk (newObjectId (minted w)) in
    if existsb (fun v => (email v =? email u)%string) (users w)
    then (Throws P2002, w)
    else (Returns u,
          mkWorld (users w ++ [u]) (sessions w) (clock w) (draws w)
                  (S (minted w))).

Definition createOAuthUser (oauthUser : IOAuthUser) : M User :=
  existingUser <- user_findUnique_email (oa_email oauthUser) ;;
  match existingUser with
  | Some existingUser => ret existingUser
  | None =>
      now <- currentDate ;;
      user_create
        (fun i =>
           mkUser i (oa_displayName oauthUser) (oa_email oauthUser) None
                  (or_null (oa_avatarUrl oauthUser))
                  (mkEmailInfo true None None None
                               (or_null (Some (oa_provider oauthUser))))
                  None
                  (mkPasswordInfo None None None)
                  (mkLockout false None 0%N)
                  true (Some now))
  end.

Definition show_status (n : Z) : string :=
  NilZero.string_of_int (Z.to_int n).

(** [emails.find((e) => e.primary)?.email ?? emails[0]?.email] *)
Definition pick_email (emails : list GithubEmail) : option string :=
  match find ge_primary emails with
  | Some entry => Some (ge_email entry)
  | None => option_map ge_email (hd_error emails)
  end.

Definition first_value (l : option (list string)) : option string :=
  match l with
  | Some (v :: _) => Some v
  | _ => None
  end.

Definition handleGithubAuth (profile : GitHubProfile) (accessToken : string)
  : M User :=
  let email0 := first_value (profile_emails profile) in
  e <- (if negb (truthy email0) then
          try_catch
            (match fetch GITHUB_EMAIL_API ("token " ++ accessToken) with
             | Rejected reason => throw (ExternalError reason)
             | Resolved response =>
                 (if negb (ok response)
                  then throwError
                         ("GitHub API error: " ++ show_status (status response))
                         400
                  else ret tt) ;;;
                 match body response with
                 | None => throw (ExternalError "response.json")
                 | Some emails => ret (pick_email emails)
                 end
             end)
            (fun _ =>
               throwError "Unable to retrieve user email from GitHub" 400)
        else ret email0) ;;
  if negb (truthy e) then throwError "No email found for GitHub user" 404
  else
    let name := if truthy (displayName profile)
                then displayName profile else username profile in
    if negb (truthy name) then
      throwError "No display name found in GitHub profile" 400
    else
      createOAuthUser
        (mkOAuthUser (assert_present e) (assert_present name)
                     (or_null (first_value (profile_photos profile)))
                     AUTH_PROVIDERS_GITHUB true).

(** [n] logins in a row with the same email and password, each one a call
    of [authenticateUser] on the world the previous one left. *)
Fixpoint failedLogins (n : nat) (e password : string) : M unit :=
  match n with
  | O => ret tt
  | S k => failedLogins k e password ;;; authenticateUser e password ;;; ret tt
  end.

(** The lockout document [incrementFailedLoginAttempts] writes for a user
    whose lockout was [lockout], when the clock reads [now]. *)
Definition lockout_written (now : Date) (lockout : AccountLockoutInfo)
  : AccountLockoutInfo :=
  let newAttempts := (failedAttemptCount lockout + 1)%N in
  if maxLoginAttempts security <=? Z.of_N newAttempts
  then mkLockout true (Some (now + loginLockTime security * ms_per_minute))
                 newAttempts
  else mkLockout false None newAttempts.

(** ** Sample collaborators and data

    Concrete stand-ins for the collaborators and a few small stores, on
    which the services can be run. *)

Definition show_nat (n : nat) : string := NilZero.string_of_uint (Nat.to_uint n).

Definition sample_hash (s : string) : string := "sha256:" ++ s.
Definition sample_random (len n : nat) : string := "tok" ++ show_nat n.
Definition sample_objectId (n : nat) : string := "oid" ++ show_nat n.
Definition sample_bcryptHash (s : string) : string := "bcrypt:" ++ s.
Definition sample_bcryptCompare (input h : string) : bool :=
  (h =? "bcrypt:" ++ input)%string.
Definition sample_jwtSign (p : IJWTPayload) : string :=
  "jwt." ++ jwt_userId p ++ "." ++ jwt_email p.
Definition sample_jwtVerify (t : string) : JwtVerifyResult :=
  if (t =? "expired")%string then VerifyThrows TokenExpiredError
  else if (t =? "garbage")%string
       then VerifyThrows (JsonWebTokenError "jwt malformed")
       else Verified (mkPayload "u1" "jane@x.com").
Definition sample_render (name token url : string) (change : bool)
  : Outcome EmailTemplate :=
  Returns (mkTemplate "Verify your email" token url).
Definition sample_transport_down (to : string) (t : EmailTemplate) : bool :=
  false.
Definition sample_fetch_empty (url auth : string) : FetchResult :=
  Resolved (mkResponse true 200 (Some [])).
Definition sample_fetch_two (url auth : string) : FetchResult :=
  if (url =? GITHUB_EMAIL_API)%string && (auth =? "token gho_abc")%string
  then Resolved (mkResponse true 200
                   (Some [mkGithubEmail "old@x.com" false true;
                          mkGithubEmail "octo@x.com" true true]))
  else Rejected "unexpected call".
(** A process whose time zone keeps one offset: a day is 86400000 ms. *)
Definition sample_addDay (days : Z) (now : Date) : Date :=
  now + days * ms_per_day.
Definition sample_security : SecurityConfig := mkSecurity 5 15.
Definition sample_jwtConfig : JwtConfig := mkJwtConfig "15m" 7.

Definition jane : User :=
  mkUser "u1" "Jane" "jane@x.com" None None
         (mkEmailInfo true None None None None)
         None
         (mkPasswordInfo (Some "bcrypt:Str0ng!Pass") None None)
         (mkLockout false None 0%N)
         true None.

(** Jane after five failures whose lock ran out at time 900. *)
Definition jane_expired_lock : User :=
  with_lockoutInfo (mkLockout true (Some 900) 5%N) jane.

(** Bob is not locked, has three failures on record and holds a reset
    token that expires at time 5000. *)
Definition bob : User :=
  mkUser "u2" "Bob" "bob@x.com" None None
         (mkEmailInfo true None None None None)
         None
         (mkPasswordInfo (Some "bcrypt:old") (Some (sample_hash "reset-1"))
                         (Some 5000))
         (mkLockout false None 3%N)
         true None.

(** Carol is locked and unverified, and holds both a verification token
    and a reset token. *)
Definition carol : User :=
  mkUser "u3" "Carol" "carol@x.com" None None
         (mkEmailInfo false (Some (sample_hash "verify-3")) (Some 5000)
                      None None)
         None
         (mkPasswordInfo (Some "bcrypt:old") (Some (sample_hash "reset-3"))
                         (Some 5000))
         (mkLockout true (Some 4000) 5%N)
         true None.

Definition jane_session : Session :=
  mkSession "s1" "u1" (sample_hash "refresh-1") None None 9000.

Definition carol_session : Session :=
  mkSession "s3" "u3" (sample_hash "refresh-3") None None 9000.

Definition sample_world : World :=
  mkWorld [jane; bob; carol] [jane_session; carol_session] 1000 0 0.

Definition sample_world_expired : World :=
  mkWorld [jane_expired_lock; bob] [] 1000 0 0.

Definition octo_profile : GitHubProfile :=
  mkProfile None None (Some "Octo") (Some "octo").

(** ** Further services, the auth middleware and the controllers *)

Variable renderPasswordResetTemplate :
  string -> string -> string -> Outcome EmailTemplate.
Variable js_trim : string -> string.
Variable schemaIsActive : bool.

(** [prisma.user.create({ data })] for a document that may carry a phone
    number: a fresh id is minted; the call throws P2002 when the [email], or
    the [phone] if there is one, is already stored (the doc comment of
    [createUserWithVerification] has both "must be unique"). *)
Definition user_create_unique (mk : string -> User) : M User :=
  fun w =>
    let u := mk (newObjectId (minted w)) in
    if List.existsb
         (fun v => (email v =? email u)%string
                   || match phone u, phone v with
                      | Some p, Some q => (p =? q)%string
                      | _, _ => false
                      end) (users w)
    then (Throws P2002, w)
    else (Returns u,
          mkWorld (users w ++ [u]) (sessions w) (clock w) (draws w)
                  (S (minted w))).

(** [isActive] is not given in the data: [schemaIsActive] is the default
    of the schema. *)
Definition createUserWithVerification (name e : string) (p : option string)
    (password : string) : M (User * string) :=
  hashedPassword <- hashPassword password ;;
  thx <- generateVerificationToken 1 days ;;
  let '(token, hashed, expires) := thx in
  user <- user_create_unique
    (fun i =>
       mkUser i name e (or_null p) None
              (mkEmailInfo false (Some hashed) (Some expires) None None)
              (if truthy p then Some (mkPhoneInfo false) else None)
              (mkPasswordInfo (Some hashedPassword) None None)
              (mkLockout false None 0%N)
              schemaIsActive None) ;;
  ret (user, token).

Definition sendPasswordResetEmail (e redirectUrl : string) : M unit :=
  found <- user_findUnique_email e ;;
  match found with
  | None => ret tt
  | Some user =>
      token <- generateRandomString 32 ;;
      expires <- addMinutes 30 ;;
      user_update (uid user)
        (with_passwordInfo
           (mkPasswordInfo (hash (passwordInfo user))
                           (Some (hashData token)) (Some expires))) ;;;
      emailTemplate <- lift (renderPasswordResetTemplate (fullname user)
                                                         token redirectUrl) ;;
      sendEmail e emailTemplate
  end.

Record GoogleProfile := mkGoogleProfile {
  g_emails : option (list string);
  g_photos : option (list string);
  g_displayName : option string;
  g_givenName : option string
}.

Definition handleGoogleAuth (profile : GoogleProfile) (prov : string)
  : M User :=
  let e := first_value (g_emails profile) in
  let avatarUrl := first_value (g_photos profile) in
  let name := if truthy (g_displayName profile)
              then g_displayName profile else g_givenName profile in
  if negb (truthy e) then throwError "No email found in OAuth profile" 400
  else if negb (truthy name) then
    throwError "No display name found in OAuth profile" 400
  else
    createOAuthUser
      (mkOAuthUser (assert_present e) (assert_present name)
                   (or_null avatarUrl) prov true).

(** *** helpers/user: the public view of an account *)

Record SerializedUser := mkSerialized {
  ser_id : string;
  ser_fullname : string;
  ser_email : string;
  ser_email_verified : bool;
  ser_phone : option string;
  ser_phone_verified : bool;
  ser_isActive : bool;
  ser_lastLoginAt : option Date
}.

Definition serializeUser (user : User) : SerializedUser :=
  mkSerialized (uid user) (fullname user) (email user)
               (isVerified (emailInfo user)) (phone user)
               (match phoneInfo user with
                | Some pi => phoneIsVerified pi
                | None => false
                end)
               (isActive user) (lastLoginAt user).

(** *** middleware/auth

    [authorization] and [refreshHeader] are the two request headers; a
    missing one makes the code throw a [TypeError] inside the [try], which
    is handed to [next] like every other error. The result is the pair
    attached to the request. A claim missing from the payload is the empty
    text. *)
Definition authenticate (authorization refreshHeader : option string)
  : M (User * IJWTPayload) :=
  match authorization with
  | None => throw (ExternalError "TypeError")
  | Some header =>
      let accessToken :=
        js_trim (substring 7 (String.length header - 7) header) in
      payload <- lift (verifyAccessToken accessToken) ;;
      if negb (truthy (Some (jwt_userId payload)))
         || negb (truthy (Some (jwt_email payload)))
      then throwError "Invalid token payload" 401
      else
        match refreshHeader with
        | None => throw (ExternalError "TypeError")
        | Some token =>
            let hashed := hashData token in
            now <- currentDate ;;
            activeSession <- session_findFirst
              (fun s => (refreshToken s =? hashed)%string
                        && (now <? expiresAt s)) ;;
            match activeSession with
            | None => throwError "Invalid or expired refresh token" 401
            | Some _ =>
                found <- user_findUnique_id (jwt_userId payload) ;;
                match found with
                | None => throwError "User not found" 401
                | Some user =>
                    now' <- currentDate ;;
                    if isAccountLocked now' user then
                      throwError
                        "Account is locked due to multiple failed login attempts"
                        423
                    else ret (user, payload)
                end
            end
        end
  end.

(** *** controllers/UserController

    A controller is modelled by the body of its [try]: what it returns is
    the message and data given to [sendSuccess], what it throws is the error
    given to [next]. [ua] is the [user-agent] header, [ip] is [req.ip] and
    [remote] is [req.socket?.remoteAddress]. *)

Definition client_address (ip remote : option string) : option string :=
  if truthy ip then ip else remote.

Definition register (name e : string) (p : option string)
    (password redirectUrl : string) : M string :=
  userExists <- checkUserExists (Some e) p None ;;
  (match userExists with
   | NotExists => ret tt
   | Exists existingUser field =>
       if isVerified (emailInfo existingUser) then
         throwError (if (field =? "email")%string
                     then "User with this email already exists"
                     else "User with this phone number already exists") 409
       else deleteUnverifiedUser (uid existingUser)
   end) ;;;
  created <- createUserWithVerification name e p password ;;
  try_catch
    (sendEmailVerification e name (snd created) redirectUrl false)
    (fun _ => ret tt) ;;;
  ret "User registered successfully. Please check your email for verification.".

Definition verifyEmail (token : string) (ua ip remote : option string)
  : M (string * SerializedUser * option TokenPair) :=
  r <- verifyEmailWithToken token ;;
  let '(user, isNewlyVerified) := r in
  tokens <- (if isNewlyVerified
             then t <- generateTokenPair user ua (client_address ip remote) ;;
                  ret (Some t)
             else ret None) ;;
  ret ("Email verified successfully", serializeUser user, tokens).

Definition login (e password : string) (ua ip remote : option string)
  : M (string * SerializedUser * TokenPair) :=
  r <- authenticateUser e password ;;
  let '(found, isValid) := r in
  match found with
  | Some user =>
      if negb isValid then throwError "Invalid email or password!" 401
      else
        tokens <- generateTokenPair user ua (client_address ip remote) ;;
        ret ("Login successful", serializeUser user, tokens)
  | None => throwError "Invalid email or password!" 401
  end.

Definition forgotPassword (e redirectUrl : string) : M string :=
  sendPasswordResetEmail e redirectUrl ;;;
  ret "If an account with that email exists, a password reset link has been sent".

Definition logout (reqUser : option User) (refreshHeader : option string)
  : M string :=
  (if truthy refreshHeader
   then revokeRefreshToken (assert_present refreshHeader)
   else match reqUser with
        | Some user => revokeAllUserSessions (uid user)
        | None => ret tt
        end) ;;;
  ret "Logout successful".

(** *** controllers/OauthController: the in-memory login store

    The [Map] is a list of bindings with one binding per key; [now] is the
    reading of [currentDate().getTime()] at the call. *)
Record LoginStoreRecord := mkLoginRecord {
  lsr_user : User;
  lsr_tokens : TokenPair;
  lsr_expiresAt : Z
}.

Definition LoginStore := list (string * LoginStoreRecord).

Definition LOGIN_CODE_EXPIRY_MINUTES : Z := 5.

Definition map_get (code : string) (store : LoginStore)
  : option LoginStoreRecord :=
  option_map snd (find (fun b => (fst b =? code)%string) store).

Definition map_delete (code : string) (store : LoginStore) : LoginStore :=
  filter (fun b => negb (fst b =? code)%string) store.

(** [Map.prototype.set]: the value of an existing key is replaced where it
    stands, a new key is added at the end. *)
Fixpoint map_set (code : string) (r : LoginStoreRecord) (store : LoginStore)
  : LoginStore :=
  match store with
  | [] => [(code, r)]
  | b :: rest =>
      if (fst b =? code)%string then (code, r) :: rest
      else b :: map_set code r rest
  end.

Definition loginStore_set (now : Z) (code : string) (user : User)
    (tokens : TokenPair) (store : LoginStore) : LoginStore :=
  map_set code
    (mkLoginRecord user tokens
       (now + LOGIN_CODE_EXPIRY_MINUTES * ms_per_minute)) store.

Definition loginStore_get (now : Z) (code : string) (store : LoginStore)
  : option LoginStoreRecord * LoginStore :=
  match map_get code store with
  | None => (None, store)
  | Some record =>
      if lsr_expiresAt record <? now
      then (None, map_delete code store)
      else (Some record, store)
  end.

Definition loginStore_delete (code : string) (store : LoginStore)
  : LoginStore :=
  map_delete code store.

Definition cleanup (now : Z) (store : LoginStore) : LoginStore :=
  filter (fun b => negb (lsr_expiresAt (snd b) <? now)) store.

Definition exchangeCode (now : Z) (code : option string) (store : LoginStore)
  : Outcome (string * SerializedUser * TokenPair) * LoginStore :=
  if negb (truthy code) then (Throws (AppError "Missing login code" 400), store)
  else
    match loginStore_get now (assert_present code) store with
    | (None, store') =>
        (Throws (AppError "Invalid or expired login code" 400), store')
    | (Some record, store') =>
        (Returns ("Login successful", serializeUser (lsr_user record),
                  lsr_tokens record),
         loginStore_delete (assert_present code) store')
    end.

(** The store with every session handed to the owner [g] names for it. *)
Definition reassign_sessions (g : Session -> string) (w : World) : World :=
  set_sessions
    (map (fun s => mkSession (sid s) (g s) (refreshToken s) (userAgent s)
                             (ipAddress s) (expiresAt s))
         (sessions w)) w.

(** An account that holds the email [e], or the phone [p] when one is
    given. *)
Definition taken_by (e : string) (p : option string) (v : User) : bool :=
  (email v =? e)%string
  || (truthy p && match phone v with
                  | Some q => opt_eqb p q
                  | None => false
                  end).

(** More sample collaborators and data. *)

Definition sample_render_reset (name token url : string)
  : Outcome EmailTemplate :=
  Returns (mkTemplate "Reset your password" token url).
Definition sample_transport_up (to : string) (t : EmailTemplate) : bool :=
  true.
Definition sample_trim (s : string) : string := s.
Definition sample_jwtVerify_accounts (t : string) : JwtVerifyResult :=
  if (t =? "jwt.u1.jane@x.com")%string
  then Verified (mkPayload "u1" "jane@x.com")
  else if (t =? "jwt.u2.bob@x.com")%string
       then Verified (mkPayload "u2" "bob@x.com")
       else if (t =? "jwt.u3.carol@x.com")%string
            then Verified (mkPayload "u3" "carol@x.com")
            else VerifyThrows (JsonWebTokenError "invalid signature").

Definition sample_tokens : TokenPair :=
  mkTokenPair "jwt.u1.jane@x.com" "tok9" "15m".

Definition sample_store : LoginStore :=
  [("code-1", mkLoginRecord jane sample_tokens 2000)].

Definition sample_oauth : IOAuthUser :=
  mkOAuthUser "octo@x.com" "Octo" None "github" true.

(** Dave has asked for a change of email to an address Jane holds. *)
Definition dave : User :=
  mkUser "u4" "Dave" "dave@x.com" None None
         (mkEmailInfo true (Some (sample_hash "change-4")) (Some 5000)
                      (Some "jane@x.com") None)
         None
         (mkPasswordInfo (Some "bcrypt:old") None None)
         (mkLockout false None 0%N)
         true None.

Definition sample_world_pending : World :=
  mkWorld [jane; dave] [] 1000 0 0.

(** ** Properties *)

(** *** Generic facts on the storage primitives *)

Lemma user_update_run (i : string) (f : User -> User) (w : World)
    (stored : User) :
  find (fun v => (uid v =? i)%string) (users w) = Some stored ->
  user_update i f w = (Returns (f stored), rewrite_user i f w).
Proof. intros H. unfold user_update. rewrite H. reflexivity. Qed.

Lemma find_by_uid_hit (i : string) (l : list User) (u : User) :
  find (fun v => (uid v =? i)%string) l = Some u -> uid u = i.
Proof.
  intros H. apply find_some in H. destruct H as [_ H].
  now apply String.eqb_eq in H.
Qed.

Lemma find_present {A} (p : A -> bool) (l : list A) (a : A) :
  In a l -> p a = true -> exists b, find p l = Some b.
Proof.
  intros Hin Hp. destruct (find p l) as [b|] eqn:E; [now exists b|].
  pose proof (find_none _ _ E _ Hin) as F. congruence.
Qed.

(** *** Lock check *)

Lemma isAccountLocked_past (now until : Date) (user : User) :
  lockedUntil (lockoutInfo user) = Some until -> until <= now ->
  isAccountLocked now user = false.
Proof.
  intros Hd Hle. unfold isAccountLocked. rewrite Hd.
  replace (now <? until) with false by (symmetry; apply Z.ltb_ge; lia).
  apply andb_false_r.
Qed.

(** C3. [isAccountLocked] answers true exactly when the [isLocked] flag is
    set, [lockedUntil] is present and [lockedUntil] is after now; hence it
    answers false as soon as now has reached [lockedUntil], whatever the
    stored flag says. *)
Theorem isAccountLocked_spec (now : Date) (user : User) :
  (isAccountLocked now user = true <->
     isLocked (lockoutInfo user) = true /\
     exists until, lockedUntil (lockoutInfo user) = Some until /\ now < until)
  /\
  (forall until, lockedUntil (lockoutInfo user) = Some until ->
                 until <= now -> isAccountLocked now user = false).
Proof.
  unfold isAccountLocked. split.
  - split.
    + intros H. apply andb_true_iff in H. destruct H as [Hl Hu].
      split; [exact Hl|].
      destruct (lockedUntil (lockoutInfo user)) as [d|]; [|discriminate].
      exists d. split; [reflexivity|]. now apply Z.ltb_lt in Hu.
    + intros [Hl [d [Hd Hlt]]]. rewrite Hl, Hd. simpl. now apply Z.ltb_lt.
  - intros d Hd Hle. exact (isAccountLocked_past now d user Hd Hle).
Qed.

(** *** Access-token verification *)

(** What [verifyAccessToken] throws for each class of error of the JWT
    library: the code is 401 throughout, the message follows the class, and
    the generic "Invalid or expired access token" is left to a thrown value
    of another class. *)
Theorem verifyAccessToken_failure (token : string) (error : JwtThrown) :
  jwtVerify token = VerifyThrows error ->
  verifyAccessToken token =
    Throws (AppError
              (match error with
               | TokenExpiredError => "Access token has expired"
               | NotBeforeError => "Access token not yet valid"
               | JsonWebTokenError _ => "Invalid access token"
               | OtherThrown _ => "Invalid or expired access token"
               end) 401).
Proof.
  intros H. unfold verifyAccessToken. rewrite H.
  destruct error; reflexivity.
Qed.

(** *** Failed logins and the lockout *)

Lemma increment_run (user stored : User) (w : World) :
  find (fun v => (uid v =? uid user)%string) (users w) = Some stored ->
  incrementFailedLoginAttempts user w =
    (Returns tt,
     rewrite_user (uid user)
       (with_lockoutInfo (lockout_written (clock w) (lockoutInfo user))) w).
Proof.
  intros Hf.
  unfold incrementFailedLoginAttempts, lockout_written, rewrite_user.
  destruct (maxLoginAttempts security
            <=? Z.of_N (failedAttemptCount (lockoutInfo user) + 1));
    unfold bind, addMinutes, currentDate, ret, user_update; simpl;
    rewrite Hf; reflexivity.
Qed.

Lemma rewrite_user_by_uid (i : string) (f : User -> User) (w : World) :
  (forall v, uid (f v) = uid v) ->
  find (fun v => (uid v =? i)%string) (users (rewrite_user i f w)) =
  option_map f (find (fun v => (uid v =? i)%string) (users w)).
Proof.
  intros Hid. unfold rewrite_user; simpl.
  induction (users w) as [|a l IH]; simpl; [reflexivity|].
  destruct (uid a =? i)%string eqn:E.
  - rewrite Hid, E. reflexivity.
  - rewrite E. exact IH.
Qed.

Lemma rewrite_user_by_email (e : string) (f : User -> User) (w : World)
    (u : User) :
  (forall v, email (f v) = email v) ->
  find (fun v => (email v =? e)%string) (users w) = Some u ->
  find (fun v => (email v =? e)%string) (users (rewrite_user (uid u) f w)) =
  Some (f u).
Proof.
  intros Hem. unfold rewrite_user; simpl.
  induction (users w) as [|a l IH]; simpl; [discriminate|].
  destruct (email a =? e)%string eqn:E.
  - intros [= ->]. rewrite String.eqb_refl, Hem, E. reflexivity.
  - intros Hf. specialize (IH Hf).
    destruct (uid a =? uid u)%string; [rewrite Hem|]; rewrite E; exact IH.
Qed.

Lemma found_by_email_has_uid (e : string) (w : World) (u : User) :
  find (fun v => (email v =? e)%string) (users w) = Some u ->
  exists stored, find (fun v => (uid v =? uid u)%string) (users w) = Some stored.
Proof.
  intros Hf. apply find_some in Hf. destruct Hf as [Hin _].
  apply (find_present _ _ u Hin). apply String.eqb_refl.
Qed.

(** A login with a wrong password on an account that passes the three
    gates: the call returns [{ user, isValid: false }] and the lockout
    document is rewritten. *)
Lemma wrong_password_run (e password : string) (w : World) (u : User) :
  find (fun v => (email v =? e)%string) (users w) = Some u ->
  truthy (provider (emailInfo u)) && negb (truthy (hash (passwordInfo u)))
    = false ->
  isVerified (emailInfo u) = true ->
  isAccountLocked (clock w) u = false ->
  comparePassword (hash (passwordInfo u)) password = false ->
  authenticateUser e password w =
    (Returns (Some u, false),
     rewrite_user (uid u)
       (with_lockoutInfo (lockout_written (clock w) (lockoutInfo u))) w).
Proof.
  intros Hf Hsoc Hver Hlock Hpw.
  destruct (found_by_email_has_uid _ _ _ Hf) as [stored Hs].
  unfold authenticateUser, bind at 1, user_findUnique_email.
  rewrite Hf, Hsoc, Hver. cbn [negb]. cbv beta iota.
  unfold bind at 1, currentDate. rewrite Hlock, Hpw. cbn [negb]. cbv beta iota.
  unfold bind at 1. rewrite (increment_run _ _ _ Hs). reflexivity.
Qed.

Lemma failedLogins_S (n : nat) (e password : string) (w : World) :
  failedLogins (S n) e password w =
  match failedLogins n e password w with
  | (Returns _, w1) =>
      match authenticateUser e password w1 with
      | (Returns _, w2) => (Returns tt, w2)
      | (Throws x, w2) => (Throws x, w2)
      end
  | (Throws x, w1) => (Throws x, w1)
  end.
Proof.
  simpl. unfold bind at 1. destruct (failedLogins n e password w) as [[a|x] w1];
    [|reflexivity].
  unfold bind at 1. destruct (authenticateUser e password w1) as [[b|x] w2];
    reflexivity.
Qed.

Lemma with_lockoutInfo_same (u : User) :
  with_lockoutInfo (lockoutInfo u) u = u.
Proof. destruct u; reflexivity. Qed.

(** Below the threshold, [n] wrong passwords in a row only count. *)
Lemma failedLogins_below (e password : string) (w : World) (u : User)
    (c0 : N) (n : nat) :
  find (fun v => (email v =? e)%string) (users w) = Some u ->
  truthy (provider (emailInfo u)) && negb (truthy (hash (passwordInfo u)))
    = false ->
  isVerified (emailInfo u) = true ->
  comparePassword (hash (passwordInfo u)) password = false ->
  lockoutInfo u = mkLockout false None c0 ->
  Z.of_N c0 + Z.of_nat n < maxLoginAttempts security ->
  exists wn,
    failedLogins n e password w = (Returns tt, wn) /\
    clock wn = clock w /\
    find (fun v => (email v =? e)%string) (users wn) =
      Some (with_lockoutInfo (mkLockout false None (c0 + N.of_nat n)%N) u).
Proof.
  intros Hf Hsoc Hver Hpw Hlo. induction n as [|k IH]; intros Hlt.
  - exists w. repeat split; [].
    rewrite Hf. f_equal. simpl N.of_nat. rewrite N.add_0_r, <- Hlo.
    symmetry. apply with_lockoutInfo_same.
  - destruct IH as [wk [Hrun [Hclk Hfk]]]; [lia|].
    set (uk := with_lockoutInfo (mkLockout false None (c0 + N.of_nat k)%N) u)
      in *.
    assert (Hstep := wrong_password_run e password wk uk Hfk Hsoc Hver
                       eq_refl Hpw).
    rewrite failedLogins_S, Hrun, Hstep.
    eexists. split; [reflexivity|]. split; [exact Hclk|].
    rewrite (rewrite_user_by_email e
               (with_lockoutInfo (lockout_written (clock wk) (lockoutInfo uk)))
               wk uk (fun v => eq_refl) Hfk).
    f_equal. unfold lockout_written. subst uk. simpl.
    replace (maxLoginAttempts security <=? Z.of_N (c0 + N.of_nat k + 1))
      with false by (symmetry; apply Z.leb_gt; lia).
    simpl. unfold with_lockoutInfo. simpl. do 2 f_equal. lia.
Qed.

(** C4. [incrementFailedLoginAttempts] writes a count one higher than the
    one it was given; when the new count has reached [maxLoginAttempts] it
    writes [isLocked = true] and [lockedUntil = now + loginLockTime]
    minutes, and [isLocked = false] otherwise. With [maxLoginAttempts = 5]
    and a zeroed lockout, four wrong passwords in a row leave
    [isLocked = false] and a count of 4, and the fifth sets
    [isLocked = true]. *)
Theorem incrementFailedLoginAttempts_spec :
  (forall (user stored : User) (w : World),
     find (fun v => (uid v =? uid user)%string) (users w) = Some stored ->
     exists w' after,
       incrementFailedLoginAttempts user w = (Returns tt, w') /\
       find (fun v => (uid v =? uid user)%string) (users w') = Some after /\
       failedAttemptCount (lockoutInfo after) =
         (failedAttemptCount (lockoutInfo user) + 1)%N /\
       (maxLoginAttempts security
          <= Z.of_N (failedAttemptCount (lockoutInfo user) + 1) ->
        isLocked (lockoutInfo after) = true /\
        lockedUntil (lockoutInfo after) =
          Some (clock w + loginLockTime security * ms_per_minute)) /\
       (Z.of_N (failedAttemptCount (lockoutInfo user) + 1)
          < maxLoginAttempts security ->
        isLocked (lockoutInfo after) = false))
  /\
  (forall (e password : string) (w : World) (u : User),
     maxLoginAttempts security = 5 ->
     find (fun v => (email v =? e)%string) (users w) = Some u ->
     truthy (provider (emailInfo u)) && negb (truthy (hash (passwordInfo u)))
       = false ->
     isVerified (emailInfo u) = true ->
     comparePassword (hash (passwordInfo u)) password = false ->
     lockoutInfo u = mkLockout false None 0%N ->
     exists w4 u4 w5 u5,
       failedLogins 4 e password w = (Returns tt, w4) /\
       find (fun v => (email v =? e)%string) (users w4) = Some u4 /\
       lockoutInfo u4 = mkLockout false None 4%N /\
       failedLogins 5 e password w = (Returns tt, w5) /\
       find (fun v => (email v =? e)%string) (users w5) = Some u5 /\
       lockoutInfo u5 =
         mkLockout true
           (Some (clock w + loginLockTime security * ms_per_minute)) 5%N).
Proof.
  split.
  - intros user stored w Hs.
    exists (rewrite_user (uid user)
              (with_lockoutInfo (lockout_written (clock w) (lockoutInfo user)))
              w).
    exists (with_lockoutInfo (lockout_written (clock w) (lockoutInfo user))
                             stored).
    split; [exact (increment_run _ _ _ Hs)|].
    split; [rewrite rewrite_user_by_uid, Hs by reflexivity; reflexivity|].
    unfold lockout_written. cbn [lockoutInfo with_lockoutInfo].
    destruct (maxLoginAttempts security
              <=? Z.of_N (failedAttemptCount (lockoutInfo user) + 1)) eqn:E.
    + simpl. repeat split. intros Hlt. apply Z.leb_le in E. lia.
    + simpl. split; [reflexivity|]. split; [|reflexivity].
      intros Hle. apply Z.leb_gt in E. lia.
  - intros e password w u Hmax Hf Hsoc Hver Hpw Hlo.
    destruct (failedLogins_below e password w u 0%N 4 Hf Hsoc Hver Hpw Hlo)
      as [w4 [Hrun [Hclk Hf4]]]; [rewrite Hmax; reflexivity|].
    set (u4 := with_lockoutInfo (mkLockout false None (0 + N.of_nat 4)%N) u)
      in *.
    assert (Hstep := wrong_password_run e password w4 u4 Hf4 Hsoc Hver
                       eq_refl Hpw).
    exists w4, u4. eexists. eexists.
    split; [exact Hrun|]. split; [exact Hf4|]. split; [reflexivity|].
    split; [rewrite failedLogins_S, Hrun, Hstep; reflexivity|].
    split.
    + apply (rewrite_user_by_email e
               (with_lockoutInfo (lockout_written (clock w4) (lockoutInfo u4)))
               w4 u4 (fun v => eq_refl) Hf4).
    + unfold lockout_written. subst u4. simpl. rewrite Hmax, Hclk. reflexivity.
Qed.

(** C10. An account whose count has reached [maxLoginAttempts] and whose
    [lockedUntil] has passed is not locked for [isAccountLocked], so a login
    goes on to the password check; the counter is left as it was, and one
    more wrong password locks the account again at once, with a
    [lockedUntil] in the future. *)
Theorem expired_lock_relocks (e password : string) (w : World) (u : User)
    (until : Date) :
  0 < loginLockTime security ->
  find (fun v => (email v =? e)%string) (users w) = Some u ->
  truthy (provider (emailInfo u)) && negb (truthy (hash (passwordInfo u)))
    = false ->
  isVerified (emailInfo u) = true ->
  maxLoginAttempts security <= Z.of_N (failedAttemptCount (lockoutInfo u)) ->
  lockedUntil (lockoutInfo u) = Some until ->
  until <= clock w ->
  comparePassword (hash (passwordInfo u)) password = false ->
  isAccountLocked (clock w) u = false /\
  exists w' u',
    authenticateUser e password w = (Returns (Some u, false), w') /\
    clock w' = clock w /\
    find (fun v => (email v =? e)%string) (users w') = Some u' /\
    failedAttemptCount (lockoutInfo u') =
      (failedAttemptCount (lockoutInfo u) + 1)%N /\
    isLocked (lockoutInfo u') = true /\
    lockedUntil (lockoutInfo u') =
      Some (clock w + loginLockTime security * ms_per_minute) /\
    clock w < clock w + loginLockTime security * ms_per_minute /\
    isAccountLocked (clock w') u' = true.
Proof.
  intros Hpos Hf Hsoc Hver Hmax Hun Hpast Hpw.
  assert (Hfree : isAccountLocked (clock w) u = false)
    by exact (isAccountLocked_past (clock w) until u Hun Hpast).
  split; [exact Hfree|].
  assert (Hstep := wrong_password_run e password w u Hf Hsoc Hver Hfree Hpw).
  assert (Hw : lockout_written (clock w) (lockoutInfo u) =
               mkLockout true
                 (Some (clock w + loginLockTime security * ms_per_minute))
                 (failedAttemptCount (lockoutInfo u) + 1)%N).
  { unfold lockout_written.
    replace (maxLoginAttempts security
             <=? Z.of_N (failedAttemptCount (lockoutInfo u) + 1))
      with true by (symmetry; apply Z.leb_le; lia).
    reflexivity. }
  eexists. eexists. split; [exact Hstep|]. split; [reflexivity|].
  split; [apply (rewrite_user_by_email e
                   (with_lockoutInfo (lockout_written (clock w) (lockoutInfo u)))
                   w u (fun v => eq_refl) Hf)|].
  rewrite Hw. cbn [lockoutInfo with_lockoutInfo failedAttemptCount isLocked
                   lockedUntil].
  repeat split.
  - unfold ms_per_minute. lia.
  - unfold isAccountLocked. simpl. apply Z.ltb_lt. unfold ms_per_minute. lia.
Qed.

(** *** Refresh-token rotation *)

Lemma find_absent {A} (p : A -> bool) (l : list A) :
  (forall a, In a l -> p a = false) -> find p l = None.
Proof.
  intros H. induction l as [|a l IH]; simpl; [reflexivity|].
  rewrite (H a (or_introl eq_refl)). apply IH.
  intros b Hb. apply H. now right.
Qed.

(** What [refreshAccessToken] does once the lookup has answered. *)
Lemma refreshAccessToken_run (t : string) (w : World) :
  refreshAccessToken t w =
  match find (fun s => (refreshToken s =? hashData t)%string
                       && (clock w <? expiresAt s)) (sessions w) with
  | None => (Throws (AppError "Invalid or expired refresh token" 500), w)
  | Some s =>
      match find (fun v => (uid v =? userId s)%string) (users w) with
      | None => (Throws (AppError "User not found" 500), w)
      | Some owner =>
          let kept := filter (fun x => negb (refreshToken x =? hashData t)%string)
                             (sessions w) in
          let fresh := randomBytesHex 40 (draws w) in
          if existsb (fun x => (refreshToken x =? hashData fresh)%string) kept
          then (Throws P2002,
                mkWorld (users w) kept (clock w) (S (draws w)) (minted w))
          else
            (Returns (mkTokenPair (jwtSign (mkPayload (uid owner) (email owner)))
                                  fresh (jwt_expiresIn jwtConfig)),
             mkWorld (users w)
               (kept ++ [mkSession (newObjectId (minted w)) (uid owner)
                                   (hashData fresh) None None
                                   (dayjsAddDay (refreshExpiresDays jwtConfig)
                                      (clock w))])
               (clock w) (S (draws w)) (S (minted w)))
      end
  end.
Proof.
  unfold refreshAccessToken, bind at 1, currentDate.
  unfold bind at 1, session_findFirst.
  destruct (find _ (sessions w)) as [s|] eqn:Hs; [|reflexivity].
  unfold bind at 1, user_findUnique_id.
  destruct (find _ (users w)) as [owner|] eqn:Ho; [|reflexivity].
  apply find_some in Hs. destruct Hs as [Hin Hp].
  apply andb_true_iff in Hp. destruct Hp as [Hh _].
  destruct (find_present (fun x => (refreshToken x =? hashData t)%string)
              _ s Hin Hh) as [s0 Hs0].
  unfold bind at 1, revokeRefreshToken, session_delete. rewrite Hs0.
  unfold generateTokenPair, createSession, generateAccessToken, bind,
    generateRandomString, addDays, currentDate, ret, session_create,
    set_sessions. simpl.
  destruct (existsb _ _); reflexivity.
Qed.

(** C1. [refreshAccessToken] succeeds only if a session holds the hash of
    the presented token and expires strictly after now; when there is none
    it throws "Invalid or expired refresh token" and leaves the store as it
    was; on success every stored session carrying that hash has been
    deleted and a new access/refresh pair has been issued, its refresh
    token stored, hashed, in one new session of the same owner. It does
    succeed when the session and its owner are found and the new hash is
    not already stored. *)
Theorem refreshAccessToken_rotation (t : string) (w : World) :
  let h := hashData t in
  let fresh := randomBytesHex 40 (draws w) in
  let kept := filter (fun x => negb (refreshToken x =? h)%string) (sessions w) in
  ((forall s, In s (sessions w) -> refreshToken s = h ->
              clock w < expiresAt s -> False) ->
   refreshAccessToken t w =
     (Throws (AppError "Invalid or expired refresh token" 500), w))
  /\
  (forall pair w',
     refreshAccessToken t w = (Returns pair, w') ->
     exists s owner,
       In s (sessions w) /\ refreshToken s = h /\ clock w < expiresAt s /\
       In owner (users w) /\ uid owner = userId s /\
       ~ In s kept /\
       sessions w' =
         (kept ++ [mkSession (newObjectId (minted w)) (userId s)
                             (hashData fresh) None None
                             (dayjsAddDay (refreshExpiresDays jwtConfig)
                                (clock w))])%list
       /\
       users w' = users w /\
       pair = mkTokenPair (jwtSign (mkPayload (uid owner) (email owner)))
                          fresh (jwt_expiresIn jwtConfig))
  /\
  (forall s owner,
     find (fun x => (refreshToken x =? h)%string && (clock w <? expiresAt x))
          (sessions w) = Some s ->
     find (fun v => (uid v =? userId s)%string) (users w) = Some owner ->
     existsb (fun x => (refreshToken x =? hashData fresh)%string) kept = false ->
     exists pair w', refreshAccessToken t w = (Returns pair, w')).
Proof.
  intros h fresh kept. rewrite refreshAccessToken_run.
  split; [|split].
  - intros Hnone. rewrite find_absent; [reflexivity|].
    intros s Hin. apply not_true_is_false. intros Hp.
    apply andb_true_iff in Hp. destruct Hp as [Hh Hx].
    apply String.eqb_eq in Hh. apply Z.ltb_lt in Hx.
    exact (Hnone s Hin Hh Hx).
  - intros pair w'.
    destruct (find _ (sessions w)) as [s|] eqn:Hs; [|discriminate].
    destruct (find _ (users w)) as [owner|] eqn:Ho; [|discriminate].
    cbv zeta.
    destruct (List.existsb _ _); [discriminate|].
    intros [= <- <-].
    apply find_some in Hs. destruct Hs as [Hin Hp].
    apply andb_true_iff in Hp. destruct Hp as [Hh Hx].
    pose proof (find_by_uid_hit _ _ _ Ho) as Hid.
    apply find_some in Ho. destruct Ho as [Hino _].
    exists s, owner. simpl. rewrite Hid.
    repeat split; try assumption.
    + now apply String.eqb_eq.
    + now apply Z.ltb_lt.
    + intros Hk. unfold kept in Hk. apply filter_In in Hk.
      destruct Hk as [_ Hk]. unfold h in Hk. rewrite Hh in Hk. discriminate.
  - intros s owner Hs Ho Hfresh. unfold h in Hs. rewrite Hs, Ho. cbv zeta.
    unfold kept, fresh, h in Hfresh. rewrite Hfresh.
    eexists. eexists. reflexivity.
Qed.

(** *** Password reset *)

Lemma opt_eqb_true (a : option string) (b : string) :
  opt_eqb a b = true -> a = Some b.
Proof.
  destruct a as [a|]; simpl; [|discriminate].
  intros H. apply String.eqb_eq in H. now subst.
Qed.

Lemma resetPasswordWithToken_run (t newPassword : string) (w : World) :
  resetPasswordWithToken t newPassword w =
  match find (fun u => opt_eqb (resetToken (passwordInfo u)) (hashData t)
                       && opt_gt (resetExpires (passwordInfo u)) (clock w))
             (users w) with
  | None =>
      (Throws (AppError "Invalid or expired password reset token" 500), w)
  | Some u =>
      (Returns tt,
       set_sessions
         (filter (fun s => negb (userId s =? uid u)%string) (sessions w))
         (rewrite_user (uid u) (reset_data u (bcryptHash newPassword)) w))
  end.
Proof.
  unfold resetPasswordWithToken, bind at 1, currentDate.
  unfold bind at 1, user_findFirst.
  destruct (find _ (users w)) as [u|] eqn:Hu; [|reflexivity].
  apply find_some in Hu. destruct Hu as [Hin _].
  destruct (find_present (fun v => (uid v =? uid u)%string) _ u Hin
              (String.eqb_refl _)) as [stored Hs].
  unfold bind, hashPassword, ret, user_update. rewrite Hs. reflexivity.
Qed.

(** C5. For an account matched by an unexpired reset token,
    [resetPasswordWithToken] returns, stores the hash of the new password
    and clears the reset-token fields; an account whose [isLocked] flag was
    set (in particular one that [isAccountLocked] reports locked) is
    unlocked with a zero count; an unverified email becomes verified
    and its verification-token fields are cleared; no session of the
    account is left. *)
Theorem resetPasswordWithToken_effect (t newPassword : string) (w : World)
    (u : User) :
  find (fun v => opt_eqb (resetToken (passwordInfo v)) (hashData t)
                 && opt_gt (resetExpires (passwordInfo v)) (clock w))
       (users w) = Some u ->
  exists w' after,
    resetPasswordWithToken t newPassword w = (Returns tt, w') /\
    find (fun v => (uid v =? uid u)%string) (users w') = Some after /\
    passwordInfo after =
      mkPasswordInfo (Some (bcryptHash newPassword)) None None /\
    (isLocked (lockoutInfo u) = true ->
     lockoutInfo after = mkLockout false None 0%N) /\
    (isAccountLocked (clock w) u = true ->
     lockoutInfo after = mkLockout false None 0%N) /\
    (isVerified (emailInfo u) = false ->
     isVerified (emailInfo after) = true /\
     verificationToken (emailInfo after) = None /\
     verificationExpires (emailInfo after) = None) /\
    (forall s, In s (sessions w') -> userId s <> uid u).
Proof.
  intros Hu. rewrite resetPasswordWithToken_run, Hu.
  pose proof Hu as Hin. apply find_some in Hin. destruct Hin as [Hin _].
  destruct (find_present (fun v => (uid v =? uid u)%string) _ u Hin
              (String.eqb_refl _)) as [stored Hs].
  eexists. exists (reset_data u (bcryptHash newPassword) stored).
  split; [reflexivity|]. split.
  - change (users (set_sessions ?ss ?x)) with (users x).
    rewrite rewrite_user_by_uid, Hs by reflexivity. reflexivity.
  - split; [reflexivity|]. unfold reset_data. simpl.
    split; [intros ->; reflexivity|].
    split.
    { intros Hl. unfold isAccountLocked in Hl. apply andb_true_iff in Hl.
      destruct Hl as [-> _]. reflexivity. }
    split; [intros ->; repeat split|].
    intros s Hs' Heq. apply filter_In in Hs'. destruct Hs' as [_ Hs'].
    rewrite Heq, String.eqb_refl in Hs'. discriminate.
Qed.

(** The world a login with the right password leaves. *)
Lemma right_password_run (e password : string) (w : World) (u : User) :
  find (fun v => (email v =? e)%string) (users w) = Some u ->
  truthy (provider (emailInfo u)) && negb (truthy (hash (passwordInfo u)))
    = false ->
  isVerified (emailInfo u) = true ->
  isAccountLocked (clock w) u = false ->
  comparePassword (hash (passwordInfo u)) password = true ->
  exists w',
    authenticateUser e password w = (Returns (Some u, true), w') /\
    find (fun v => (email v =? e)%string) (users w') =
      Some (with_lastLoginAt (Some (clock w))
              (if (0 <? failedAttemptCount (lockoutInfo u))%N
               then with_lockoutInfo (mkLockout false None 0%N) u
               else u)).
Proof.
  intros Hf Hsoc Hver Hlock Hpw.
  destruct (found_by_email_has_uid _ _ _ Hf) as [stored Hs].
  unfold authenticateUser, bind at 1, user_findUnique_email.
  rewrite Hf, Hsoc, Hver. cbn [negb]. cbv beta iota.
  unfold bind at 1, currentDate. rewrite Hlock, Hpw. cbn [negb]. cbv beta iota.
  destruct (0 <? failedAttemptCount (lockoutInfo u))%N.
  - set (f := with_lockoutInfo (mkLockout false None 0%N)).
    assert (Hs1 : find (fun v => (uid v =? uid u)%string)
                       (users (rewrite_user (uid u) f w)) = Some (f stored))
      by (rewrite rewrite_user_by_uid, Hs by reflexivity; reflexivity).
    assert (Hf1 := rewrite_user_by_email e f w u (fun v => eq_refl) Hf).
    unfold resetFailedLoginAttempts, bind, user_update, ret. fold f.
    rewrite Hs. cbv beta iota. rewrite Hs1.
    eexists. split; [reflexivity|].
    exact (rewrite_user_by_email e (with_lastLoginAt (Some (clock w)))
             (rewrite_user (uid u) f w) (f u) (fun v => eq_refl) Hf1).
  - unfold bind, user_update, ret. rewrite Hs.
    eexists. split; [reflexivity|].
    exact (rewrite_user_by_email e (with_lastLoginAt (Some (clock w)))
             w u (fun v => eq_refl) Hf).
Qed.

(** C6 (amended). A password login that returns [isValid: true] leaves the
    account with [failedAttemptCount = 0]. A password reset zeroes the count
    when the account's [isLocked] flag was set, and leaves the count as it
    was when the flag was not set. *)
Theorem failedAttemptCount_reset :
  (forall (e password : string) (w w' : World) (u : User),
     authenticateUser e password w = (Returns (Some u, true), w') ->
     exists after,
       find (fun v => (email v =? e)%string) (users w') = Some after /\
       uid after = uid u /\
       failedAttemptCount (lockoutInfo after) = 0%N)
  /\
  (forall (t newPassword : string) (w : World) (u : User),
     find (fun v => opt_eqb (resetToken (passwordInfo v)) (hashData t)
                    && opt_gt (resetExpires (passwordInfo v)) (clock w))
          (users w) = Some u ->
     exists w' after,
       resetPasswordWithToken t newPassword w = (Returns tt, w') /\
       find (fun v => (uid v =? uid u)%string) (users w') = Some after /\
       (isLocked (lockoutInfo u) = true ->
        failedAttemptCount (lockoutInfo after) = 0%N) /\
       (isLocked (lockoutInfo u) = false ->
        failedAttemptCount (lockoutInfo after) =
          failedAttemptCount (lockoutInfo u))).
Proof.
  split.
  - intros e password w w' u Hrun.
    destruct (find (fun v => (email v =? e)%string) (users w)) as [u0|] eqn:Hf.
    2:{ unfold authenticateUser, bind at 1, user_findUnique_email in Hrun.
        rewrite Hf in Hrun. discriminate. }
    destruct (truthy (provider (emailInfo u0))
              && negb (truthy (hash (passwordInfo u0)))) eqn:Hsoc.
    { unfold authenticateUser, bind at 1, user_findUnique_email in Hrun.
      rewrite Hf, Hsoc in Hrun. discriminate. }
    destruct (isVerified (emailInfo u0)) eqn:Hver.
    2:{ unfold authenticateUser, bind at 1, user_findUnique_email in Hrun.
        rewrite Hf, Hsoc, Hver in Hrun. discriminate. }
    destruct (isAccountLocked (clock w) u0) eqn:Hlock.
    { unfold authenticateUser, bind at 1, user_findUnique_email in Hrun.
      rewrite Hf, Hsoc, Hver in Hrun. cbn [negb] in Hrun.
      cbv beta iota in Hrun. unfold bind at 1, currentDate in Hrun.
      rewrite Hlock in Hrun. discriminate. }
    destruct (comparePassword (hash (passwordInfo u0)) password) eqn:Hpw.
    + destruct (right_password_run e password w u0 Hf Hsoc Hver Hlock Hpw)
        as [w1 [Hrun1 Hf1]].
      rewrite Hrun1 in Hrun. injection Hrun as <- <-.
      eexists. split; [exact Hf1|]. split.
      * destruct (0 <? failedAttemptCount (lockoutInfo u0))%N; reflexivity.
      * destruct (0 <? failedAttemptCount (lockoutInfo u0))%N eqn:Hc;
          [reflexivity|].
        simpl. apply N.ltb_ge in Hc. lia.
    + rewrite (wrong_password_run e password w u0 Hf Hsoc Hver Hlock Hpw)
        in Hrun.
      discriminate.
  - intros t newPassword w u Hu. rewrite resetPasswordWithToken_run, Hu.
    pose proof Hu as Hin. apply find_some in Hin. destruct Hin as [Hin _].
    destruct (find_present (fun v => (uid v =? uid u)%string) _ u Hin
                (String.eqb_refl _)) as [stored Hs].
    eexists. exists (reset_data u (bcryptHash newPassword) stored).
    split; [reflexivity|]. split.
    + change (users (set_sessions ?ss ?x)) with (users x).
      rewrite rewrite_user_by_uid, Hs by reflexivity. reflexivity.
    + unfold reset_data. simpl. split; intros ->; reflexivity.
Qed.

(** *** Single use of verification and reset tokens *)

(** Once the document that carried the hash [h] in field [tok] has been
    rewritten by an update that clears the field, no document matches a
    filter that requires [tok = h], provided [h] was held by one account. *)
Lemma consumed_no_match (tok : User -> option string) (p : User -> bool)
    (f : User -> User) (h : string) (u : User) (l : list User) :
  (forall v, p v = true -> tok v = Some h) ->
  (forall v, tok (f v) = None) ->
  tok u = Some h ->
  (forall a, In a l -> tok a = Some h -> uid a = uid u) ->
  find p (map (fun v => if (uid v =? uid u)%string then f v else v) l) = None.
Proof.
  intros Hp Hclear Hu Huniq. apply find_absent. intros a Ha.
  apply in_map_iff in Ha. destruct Ha as [v [<- Hv]].
  destruct (uid v =? uid u)%string eqn:E.
  - destruct (p (f v)) eqn:Hpf; [|reflexivity].
    apply Hp in Hpf. rewrite Hclear in Hpf. discriminate.
  - destruct (p v) eqn:Hpv; [|reflexivity].
    apply Hp in Hpv. apply (Huniq v Hv) in Hpv.
    rewrite Hpv, String.eqb_refl in E. discriminate.
Qed.

Lemma verifyEmailWithToken_success (t : string) (w w' : World)
    (r : User * bool) :
  verifyEmailWithToken t w = (Returns r, w') ->
  exists u stored,
    find (fun v => opt_eqb (verificationToken (emailInfo v)) (hashData t)
                   && opt_gt (verificationExpires (emailInfo v)) (clock w))
         (users w) = Some u /\
    w' = rewrite_user (uid u) (verified_data u) w /\
    r = (verified_data u stored, negb (isVerified (emailInfo u))).
Proof.
  unfold verifyEmailWithToken, bind at 1, currentDate.
  unfold bind at 1, user_findFirst.
  destruct (find _ (users w)) as [u|] eqn:Hu; [|discriminate].
  pose proof Hu as Hin. apply find_some in Hin. destruct Hin as [Hin _].
  destruct (find_present (fun v => (uid v =? uid u)%string) _ u Hin
              (String.eqb_refl _)) as [stored Hs].
  unfold bind at 1.
  destruct (truthy (pendingEmail (emailInfo u))).
  - unfold bind at 1.
    destruct (find (fun u0 => opt_eqb _ (email u0) && _) (users w))
      as [taken|]; [discriminate|].
    unfold ret, bind, user_update. rewrite Hs. intros [= <- <-].
    exists u, stored. repeat split.
  - unfold ret, bind, user_update. rewrite Hs. intros [= <- <-].
    exists u, stored. repeat split.
Qed.

Lemma verifyEmailWithToken_run (t : string) (w : World) (d stored : User) :
  find (fun v => opt_eqb (verificationToken (emailInfo v)) (hashData t)
                 && opt_gt (verificationExpires (emailInfo v)) (clock w))
       (users w) = Some d ->
  (truthy (pendingEmail (emailInfo d)) = true ->
   find (fun v => opt_eqb (pendingEmail (emailInfo d)) (email v)
                  && negb (uid v =? uid d)%string) (users w) = None) ->
  find (fun v => (uid v =? uid d)%string) (users w) = Some stored ->
  verifyEmailWithToken t w =
    (Returns (verified_data d stored, negb (isVerified (emailInfo d))),
     rewrite_user (uid d) (verified_data d) w).
Proof.
  intros Hd Hfree Hs.
  unfold verifyEmailWithToken, bind at 1, currentDate.
  unfold bind at 1, user_findFirst. rewrite Hd.
  unfold bind at 1.
  destruct (truthy (pendingEmail (emailInfo d))) eqn:Hp.
  - unfold bind at 1. rewrite (Hfree eq_refl).
    unfold ret at 1. unfold bind. erewrite user_update_run by exact Hs.
    reflexivity.
  - unfold ret at 1. unfold bind. erewrite user_update_run by exact Hs.
    reflexivity.
Qed.

(** C2. Verification tokens are single-use. A successful
    [verifyEmailWithToken] is one update that marks the email verified and
    clears the stored hash and expiry; a successful
    [resetPasswordWithToken] is one update that stores the new password
    hash and clears the reset hash and expiry. With the hash held by one
    account, presenting the same plaintext again, at any time, fails with
    the invalid-or-expired error. Both operations do consume a token: the
    verification returns when an account holds the hash with an expiry
    after now and its pending address, if any, is free; the reset returns
    when an account holds the hash with an expiry after now. *)
Theorem tokens_single_use (t : string) :
  (forall (w w' : World) (r : User * bool),
     (forall a b, In a (users w) -> In b (users w) ->
        verificationToken (emailInfo a) = Some (hashData t) ->
        verificationToken (emailInfo b) = Some (hashData t) ->
        uid a = uid b) ->
     verifyEmailWithToken t w = (Returns r, w') ->
     (isVerified (emailInfo (fst r)) = true /\
      verificationToken (emailInfo (fst r)) = None /\
      verificationExpires (emailInfo (fst r)) = None) /\
     forall w2, users w2 = users w' ->
       verifyEmailWithToken t w2 =
         (Throws (AppError "Invalid or expired email verification token" 403),
          w2))
  /\
  (forall (w w' : World) (newPassword : string),
     (forall a b, In a (users w) -> In b (users w) ->
        resetToken (passwordInfo a) = Some (hashData t) ->
        resetToken (passwordInfo b) = Some (hashData t) ->
        uid a = uid b) ->
     resetPasswordWithToken t newPassword w = (Returns tt, w') ->
     (exists u, In u (users w) /\
        users w' = users (rewrite_user (uid u)
                            (reset_data u (bcryptHash newPassword)) w) /\
        forall v, passwordInfo (reset_data u (bcryptHash newPassword) v) =
                  mkPasswordInfo (Some (bcryptHash newPassword)) None None) /\
     forall w2 again, users w2 = users w' ->
       resetPasswordWithToken t again w2 =
         (Throws (AppError "Invalid or expired password reset token" 500),
          w2))
  /\
  (forall (w : World) (d : User),
     find (fun v => opt_eqb (verificationToken (emailInfo v)) (hashData t)
                    && opt_gt (verificationExpires (emailInfo v)) (clock w))
          (users w) = Some d ->
     (truthy (pendingEmail (emailInfo d)) = true ->
      find (fun v => opt_eqb (pendingEmail (emailInfo d)) (email v)
                     && negb (uid v =? uid d)%string) (users w) = None) ->
     exists r w', verifyEmailWithToken t w = (Returns r, w'))
  /\
  (forall (w : World) (newPassword : string) (u : User),
     find (fun v => opt_eqb (resetToken (passwordInfo v)) (hashData t)
                    && opt_gt (resetExpires (passwordInfo v)) (clock w))
          (users w) = Some u ->
     exists w', resetPasswordWithToken t newPassword w = (Returns tt, w')).
Proof.
  split; [|split; [|split]].
  - intros w w' r Huniq Hrun.
    destruct (verifyEmailWithToken_success _ _ _ _ Hrun)
      as [u [stored [Hu [-> ->]]]].
    split; [repeat split|].
    intros w2 Hw2.
    pose proof Hu as Hin. apply find_some in Hin. destruct Hin as [Hin Hp].
    apply andb_true_iff in Hp. destruct Hp as [Hp _].
    apply opt_eqb_true in Hp.
    unfold verifyEmailWithToken, bind at 1, currentDate.
    unfold bind at 1, user_findFirst. rewrite Hw2.
    unfold rewrite_user, set_users, users at 1.
    rewrite (consumed_no_match (fun v => verificationToken (emailInfo v)) _
               (verified_data u) (hashData t) u (users w)).
    + reflexivity.
    + intros v Hv. apply andb_true_iff in Hv. destruct Hv as [Hv _].
      now apply opt_eqb_true.
    + reflexivity.
    + exact Hp.
    + intros a Ha Hta. exact (Huniq a u Ha Hin Hta Hp).
  - intros w w' newPassword Huniq Hrun.
    rewrite resetPasswordWithToken_run in Hrun.
    destruct (find _ (users w)) as [u|] eqn:Hu; [|discriminate].
    injection Hrun as <-.
    pose proof Hu as Hin. apply find_some in Hin. destruct Hin as [Hin Hp].
    apply andb_true_iff in Hp. destruct Hp as [Hp _].
    apply opt_eqb_true in Hp.
    split; [exists u; repeat split; assumption|].
    intros w2 again Hw2. rewrite resetPasswordWithToken_run, Hw2.
    unfold set_sessions, rewrite_user, set_users, users at 1.
    rewrite (consumed_no_match (fun v => resetToken (passwordInfo v)) _
               (reset_data u (bcryptHash newPassword)) (hashData t) u
               (users w)).
    + reflexivity.
    + intros v Hv. apply andb_true_iff in Hv. destruct Hv as [Hv _].
      now apply opt_eqb_true.
    + reflexivity.
    + exact Hp.
    + intros a Ha Hta. exact (Huniq a u Ha Hin Hta Hp).
  - intros w d Hd Hfree.
    pose proof Hd as Hin. apply find_some in Hin. destruct Hin as [Hin _].
    destruct (find_present (fun v => (uid v =? uid d)%string) _ d Hin
                (String.eqb_refl _)) as [stored Hs].
    eexists. eexists. exact (verifyEmailWithToken_run t w d stored Hd Hfree Hs).
  - intros w newPassword u Hu.
    rewrite resetPasswordWithToken_run, Hu. eexists. reflexivity.
Qed.

(** *** Email change *)

(** C8. In [updateUserProfile], when a new email address is supplied and
    sending the verification email throws, the account's [pendingEmail],
    [verificationToken] and [verificationExpires] are written back to null
    and the error of the send is thrown again. *)
Theorem updateUserProfile_rollback (user stored : User)
    (updates : UpdateUserProfile) (w w1 : World) (err : Exn) :
  truthy (upd_email updates) = true ->
  opt_eqb (upd_email updates) (email user) = false ->
  resolveConflicts user updates w = (Returns tt, w1) ->
  find (fun v => (uid v =? uid user)%string) (users w1) = Some stored ->
  (forall w2,
     sendEmailVerification (assert_present (upd_email updates)) (fullname user)
       (randomBytesHex 32 (draws w1))
       (assert_present (upd_redirectUrl updates)) true w2 = (Throws err, w2)) ->
  exists w' after,
    updateUserProfile user updates w = (Throws err, w') /\
    find (fun v => (uid v =? uid user)%string) (users w') = Some after /\
    pendingEmail (emailInfo after) = None /\
    verificationToken (emailInfo after) = None /\
    verificationExpires (emailInfo after) = None.
Proof.
  intros Hnew Hdiff Hpre Hs Hsend.
  set (info := emailInfo user).
  set (pending := with_emailInfo
         (mkEmailInfo (isVerified info)
            (Some (hashData (randomBytesHex 32 (draws w1))))
            (Some (dayjsAddDay 1 (clock w1)))
            (upd_email updates) (provider info))).
  set (cleared := with_emailInfo
         (mkEmailInfo (isVerified info) None None None (provider info))).
  set (w2 := mkWorld (users w1) (sessions w1) (clock w1) (S (draws w1))
                     (minted w1)).
  assert (Hs2 : find (fun v => (uid v =? uid user)%string) (users w2)
                = Some stored) by exact Hs.
  assert (Hs3 : find (fun v => (uid v =? uid user)%string)
                     (users (rewrite_user (uid user) pending w2))
                = Some (pending stored))
    by (rewrite rewrite_user_by_uid, Hs2 by reflexivity; reflexivity).
  exists (rewrite_user (uid user) cleared (rewrite_user (uid user) pending w2)).
  exists (cleared (pending stored)).
  split.
  - unfold updateUserProfile, bind at 1. rewrite Hpre, Hnew, Hdiff.
    cbn [negb andb]. cbv beta iota.
    unfold bind at 1. unfold bind at 1.
    unfold generateVerificationToken, bind at 1, generateRandomString.
    unfold bind at 1, addDays, bind at 1, currentDate, ret.
    cbv beta iota. fold w2.
    unfold try_catch, bind at 1.
    erewrite user_update_run by exact Hs2.
    unfold bind at 1. rewrite Hsend.
    unfold bind at 1.
    erewrite user_update_run by exact Hs3.
    reflexivity.
  - split; [|repeat split].
    rewrite rewrite_user_by_uid, Hs3 by reflexivity. reflexivity.
Qed.

(** *** GitHub sign-in *)

(** C9 (amended). When the GitHub profile carries no email,
    [handleGithubAuth] calls the email endpoint with the header
    [token <accessToken>]. If the call is rejected, answers with a status
    that is not ok, or has an unreadable body, the operation fails with
    code 400. Otherwise the email of the first entry flagged primary is
    taken, and that of the first entry when none is flagged; when this
    gives no email the operation fails with code 404, and when it gives one
    and the profile has a name the account is resolved for that email. *)
Theorem handleGithubAuth_email (profile : GitHubProfile)
    (accessToken : string) (w : World) :
  truthy (first_value (profile_emails profile)) = false ->
  let reply := fetch GITHUB_EMAIL_API ("token " ++ accessToken) in
  ((forall r, reply = Resolved r -> ok r = false \/ body r = None) ->
   handleGithubAuth profile accessToken w =
     (Throws (AppError "Unable to retrieve user email from GitHub" 400), w))
  /\
  (forall r emails,
     reply = Resolved r -> ok r = true -> body r = Some emails ->
     exists chosen : option string,
       (forall entry, In entry emails -> ge_primary entry = true ->
          exists first, find ge_primary emails = Some first /\
                        ge_primary first = true /\
                        chosen = Some (ge_email first)) /\
       ((forall entry, In entry emails -> ge_primary entry = false) ->
        chosen = option_map ge_email (hd_error emails)) /\
       (truthy chosen = false ->
        handleGithubAuth profile accessToken w =
          (Throws (AppError "No email found for GitHub user" 404), w)) /\
       (forall e name,
          chosen = Some e -> truthy chosen = true ->
          (if truthy (displayName profile)
           then displayName profile else username profile) = Some name ->
          truthy (Some name) = true ->
          handleGithubAuth profile accessToken w =
            createOAuthUser
              (mkOAuthUser e name
                 (or_null (first_value (profile_photos profile)))
                 AUTH_PROVIDERS_GITHUB true) w)).
Proof.
  intros Hno reply. split.
  - intros Hbad. unfold handleGithubAuth, bind at 1. rewrite Hno.
    cbn [negb]. cbv beta iota. unfold try_catch. fold reply.
    destruct reply as [r|reason] eqn:Hr; [|reflexivity].
    destruct (Hbad r eq_refl) as [Hok|Hbody].
    + unfold bind at 1. rewrite Hok. reflexivity.
    + unfold bind at 1. rewrite Hbody. destruct (ok r); reflexivity.
  - intros r emails Hr Hok Hbody. exists (pick_email emails).
    assert (Hrun : forall k : option string -> M User,
              bind (if negb (truthy (first_value (profile_emails profile)))
                    then
                      try_catch
                        (match fetch GITHUB_EMAIL_API ("token " ++ accessToken)
                         with
                         | Rejected reason => throw (ExternalError reason)
                         | Resolved response =>
                             (if negb (ok response)
                              then throwError
                                     ("GitHub API error: "
                                      ++ show_status (status response)) 400
                              else ret tt) ;;;
                             match body response with
                             | None => throw (ExternalError "response.json")
                             | Some l => ret (pick_email l)
                             end
                         end)
                        (fun _ =>
                           throwError
                             "Unable to retrieve user email from GitHub" 400)
                    else ret (first_value (profile_emails profile))) k w
              = k (pick_email emails) w).
    { intros k. unfold bind at 1. rewrite Hno. cbn [negb]. cbv beta iota.
      unfold try_catch. fold reply. rewrite Hr.
      unfold bind at 1. rewrite Hok, Hbody. reflexivity. }
    split; [|split; [|split]].
    + intros entry Hin Hp.
      destruct (find_present ge_primary emails entry Hin Hp) as [first Hf].
      exists first. unfold pick_email. rewrite Hf.
      apply find_some in Hf. destruct Hf as [_ Hf]. repeat split. exact Hf.
    + intros Hnone. unfold pick_email.
      rewrite (find_absent ge_primary emails Hnone). reflexivity.
    + intros Hnull. unfold handleGithubAuth. rewrite Hrun, Hnull. reflexivity.
    + intros e name He Hsome Hname Hname'. unfold handleGithubAuth.
      rewrite Hrun, Hsome, Hname, Hname', He. reflexivity.
Qed.

(** ** Further properties *)

(** *** List facts *)

Lemma existsb_false_all {A} (p : A -> bool) (l : list A) :
  List.existsb p l = false -> forall a, In a l -> p a = false.
Proof.
  induction l as [|b l IH]; simpl; [intros _ a []|].
  intros H a [<-|Ha]; apply orb_false_iff in H; destruct H as [Hb Hl];
    [exact Hb|exact (IH Hl a Ha)].
Qed.

Lemma find_app_skip {A} (p : A -> bool) (l1 l2 : list A) :
  (forall a, In a l1 -> p a = false) -> find p (l1 ++ l2)%list = find p l2.
Proof.
  induction l1 as [|b l1 IH]; simpl; [reflexivity|].
  intros H. rewrite (H b (or_introl eq_refl)). apply IH.
  intros a Ha. apply H. now right.
Qed.

Lemma filter_all {A} (p : A -> bool) (l : list A) :
  (forall a, In a l -> p a = true) -> filter p l = l.
Proof.
  induction l as [|b l IH]; simpl; [reflexivity|].
  intros H. rewrite (H b (or_introl eq_refl)). f_equal. apply IH.
  intros a Ha. apply H. now right.
Qed.

Lemma find_map_same {A} (p : A -> bool) (g : A -> A) (l : list A) :
  (forall v, p (g v) = p v) ->
  find p (map g l) = option_map g (find p l).
Proof.
  intros Hp. induction l as [|a l IH]; simpl; [reflexivity|].
  rewrite Hp. destruct (p a); [reflexivity|exact IH].
Qed.

(** *** Issuing, rotating and checking tokens *)

Lemma generateTokenPair_run (user : User) (ua ip : option string)
    (w : World) :
  generateTokenPair user ua ip w =
  let fresh := randomBytesHex 40 (draws w) in
  if List.existsb (fun x => (refreshToken x =? hashData fresh)%string)
                  (sessions w)
  then (Throws P2002,
        mkWorld (users w) (sessions w) (clock w) (S (draws w)) (minted w))
  else
    (Returns (mkTokenPair (jwtSign (mkPayload (uid user) (email user)))
                          fresh (jwt_expiresIn jwtConfig)),
     mkWorld (users w)
       (sessions w ++ [mkSession (newObjectId (minted w)) (uid user)
                                 (hashData fresh) (or_null ua) (or_null ip)
                                 (dayjsAddDay (refreshExpiresDays jwtConfig)
                                    (clock w))])
       (clock w) (S (draws w)) (S (minted w))).
Proof.
  unfold generateTokenPair, createSession, generateAccessToken, bind,
    generateRandomString, addDays, currentDate, ret, session_create. simpl.
  destruct (List.existsb _ _); reflexivity.
Qed.

(** X1. A refresh token that [generateTokenPair] has just issued for a
    stored account can be exchanged by [refreshAccessToken] at any time
    before its expiry, the instant [refreshExpiresDays] calendar days after
    the issue as dayjs computes it: the exchange returns the next random
    token, and the store then holds the sessions it held before the issue
    plus one session of that account, expiring as many calendar days after
    the exchange. *)
Theorem issued_token_rotates (user stored : User) (ua ip : option string)
    (w w1 : World) (pair : TokenPair) (later : Date) :
  generateTokenPair user ua ip w = (Returns pair, w1) ->
  find (fun v => (uid v =? uid user)%string) (users w) = Some stored ->
  later < dayjsAddDay (refreshExpiresDays jwtConfig) (clock w) ->
  List.existsb
    (fun x => (refreshToken x
               =? hashData (randomBytesHex 40 (S (draws w))))%string)
    (sessions w) = false ->
  exists w2,
    refreshAccessToken (tp_refreshToken pair) (set_clock later w1) =
      (Returns (mkTokenPair (jwtSign (mkPayload (uid stored) (email stored)))
                            (randomBytesHex 40 (S (draws w)))
                            (jwt_expiresIn jwtConfig)), w2) /\
    sessions w2 =
      (sessions w
       ++ [mkSession (newObjectId (S (minted w))) (uid user)
                     (hashData (randomBytesHex 40 (S (draws w)))) None None
                     (dayjsAddDay (refreshExpiresDays jwtConfig) later)])%list.
Proof.
  intros Hgen Hstored Hlater Hnext.
  rewrite generateTokenPair_run in Hgen. cbv zeta in Hgen.
  destruct (List.existsb _ (sessions w)) eqn:Hfresh; [discriminate|].
  injection Hgen as <- <-.
  pose proof (existsb_false_all _ _ Hfresh) as Hnone.
  pose proof (find_by_uid_hit _ _ _ Hstored) as Hid.
  rewrite refreshAccessToken_run. cbn [tp_refreshToken sessions users clock
                                       draws minted set_clock].
  rewrite find_app_skip.
  2:{ intros a Ha. rewrite (Hnone a Ha). reflexivity. }
  cbn [find refreshToken expiresAt]. rewrite String.eqb_refl.
  replace (later <? dayjsAddDay (refreshExpiresDays jwtConfig) (clock w))
    with true by (symmetry; apply Z.ltb_lt; exact Hlater).
  cbn [andb userId]. rewrite Hstored. cbv zeta.
  rewrite filter_app. cbn [filter refreshToken].
  rewrite String.eqb_refl. cbn [negb]. rewrite app_nil_r.
  rewrite filter_all.
  2:{ intros a Ha. rewrite (Hnone a Ha). reflexivity. }
  rewrite Hnext. rewrite Hid. eexists. split; reflexivity.
Qed.

(** X2. A refresh token that has been exchanged cannot be exchanged again:
    once [refreshAccessToken] has returned for a token, every later call
    with the same token throws "Invalid or expired refresh token" and leaves
    the store as it is (the new token hashing to another value than the old
    one). *)
Theorem rotated_token_is_dead (t : string) (w w1 : World) (pair : TokenPair) :
  refreshAccessToken t w = (Returns pair, w1) ->
  hashData (tp_refreshToken pair) <> hashData t ->
  forall w2, sessions w2 = sessions w1 ->
    refreshAccessToken t w2 =
      (Throws (AppError "Invalid or expired refresh token" 500), w2).
Proof.
  intros Hrun Hneq w2 Hw2. rewrite refreshAccessToken_run in Hrun.
  destruct (find _ (sessions w)) as [s|]; [|discriminate].
  destruct (find _ (users w)) as [owner|]; [|discriminate].
  cbv zeta in Hrun. destruct (List.existsb _ _); [discriminate|].
  injection Hrun as <- <-. cbn [tp_refreshToken] in Hneq.
  rewrite refreshAccessToken_run, Hw2. cbn [sessions].
  rewrite find_absent; [reflexivity|].
  intros a Ha. apply in_app_or in Ha. destruct Ha as [Ha|[<-|[]]].
  - apply filter_In in Ha. destruct Ha as [_ Ha].
    apply negb_true_iff in Ha. rewrite Ha. reflexivity.
  - cbn [refreshToken].
    destruct (String.eqb_spec (hashData (randomBytesHex 40 (draws w)))
                              (hashData t)) as [E|E]; [contradiction|].
    reflexivity.
Qed.

Lemma truthy_Some (x : string) : truthy (Some x) = true <-> x <> "".
Proof.
  simpl. destruct (String.eqb_spec x ""); simpl; split; congruence.
Qed.

Lemma find_live_iff (h : string) (now : Date) (l : list Session) :
  (exists s, find (fun x => (refreshToken x =? h)%string
                            && (now <? expiresAt x)) l = Some s) <->
  (exists s, In s l /\ refreshToken s = h /\ now < expiresAt s).
Proof.
  split.
  - intros [s Hs]. apply find_some in Hs. destruct Hs as [Hin Hp].
    apply andb_true_iff in Hp. destruct Hp as [Hh Hx].
    exists s. split; [exact Hin|]. split.
    + now apply String.eqb_eq.
    + now apply Z.ltb_lt.
  - intros [s [Hin [Hh Hx]]].
    apply (find_present _ _ s Hin). apply andb_true_iff. split.
    + now apply String.eqb_eq.
    + now apply Z.ltb_lt.
Qed.

Lemma authenticate_run (a r : option string) (w : World) :
  authenticate a r w =
  (match a with
   | None => Throws (ExternalError "TypeError")
   | Some header =>
       match verifyAccessToken
               (js_trim (substring 7 (String.length header - 7) header)) with
       | Throws x => Throws x
       | Returns payload =>
           if negb (truthy (Some (jwt_userId payload)))
              || negb (truthy (Some (jwt_email payload)))
           then Throws (AppError "Invalid token payload" 401)
           else
             match r with
             | None => Throws (ExternalError "TypeError")
             | Some token =>
                 match find (fun s => (refreshToken s =? hashData token)%string
                                      && (clock w <? expiresAt s))
                            (sessions w) with
                 | None =>
                     Throws (AppError "Invalid or expired refresh token" 401)
                 | Some _ =>
                     match find (fun v => (uid v =? jwt_userId payload)%string)
                                (users w) with
                     | None => Throws (AppError "User not found" 401)
                     | Some user =>
                         if isAccountLocked (clock w) user
                         then Throws
                                (AppError
                                   "Account is locked due to multiple failed login attempts"
                                   423)
                         else Returns (user, payload)
                     end
                 end
             end
       end
   end, w).
Proof.
  unfold authenticate.
  destruct a as [hd|]; [|reflexivity].
  unfold bind at 1, lift.
  destruct (verifyAccessToken _) as [p|x]; [|reflexivity].
  destruct (negb (truthy (Some (jwt_userId p)))
            || negb (truthy (Some (jwt_email p)))); [reflexivity|].
  destruct r as [t|]; [|reflexivity].
  unfold bind at 1, currentDate. unfold bind at 1, session_findFirst.
  destruct (find _ (sessions w)); [|reflexivity].
  unfold bind at 1, user_findUnique_id.
  destruct (find _ (users w)) as [u|]; [|reflexivity].
  unfold bind at 1. destruct (isAccountLocked (clock w) u); reflexivity.
Qed.

(** X3. [authenticate] lets a request through exactly when the access token
    verifies with a non-empty user id and email, some stored session holds
    the hash of the refresh token and has not expired, the account named by
    the token is stored, and that account is not locked; it then attaches
    that account and the payload. Whatever the outcome, it writes nothing. *)
Theorem authenticate_spec (header token : string) (w : World) :
  (forall (user : User) (payload : IJWTPayload) (w' : World),
     authenticate (Some header) (Some token) w = (Returns (user, payload), w')
     <->
     (w' = w /\
      verifyAccessToken (js_trim (substring 7 (String.length header - 7)
                                            header)) = Returns payload /\
      jwt_userId payload <> "" /\ jwt_email payload <> "" /\
      (exists s, In s (sessions w) /\ refreshToken s = hashData token /\
                 clock w < expiresAt s) /\
      find (fun v => (uid v =? jwt_userId payload)%string) (users w)
        = Some user /\
      isAccountLocked (clock w) user = false))
  /\
  (forall a r, snd (authenticate a r w) = w).
Proof.
  split.
  - intros user payload w'. unfold authenticate, bind at 1, lift.
    destruct (verifyAccessToken _) as [p|x] eqn:Hv.
    2:{ split; [discriminate|]. intros [_ [H _]]. discriminate. }
    destruct (truthy (Some (jwt_userId p))) eqn:Hu.
    2:{ cbn [negb orb]. split; [discriminate|].
        intros [_ [H [Hid _]]]. injection H as ->.
        apply truthy_Some in Hid. congruence. }
    destruct (truthy (Some (jwt_email p))) eqn:He.
    2:{ cbn [negb orb]. split; [discriminate|].
        intros [_ [H [_ [Hem _]]]]. injection H as ->.
        apply truthy_Some in Hem. congruence. }
    cbn [negb orb]. apply truthy_Some in Hu. apply truthy_Some in He.
    unfold bind at 1, currentDate. unfold bind at 1, session_findFirst.
    destruct (find _ (sessions w)) as [s|] eqn:Hs.
    2:{ split; [discriminate|].
        intros [_ [_ [_ [_ [Hex _]]]]].
        apply find_live_iff in Hex. destruct Hex as [s' Hs'].
        rewrite Hs' in Hs. discriminate. }
    unfold bind at 1, user_findUnique_id.
    destruct (find _ (users w)) as [u|] eqn:Hf.
    2:{ split; [discriminate|].
        intros [_ [H [_ [_ [_ [Hfu _]]]]]]. injection H as ->.
        rewrite Hfu in Hf. discriminate. }
    unfold bind at 1.
    destruct (isAccountLocked (clock w) u) eqn:Hl.
    { split; [discriminate|].
      intros [_ [H [_ [_ [_ [Hfu Hfree]]]]]]. injection H as ->.
      rewrite Hfu in Hf. injection Hf as ->. congruence. }
    unfold ret. split.
    + intros [= <- <- <-]. repeat split; try assumption.
      apply find_live_iff. now exists s.
    + intros [-> [H [_ [_ [_ [Hfu _]]]]]]. injection H as ->.
      rewrite Hfu in Hf. injection Hf as ->. reflexivity.
  - intros a r. rewrite authenticate_run. reflexivity.
Qed.

(** X4. [authenticate] does not look at the owner of the session that
    matches the refresh token: handing every stored session to any other
    owner changes nothing in its outcome. A live refresh token of one
    account therefore passes the session check for a valid access token of
    another account. *)
Theorem authenticate_ignores_session_owner (g : Session -> string)
    (a r : option string) (w : World) :
  fst (authenticate a r (reassign_sessions g w)) = fst (authenticate a r w).
Proof.
  rewrite !authenticate_run. cbn [fst].
  destruct a as [hd|]; [|reflexivity].
  destruct (verifyAccessToken _) as [p|x]; [|reflexivity].
  destruct (negb (truthy (Some (jwt_userId p)))
            || negb (truthy (Some (jwt_email p)))); [reflexivity|].
  destruct r as [t|]; [|reflexivity].
  unfold reassign_sessions. cbn [sessions set_sessions clock users].
  rewrite find_map_same by reflexivity.
  destruct (find _ (sessions w)) as [s|]; reflexivity.
Qed.

(** *** Logging out *)

Lemma no_live_session_after_purge (h i : string) (now : Date)
    (l : list Session) :
  (forall s, In s l -> refreshToken s = h -> userId s = i) ->
  find (fun x => (refreshToken x =? h)%string && (now <? expiresAt x))
       (filter (fun s => negb (userId s =? i)%string) l) = None.
Proof.
  intros Hown. apply find_absent. intros a Ha.
  apply filter_In in Ha. destruct Ha as [Hin Hne].
  destruct (String.eqb_spec (refreshToken a) h) as [E|E]; [|reflexivity].
  rewrite (Hown a Hin E), String.eqb_refl in Hne. discriminate.
Qed.

Lemma no_live_session_after_delete (h : string) (now : Date)
    (l : list Session) :
  find (fun x => (refreshToken x =? h)%string && (now <? expiresAt x))
       (filter (fun s => negb (refreshToken s =? h)%string) l) = None.
Proof.
  apply find_absent. intros a Ha.
  apply filter_In in Ha. destruct Ha as [_ Hne].
  apply negb_true_iff in Hne. rewrite Hne. reflexivity.
Qed.

Lemma authenticate_without_session (a : option string) (t : string)
    (w : World) :
  find (fun x => (refreshToken x =? hashData t)%string
                 && (clock w <? expiresAt x)) (sessions w) = None ->
  forall r, fst (authenticate a (Some t) w) <> Returns r.
Proof.
  intros Hnone r. rewrite authenticate_run. cbn [fst].
  destruct a as [hd|]; [|discriminate].
  destruct (verifyAccessToken _) as [p|x]; [|discriminate].
  destruct (negb (truthy (Some (jwt_userId p)))
            || negb (truthy (Some (jwt_email p)))); [discriminate|].
  rewrite Hnone. discriminate.
Qed.

(** X5. [logout] with a refresh token that [authenticate] has just accepted
    returns, and from then on [authenticate] rejects every request carrying
    that refresh token, whatever the access token and the time; the
    sessions stored under other hashes are all kept. *)
Theorem logout_ends_the_session (a : option string) (t : string)
    (w w0 : World) (user : User) (payload : IJWTPayload) :
  t <> "" ->
  authenticate a (Some t) w = (Returns (user, payload), w0) ->
  exists w1,
    logout (Some user) (Some t) w = (Returns "Logout successful", w1) /\
    users w1 = users w /\
    (forall s, In s (sessions w1) <->
               In s (sessions w) /\ refreshToken s <> hashData t) /\
    forall (a' : option string) (w2 : World),
      sessions w2 = sessions w1 ->
      forall r, fst (authenticate a' (Some t) w2) <> Returns r.
Proof.
  intros Ht Hauth. rewrite authenticate_run in Hauth.
  destruct a as [hd|]; [|discriminate].
  destruct (verifyAccessToken _) as [p|x]; [|discriminate].
  destruct (negb (truthy (Some (jwt_userId p)))
            || negb (truthy (Some (jwt_email p)))); [discriminate|].
  destruct (find _ (sessions w)) as [s|] eqn:Hs; [|discriminate].
  clear Hauth.
  apply find_some in Hs. destruct Hs as [Hin Hp].
  apply andb_true_iff in Hp. destruct Hp as [Hh _].
  destruct (find_present (fun x => (refreshToken x =? hashData t)%string)
              _ s Hin Hh) as [s0 Hs0].
  exists (set_sessions
            (filter (fun x => negb (refreshToken x =? hashData t)%string)
                    (sessions w)) w).
  split.
  - unfold logout, bind at 1.
    replace (truthy (Some t)) with true
      by (symmetry; apply truthy_Some; exact Ht).
    unfold revokeRefreshToken, session_delete. cbn [assert_present].
    rewrite Hs0. reflexivity.
  - split; [reflexivity|]. split.
    + intros x. cbn [sessions set_sessions]. rewrite filter_In.
      rewrite negb_true_iff.
      destruct (String.eqb_spec (refreshToken x) (hashData t));
        split; intros [H1 H2]; split; congruence.
    + intros a' w2 Hw2. apply authenticate_without_session.
      rewrite Hw2. apply no_live_session_after_delete.
Qed.

(** X6. [logout] with a refresh token that no stored session holds throws
    the storage error P2025 and changes nothing; [logout] without a refresh
    token deletes every session of the request's user and no other one. *)
Theorem logout_edges (user : User) (w : World) :
  (forall t, t <> "" ->
     (forall s, In s (sessions w) -> refreshToken s <> hashData t) ->
     logout (Some user) (Some t) w = (Throws P2025, w))
  /\
  (exists w1,
     logout (Some user) None w = (Returns "Logout successful", w1) /\
     users w1 = users w /\
     forall s, In s (sessions w1) <->
               In s (sessions w) /\ userId s <> uid user).
Proof.
  split.
  - intros t Ht Hnone. unfold logout, bind at 1.
    replace (truthy (Some t)) with true
      by (symmetry; apply truthy_Some; exact Ht).
    unfold revokeRefreshToken, session_delete. cbn [assert_present].
    rewrite find_absent; [reflexivity|].
    intros s Hs. apply String.eqb_neq. exact (Hnone s Hs).
  - eexists. split; [reflexivity|]. split; [reflexivity|].
    intros s. cbn [sessions set_sessions]. rewrite filter_In.
    rewrite negb_true_iff.
    destruct (String.eqb_spec (userId s) (uid user));
      split; intros [H1 H2]; split; congruence.
Qed.

(** X7. A password reset logs the account out everywhere: after
    [resetPasswordWithToken] has returned for an account, [authenticate]
    rejects every request that carries a refresh token whose sessions
    belonged to that account. *)
Theorem reset_invalidates_refresh_tokens (t newPassword : string)
    (w : World) (u : User) :
  find (fun v => opt_eqb (resetToken (passwordInfo v)) (hashData t)
                 && opt_gt (resetExpires (passwordInfo v)) (clock w))
       (users w) = Some u ->
  exists w1,
    resetPasswordWithToken t newPassword w = (Returns tt, w1) /\
    forall (a : option string) (refresh : string) (w2 : World),
      (forall s, In s (sessions w) -> refreshToken s = hashData refresh ->
                 userId s = uid u) ->
      sessions w2 = sessions w1 ->
      forall r, fst (authenticate a (Some refresh) w2) <> Returns r.
Proof.
  intros Hu. rewrite resetPasswordWithToken_run, Hu.
  eexists. split; [reflexivity|].
  intros a refresh w2 Hown Hw2.
  apply authenticate_without_session. rewrite Hw2.
  cbn [sessions set_sessions]. apply no_live_session_after_purge. exact Hown.
Qed.

(** *** Password login: what fails and what it costs *)

Lemma locked_run (e password : string) (w : World) (u : User) :
  find (fun v => (email v =? e)%string) (users w) = Some u ->
  truthy (provider (emailInfo u)) && negb (truthy (hash (passwordInfo u)))
    = false ->
  isVerified (emailInfo u) = true ->
  isAccountLocked (clock w) u = true ->
  authenticateUser e password w =
    (Throws (AppError
               "Account is temporarily locked due to multiple failed login attempts"
               423), w).
Proof.
  intros Hf Hsoc Hver Hlock.
  unfold authenticateUser, bind at 1, user_findUnique_email.
  rewrite Hf, Hsoc, Hver. cbn [negb]. cbv beta iota.
  unfold bind at 1, currentDate. rewrite Hlock. reflexivity.
Qed.

(** X8. [authenticateUser] throws in three cases only: a social account
    without a password (403), an unverified email (403), a locked account
    (423), tested in this order; in each of them, and when no account has
    the email, the store is left untouched, so a login attempt on a locked
    or social account is never counted as a failure. *)
Theorem authenticateUser_refusals (e password : string) (w : World) :
  (forall x w', authenticateUser e password w = (Throws x, w') ->
     w' = w /\
     exists u, find (fun v => (email v =? e)%string) (users w) = Some u /\
       ((truthy (provider (emailInfo u)) = true /\
         truthy (hash (passwordInfo u)) = false /\
         x = AppError
               "You signed in with a social account. To log in with a password, please set one using 'Forgot Password'."
               403) \/
        (isVerified (emailInfo u) = false /\
         x = AppError "Please verify your email before logging in" 403) \/
        (isVerified (emailInfo u) = true /\
         isAccountLocked (clock w) u = true /\
         x = AppError
               "Account is temporarily locked due to multiple failed login attempts"
               423)))
  /\
  (find (fun v => (email v =? e)%string) (users w) = None ->
   authenticateUser e password w = (Returns (None, false), w)).
Proof.
  split.
  - intros x w' Hrun.
    destruct (find (fun v => (email v =? e)%string) (users w)) as [u|] eqn:Hf.
    2:{ unfold authenticateUser, bind at 1, user_findUnique_email in Hrun.
        rewrite Hf in Hrun. discriminate. }
    destruct (truthy (provider (emailInfo u))
              && negb (truthy (hash (passwordInfo u)))) eqn:Hsoc.
    { unfold authenticateUser, bind at 1, user_findUnique_email in Hrun.
      rewrite Hf, Hsoc in Hrun. injection Hrun as <- <-.
      apply andb_true_iff in Hsoc. destruct Hsoc as [Hp Hh].
      apply negb_true_iff in Hh.
      split; [reflexivity|]. exists u. split; [reflexivity|]. left.
      repeat split; assumption. }
    destruct (isVerified (emailInfo u)) eqn:Hver.
    2:{ unfold authenticateUser, bind at 1, user_findUnique_email in Hrun.
        rewrite Hf, Hsoc, Hver in Hrun. injection Hrun as <- <-.
        split; [reflexivity|]. exists u. split; [reflexivity|].
        right; left. split; [exact Hver|reflexivity]. }
    destruct (isAccountLocked (clock w) u) eqn:Hlock.
    { rewrite (locked_run e password w u Hf Hsoc Hver Hlock) in Hrun.
      injection Hrun as <- <-.
      split; [reflexivity|]. exists u. split; [reflexivity|].
      right; right. repeat split; assumption. }
    destruct (comparePassword (hash (passwordInfo u)) password) eqn:Hpw.
    + destruct (right_password_run e password w u Hf Hsoc Hver Hlock Hpw)
        as [w1 [Hrun1 _]].
      rewrite Hrun1 in Hrun. discriminate.
    + rewrite (wrong_password_run e password w u Hf Hsoc Hver Hlock Hpw)
        in Hrun.
      discriminate.
  - intros Hf. unfold authenticateUser, bind at 1, user_findUnique_email.
    rewrite Hf. reflexivity.
Qed.

(** X9. After [maxLoginAttempts] wrong passwords in a row on a verified
    account with a clean record, the right password is refused with 423 for
    as long as the clock reads less than the time of the last failure plus
    [loginLockTime] minutes, and is accepted from that instant on. *)
Theorem lock_holds_then_lapses (e wrong right : string) (w : World) (u : User) :
  0 < maxLoginAttempts security ->
  find (fun v => (email v =? e)%string) (users w) = Some u ->
  truthy (provider (emailInfo u)) && negb (truthy (hash (passwordInfo u)))
    = false ->
  isVerified (emailInfo u) = true ->
  comparePassword (hash (passwordInfo u)) wrong = false ->
  comparePassword (hash (passwordInfo u)) right = true ->
  lockoutInfo u = mkLockout false None 0%N ->
  exists wN,
    failedLogins (Z.to_nat (maxLoginAttempts security)) e wrong w
      = (Returns tt, wN) /\
    (forall later,
       later < clock w + loginLockTime security * ms_per_minute ->
       authenticateUser e right (set_clock later wN) =
         (Throws (AppError
                    "Account is temporarily locked due to multiple failed login attempts"
                    423), set_clock later wN)) /\
    (forall later,
       clock w + loginLockTime security * ms_per_minute <= later ->
       exists w' u',
         authenticateUser e right (set_clock later wN) =
           (Returns (Some u', true), w') /\
         uid u' = uid u).
Proof.
  intros Hmax Hf Hsoc Hver Hwrong Hright Hlo.
  destruct (Z.to_nat (maxLoginAttempts security)) as [|k] eqn:Hk; [lia|].
  destruct (failedLogins_below e wrong w u 0%N k Hf Hsoc Hver Hwrong Hlo)
    as [wk [Hrun [Hclk Hfk]]]; [lia|].
  set (uk := with_lockoutInfo (mkLockout false None (0 + N.of_nat k)%N) u)
    in *.
  assert (Hstep := wrong_password_run e wrong wk uk Hfk Hsoc Hver eq_refl
                     Hwrong).
  set (f := with_lockoutInfo (lockout_written (clock wk) (lockoutInfo uk)))
    in *.
  assert (HfN := rewrite_user_by_email e f wk uk (fun v => eq_refl) Hfk).
  assert (Hw : lockout_written (clock wk) (lockoutInfo uk) =
               mkLockout true
                 (Some (clock w + loginLockTime security * ms_per_minute))
                 (0 + N.of_nat k + 1)%N).
  { unfold lockout_written. subst uk. cbn [lockoutInfo with_lockoutInfo
                                            failedAttemptCount].
    replace (maxLoginAttempts security <=? Z.of_N (0 + N.of_nat k + 1))
      with true by (symmetry; apply Z.leb_le; lia).
    rewrite Hclk. reflexivity. }
  exists (rewrite_user (uid uk) f wk).
  split; [rewrite failedLogins_S, Hrun, Hstep; reflexivity|].
  split.
  - intros later Hlater.
    apply (locked_run e right (set_clock later (rewrite_user (uid uk) f wk))
             (f uk)); try assumption.
    subst f. rewrite Hw. unfold isAccountLocked. simpl.
    apply Z.ltb_lt. exact Hlater.
  - intros later Hlater.
    destruct (right_password_run e right
                (set_clock later (rewrite_user (uid uk) f wk)) (f uk))
      as [w' [Hrun' _]]; try assumption.
    + subst f. rewrite Hw. unfold isAccountLocked. simpl.
      apply Z.ltb_ge. exact Hlater.
    + exists w', (f uk). split; [exact Hrun'|reflexivity].
Qed.

(** *** Forgotten password *)

Lemma sendPasswordResetEmail_run (e redirectUrl : string) (w : World)
    (u : User) :
  find (fun v => (email v =? e)%string) (users w) = Some u ->
  sendPasswordResetEmail e redirectUrl w =
  let token := randomBytesHex 32 (draws w) in
  let w1 :=
    rewrite_user (uid u)
      (with_passwordInfo
         (mkPasswordInfo (hash (passwordInfo u)) (Some (hashData token))
                         (Some (clock w + 30 * ms_per_minute))))
      (mkWorld (users w) (sessions w) (clock w) (S (draws w)) (minted w)) in
  match renderPasswordResetTemplate (fullname u) token redirectUrl with
  | Throws x => (Throws x, w1)
  | Returns template =>
      if transporterSendMail e template then (Returns tt, w1)
      else (Throws (AppError "Failed to send email" 500), w1)
  end.
Proof.
  intros Hf. destruct (found_by_email_has_uid _ _ _ Hf) as [stored Hs].
  unfold sendPasswordResetEmail, bind at 1, user_findUnique_email.
  rewrite Hf. unfold bind at 1, generateRandomString.
  unfold bind at 1, addMinutes, bind at 1, currentDate, ret.
  cbv beta iota. cbn [clock].
  unfold bind at 1. erewrite user_update_run by exact Hs.
  unfold bind at 1, lift. cbv zeta.
  destruct (renderPasswordResetTemplate _ _ _) as [tpl|x]; [|reflexivity].
  unfold sendEmail. destruct (transporterSendMail e tpl); reflexivity.
Qed.

(** X10. [forgotPassword] answers with the same message, and
    [sendPasswordResetEmail] returns, both when no account has the email (the
    store is then untouched) and when an account has it and the mail goes
    out. *)
Theorem forgotPassword_same_answer (e redirectUrl : string) (w : World) :
  (find (fun v => (email v =? e)%string) (users w) = None ->
   forgotPassword e redirectUrl w =
     (Returns
        "If an account with that email exists, a password reset link has been sent",
      w))
  /\
  (forall u template,
     find (fun v => (email v =? e)%string) (users w) = Some u ->
     renderPasswordResetTemplate (fullname u) (randomBytesHex 32 (draws w))
                                 redirectUrl = Returns template ->
     transporterSendMail e template = true ->
     exists w1,
       forgotPassword e redirectUrl w =
         (Returns
            "If an account with that email exists, a password reset link has been sent",
          w1)).
Proof.
  split.
  - intros Hf. unfold forgotPassword, bind at 1, sendPasswordResetEmail,
      bind at 1, user_findUnique_email. rewrite Hf. reflexivity.
  - intros u template Hf Hr Ht. unfold forgotPassword, bind at 1.
    rewrite (sendPasswordResetEmail_run e redirectUrl w u Hf). cbv zeta.
    rewrite Hr, Ht. eexists. reflexivity.
Qed.

(** X11. When the reset mail cannot be sent, [sendPasswordResetEmail]
    throws "Failed to send email" (500) but keeps what it wrote: the account
    holds the hash of the new reset token with an expiry 30 minutes ahead,
    and its password hash is the one it had. *)
Theorem reset_mail_failure_keeps_token (e redirectUrl : string) (w : World)
    (u : User) (template : EmailTemplate) :
  find (fun v => (email v =? e)%string) (users w) = Some u ->
  renderPasswordResetTemplate (fullname u) (randomBytesHex 32 (draws w))
                              redirectUrl = Returns template ->
  transporterSendMail e template = false ->
  exists w1 after,
    sendPasswordResetEmail e redirectUrl w =
      (Throws (AppError "Failed to send email" 500), w1) /\
    find (fun v => (email v =? e)%string) (users w1) = Some after /\
    passwordInfo after =
      mkPasswordInfo (hash (passwordInfo u))
        (Some (hashData (randomBytesHex 32 (draws w))))
        (Some (clock w + 30 * ms_per_minute)).
Proof.
  intros Hf Hr Ht.
  rewrite (sendPasswordResetEmail_run e redirectUrl w u Hf). cbv zeta.
  rewrite Hr, Ht. eexists. eexists. split; [reflexivity|]. split.
  - apply (rewrite_user_by_email e
             (with_passwordInfo
                (mkPasswordInfo (hash (passwordInfo u))
                   (Some (hashData (randomBytesHex 32 (draws w))))
                   (Some (clock w + 30 * ms_per_minute))))
             (mkWorld (users w) (sessions w) (clock w) (S (draws w))
                      (minted w)) u (fun v => eq_refl) Hf).
  - reflexivity.
Qed.

Lemma find_rewritten (p : User -> bool) (f : User -> User) (i : string)
    (l : list User) :
  (forall v, In v l -> uid v <> i -> p v = false) ->
  (forall v, uid v = i -> p (f v) = true) ->
  (exists v, In v l /\ uid v = i) ->
  exists v0, In v0 l /\ uid v0 = i /\
    find p (map (fun v => if (uid v =? i)%string then f v else v) l)
      = Some (f v0).
Proof.
  intros Hother Htarget. induction l as [|a l IH]; intros [v [Hin Hv]].
  - destruct Hin.
  - cbn [map find]. destruct (String.eqb_spec (uid a) i) as [E|E].
    + exists a. split; [now left|]. split; [exact E|].
      rewrite (Htarget a E). reflexivity.
    + rewrite (Hother a (or_introl eq_refl) E).
      destruct Hin as [->|Hin]; [contradiction|].
      destruct IH as [v0 [Hin0 [Hv0 Hf0]]].
      * intros x Hx. apply Hother. now right.
      * exists v. split; assumption.
      * exists v0. split; [now right|]. split; assumption.
Qed.

Lemma opt_eqb_false (a : option string) (b : string) :
  a <> Some b -> opt_eqb a b = false.
Proof.
  destruct a as [a|]; simpl; [|reflexivity].
  intros H. apply String.eqb_neq. congruence.
Qed.

(** X12. Forgotten password, end to end. Once [sendPasswordResetEmail] has
    run for a stored account (whether or not the mail went out), the token
    it drew resets the password at any time before 30 minutes have passed,
    and the account then logs in with the new password; from the thirtieth
    minute on the same token is refused. The hash of the token is assumed
    not to be held by an account beforehand, and bcrypt to accept the
    password it hashed. *)
Theorem forgot_reset_login (e redirectUrl newPassword : string) (w : World)
    (u : User) :
  let token := randomBytesHex 32 (draws w) in
  let w1 := snd (sendPasswordResetEmail e redirectUrl w) in
  find (fun v => (email v =? e)%string) (users w) = Some u ->
  (forall v, In v (users w) ->
             resetToken (passwordInfo v) <> Some (hashData token)) ->
  bcryptCompare newPassword (bcryptHash newPassword) = true ->
  bcryptHash newPassword <> "" ->
  (forall later,
     later < clock w + 30 * ms_per_minute ->
     exists w2 w3 u3,
       resetPasswordWithToken token newPassword (set_clock later w1)
         = (Returns tt, w2) /\
       authenticateUser e newPassword w2 = (Returns (Some u3, true), w3) /\
       uid u3 = uid u)
  /\
  (forall later,
     clock w + 30 * ms_per_minute <= later ->
     resetPasswordWithToken token newPassword (set_clock later w1) =
       (Throws (AppError "Invalid or expired password reset token" 500),
        set_clock later w1)).
Proof.
  intros token w1 Hf Hfresh Hbc Hne.
  set (P := mkPasswordInfo (hash (passwordInfo u)) (Some (hashData token))
                           (Some (clock w + 30 * ms_per_minute))).
  set (w0 := mkWorld (users w) (sessions w) (clock w) (S (draws w))
                     (minted w)).
  assert (Hw1 : w1 = rewrite_user (uid u) (with_passwordInfo P) w0).
  { unfold w1. rewrite (sendPasswordResetEmail_run e redirectUrl w u Hf).
    cbv zeta. destruct (renderPasswordResetTemplate _ _ _) as [tpl|x];
      [|reflexivity].
    destruct (transporterSendMail e tpl); reflexivity. }
  assert (Hin : In u (users w)) by (exact (proj1 (find_some _ _ Hf))).
  split.
  - intros later Hlater.
    destruct (find_rewritten
                (fun v => opt_eqb (resetToken (passwordInfo v)) (hashData token)
                          && opt_gt (resetExpires (passwordInfo v)) later)
                (with_passwordInfo P) (uid u) (users w))
      as [v0 [Hin0 [Hv0 Hfind]]].
    + intros v Hv _. rewrite (opt_eqb_false _ _ (Hfresh v Hv)). reflexivity.
    + intros v _. unfold P.
      cbn [with_passwordInfo passwordInfo resetToken resetExpires opt_eqb
           opt_gt].
      rewrite String.eqb_refl.
      apply Z.ltb_lt in Hlater. rewrite Hlater. reflexivity.
    + exists u. split; [exact Hin|reflexivity].
    + set (d := with_passwordInfo P v0) in *.
      assert (Hrun : resetPasswordWithToken token newPassword
                       (set_clock later w1) =
                     (Returns tt,
                      set_sessions
                        (filter (fun x => negb (userId x =? uid d)%string)
                                (sessions (set_clock later w1)))
                        (rewrite_user (uid d)
                           (reset_data d (bcryptHash newPassword))
                           (set_clock later w1)))).
      { rewrite resetPasswordWithToken_run. rewrite Hw1.
        cbn [users set_clock rewrite_user set_users clock w0].
        rewrite Hfind. reflexivity. }
      assert (Hfe1 : find (fun v => (email v =? e)%string)
                          (users (set_clock later w1))
                     = Some (with_passwordInfo P u)).
      { rewrite Hw1.
        exact (rewrite_user_by_email e (with_passwordInfo P) w0 u
                 (fun v => eq_refl) Hf). }
      assert (Hkey : uid d = uid (with_passwordInfo P u))
        by (cbn; exact Hv0).
      assert (Hfe2 := rewrite_user_by_email e
                        (reset_data d (bcryptHash newPassword))
                        (set_clock later w1) (with_passwordInfo P u)
                        (fun v => eq_refl) Hfe1).
      rewrite <- Hkey in Hfe2.
      set (u3 := reset_data d (bcryptHash newPassword)
                            (with_passwordInfo P u)) in *.
      set (w2 := set_sessions
                   (filter (fun x => negb (userId x =? uid d)%string)
                           (sessions (set_clock later w1)))
                   (rewrite_user (uid d)
                      (reset_data d (bcryptHash newPassword))
                      (set_clock later w1))) in *.
      assert (Htruthy : truthy (Some (bcryptHash newPassword)) = true)
        by (apply truthy_Some; exact Hne).
      destruct (right_password_run e newPassword w2 u3) as [w3 [Hlogin _]].
      * exact Hfe2.
      * unfold u3, reset_data.
        cbn [passwordInfo with_emailInfo with_lockoutInfo with_passwordInfo
             hash].
        rewrite Htruthy. apply andb_false_r.
      * unfold u3, reset_data. cbn [emailInfo with_emailInfo].
        destruct (isVerified (emailInfo d)) eqn:Ev; [exact Ev|reflexivity].
      * unfold u3, reset_data, isAccountLocked.
        cbn [lockoutInfo with_emailInfo with_lockoutInfo].
        destruct (isLocked (lockoutInfo d)) eqn:El; [reflexivity|].
        rewrite El. reflexivity.
      * unfold u3, reset_data, comparePassword.
        cbn [passwordInfo with_emailInfo with_lockoutInfo with_passwordInfo
             hash].
        simpl in Htruthy. apply negb_true_iff in Htruthy.
        rewrite Htruthy. exact Hbc.
      * exists w2, w3, u3. split; [exact Hrun|]. split; [exact Hlogin|].
        reflexivity.
  - intros later Hlater. rewrite resetPasswordWithToken_run.
    rewrite find_absent; [reflexivity|].
    intros a Ha. rewrite Hw1 in Ha.
    cbn [users set_clock rewrite_user set_users w0] in Ha.
    apply in_map_iff in Ha. destruct Ha as [v [<- Hv]].
    destruct (uid v =? uid u)%string.
    + unfold P.
      cbn [with_passwordInfo passwordInfo resetToken resetExpires opt_eqb
           opt_gt].
      rewrite String.eqb_refl. cbn [clock set_clock andb].
      apply Z.ltb_ge. exact Hlater.
    + rewrite (opt_eqb_false _ _ (Hfresh v Hv)). reflexivity.
Qed.

(** *** Registration *)

Lemma find_ext_eq {A} (p q : A -> bool) (l : list A) :
  (forall a, p a = q a) -> find p l = find q l.
Proof.
  intros H. induction l as [|a l IH]; simpl; [reflexivity|].
  rewrite H, IH. reflexivity.
Qed.

Lemma existsb_ext_eq {A} (p q : A -> bool) (l : list A) :
  (forall a, p a = q a) -> List.existsb p l = List.existsb q l.
Proof.
  intros H. induction l as [|a l IH]; simpl; [reflexivity|].
  rewrite H, IH. reflexivity.
Qed.

Lemma existsb_none {A} (p : A -> bool) (l : list A) :
  (forall a, In a l -> p a = false) -> List.existsb p l = false.
Proof.
  induction l as [|b l IH]; simpl; [reflexivity|].
  intros H. rewrite (H b (or_introl eq_refl)). apply IH.
  intros a Ha. apply H. now right.
Qed.

Lemma checkUserExists_register (e : string) (p : option string) (w : World) :
  e <> "" ->
  checkUserExists (Some e) p None w =
  (Returns
     match find (taken_by e p) (users w) with
     | None => NotExists
     | Some existing =>
         Exists existing (if (e =? email existing)%string
                          then "email" else "phone")
     end, w).
Proof.
  intros He. unfold checkUserExists.
  replace (truthy (Some e)) with true by (symmetry; now apply truthy_Some).
  cbn [negb andb]. unfold bind, user_findFirst.
  rewrite (find_ext_eq _ (taken_by e p)).
  - destruct (find (taken_by e p) (users w)); reflexivity.
  - intros v. unfold taken_by. cbn [truthy opt_eqb andb].
    replace (truthy (Some e)) with true by (symmetry; now apply truthy_Some).
    rewrite andb_true_r. cbn [andb]. rewrite (String.eqb_sym e (email v)).
    reflexivity.
Qed.

Lemma createUserWithVerification_run (name e : string) (p : option string)
    (password : string) (w : World) :
  createUserWithVerification name e p password w =
  let token := randomBytesHex 32 (draws w) in
  let u := mkUser (newObjectId (minted w)) name e (or_null p) None
             (mkEmailInfo false (Some (hashData token))
                          (Some (dayjsAddDay 1 (clock w))) None None)
             (if truthy p then Some (mkPhoneInfo false) else None)
             (mkPasswordInfo (Some (bcryptHash password)) None None)
             (mkLockout false None 0%N) schemaIsActive None in
  if List.existsb (taken_by e p) (users w)
  then (Throws P2002,
        mkWorld (users w) (sessions w) (clock w) (S (draws w)) (minted w))
  else (Returns (u, token),
        mkWorld (users w ++ [u]) (sessions w) (clock w) (S (draws w))
                (S (minted w))).
Proof.
  unfold createUserWithVerification, bind at 1, hashPassword, ret.
  unfold bind at 1, generateVerificationToken, bind at 1,
    generateRandomString.
  unfold bind at 1, addDays, bind at 1, currentDate, ret.
  cbv beta iota zeta. cbn [clock]. unfold bind, user_create_unique.
  cbn [users sessions clock draws minted email phone].
  rewrite (existsb_ext_eq _ (taken_by e p)).
  - destruct (List.existsb (taken_by e p) (users w)); reflexivity.
  - intros v. unfold taken_by, or_null.
    destruct (truthy p) eqn:Hp; cbn [andb].
    + destruct p as [p0|]; [|discriminate]. cbn [opt_eqb].
      destruct (phone v); reflexivity.
    + reflexivity.
Qed.

(** X13. Registration of an email and phone that no account holds returns
    the success message whatever happens to the verification mail (a
    failure to render or to send it is swallowed), and stores one new
    account: unverified, with the hash of the drawn token, the expiry dayjs
    computes as one calendar day after now, the bcrypt hash of the password
    and a clean lockout record. *)
Theorem register_fresh (name e : string) (p : option string)
    (password redirectUrl : string) (w : World) :
  e <> "" ->
  (forall v, In v (users w) -> taken_by e p v = false) ->
  exists w1,
    register name e p password redirectUrl w =
      (Returns
         "User registered successfully. Please check your email for verification.",
       w1) /\
    sessions w1 = sessions w /\
    users w1 =
      (users w
       ++ [mkUser (newObjectId (minted w)) name e (or_null p) None
             (mkEmailInfo false
                (Some (hashData (randomBytesHex 32 (draws w))))
                (Some (dayjsAddDay 1 (clock w))) None None)
             (if truthy p then Some (mkPhoneInfo false) else None)
             (mkPasswordInfo (Some (bcryptHash password)) None None)
             (mkLockout false None 0%N) schemaIsActive None])%list.
Proof.
  intros He Hfree. unfold register, bind at 1.
  rewrite (checkUserExists_register e p w He).
  rewrite (find_absent _ _ Hfree).
  unfold bind at 1, ret at 1. unfold bind at 1.
  rewrite createUserWithVerification_run. cbv zeta.
  rewrite (existsb_none _ _ Hfree).
  unfold bind, try_catch, sendEmailVerification, bind, lift, ret.
  destruct (renderVerificationTemplate _ _ _ _) as [tpl|x].
  - cbn [snd]. unfold sendEmail.
    destruct (transporterSendMail e tpl);
      eexists; (split; [reflexivity|split; reflexivity]).
  - eexists; (split; [reflexivity|split; reflexivity]).
Qed.


Lemma filter_nonempty {A} (p : A -> bool) (l : list A) (a : A) :
  In a l -> p a = true -> Nat.eqb (List.length (filter p l)) 0 = false.
Proof.
  intros Hin Hp.
  assert (H : In a (filter p l)) by (apply filter_In; split; assumption).
  destruct (filter p l); [destruct H|reflexivity].
Qed.

(** X15. Registration against an abandoned registration (an unverified
    account holding the email or phone, and the only such account) deletes
    that account and creates the new one: afterwards the email belongs to
    one account, the new one. *)
Theorem register_replaces_abandoned (name e : string) (p : option string)
    (password redirectUrl : string) (w : World) (existing : User) :
  e <> "" ->
  find (taken_by e p) (users w) = Some existing ->
  isVerified (emailInfo existing) = false ->
  (forall v, In v (users w) -> taken_by e p v = true ->
             uid v = uid existing /\ isVerified (emailInfo v) = false) ->
  exists w1 created,
    register name e p password redirectUrl w =
      (Returns
         "User registered successfully. Please check your email for verification.",
       w1) /\
    users w1 =
      (filter (fun v => negb ((uid v =? uid existing)%string
                              && negb (isVerified (emailInfo v))))
              (users w) ++ [created])%list /\
    (forall v, In v (users w1) -> email v = e -> v = created) /\
    email created = e /\
    isVerified (emailInfo created) = false /\
    passwordInfo created = mkPasswordInfo (Some (bcryptHash password)) None None.
Proof.
  intros He Hf Hun Honly.
  pose proof Hf as Hin. apply find_some in Hin. destruct Hin as [Hin Htk].
  set (kept := filter (fun v => negb ((uid v =? uid existing)%string
                                      && negb (isVerified (emailInfo v))))
                      (users w)).
  assert (Hkept : forall v, In v kept -> taken_by e p v = false).
  { intros v Hv. apply filter_In in Hv. destruct Hv as [Hv Hk].
    destruct (taken_by e p v) eqn:Et; [|reflexivity].
    destruct (Honly v Hv Et) as [Hid Hnv].
    rewrite Hid, String.eqb_refl, Hnv in Hk. discriminate. }
  unfold register, bind at 1.
  rewrite (checkUserExists_register e p w He), Hf.
  unfold bind at 1. rewrite Hun.
  unfold deleteUnverifiedUser, bind at 1, user_deleteMany.
  rewrite (filter_nonempty _ _ existing Hin)
    by (rewrite String.eqb_refl, Hun; reflexivity).
  unfold ret at 1. unfold bind at 1.
  rewrite createUserWithVerification_run. cbv zeta.
  cbn [users set_users set_sessions sessions clock draws minted]. fold kept.
  rewrite (existsb_none _ _ Hkept).
  set (created := mkUser (newObjectId (minted w)) name e (or_null p) None
             (mkEmailInfo false
                (Some (hashData (randomBytesHex 32 (draws w))))
                (Some (dayjsAddDay 1 (clock w))) None None)
             (if truthy p then Some (mkPhoneInfo false) else None)
             (mkPasswordInfo (Some (bcryptHash password)) None None)
             (mkLockout false None 0%N) schemaIsActive None).
  assert (Hone : forall v, In v (kept ++ [created])%list -> email v = e ->
                           v = created).
  { intros v Hv Hem. apply in_app_or in Hv. destruct Hv as [Hv|[<-|[]]];
      [|reflexivity].
    apply Hkept in Hv. unfold taken_by in Hv. rewrite Hem in Hv.
    rewrite String.eqb_refl in Hv. discriminate. }
  unfold bind, try_catch, sendEmailVerification, bind, lift, ret.
  destruct (renderVerificationTemplate _ _ _ _) as [tpl|x].
  - cbn [snd]. unfold sendEmail.
    destruct (transporterSendMail e tpl);
      eexists; exists created;
      (split; [reflexivity|]); (split; [reflexivity|]);
      (split; [exact Hone|]); repeat split.
  - eexists; exists created;
      (split; [reflexivity|]); (split; [reflexivity|]);
      (split; [exact Hone|]); repeat split.
Qed.

(** *** Email verification *)

Lemma map_untouched (i : string) (f : User -> User) (l : list User) :
  (forall v, In v l -> uid v <> i) ->
  map (fun v => if (uid v =? i)%string then f v else v) l = l.
Proof.
  induction l as [|a l IH]; simpl; [reflexivity|].
  intros H.
  destruct (String.eqb_spec (uid a) i) as [E|E];
    [exfalso; exact (H a (or_introl eq_refl) E)|].
  f_equal. apply IH. intros v Hv. apply H. now right.
Qed.

(** X16. Registration and verification, end to end. The token returned by
    [createUserWithVerification] verifies the new account at any time
    before the expiry, the instant one calendar day after the registration
    as dayjs computes it: [verifyEmailWithToken] reports a newly verified
    account and the store holds it verified with the token fields cleared;
    from that instant on the token is refused with 403. The new id and the
    hash of the token are assumed not to be in the store beforehand. *)
Theorem register_then_verify (name e : string) (p : option string)
    (password : string) (w w1 : World) (created : User) (token : string) :
  createUserWithVerification name e p password w
    = (Returns (created, token), w1) ->
  (forall v, In v (users w) -> uid v <> uid created) ->
  (forall v, In v (users w) ->
             verificationToken (emailInfo v) <> Some (hashData token)) ->
  (forall later,
     later < dayjsAddDay 1 (clock w) ->
     exists w2,
       verifyEmailWithToken token (set_clock later w1) =
         (Returns (verified_data created created, true), w2) /\
       users w2 = (users w ++ [verified_data created created])%list /\
       emailInfo (verified_data created created) =
         mkEmailInfo true None None None None /\
       email (verified_data created created) = e)
  /\
  (forall later,
     dayjsAddDay 1 (clock w) <= later ->
     verifyEmailWithToken token (set_clock later w1) =
       (Throws (AppError "Invalid or expired email verification token" 403),
        set_clock later w1)).
Proof.
  intros Hrun Hid Hfresh.
  rewrite createUserWithVerification_run in Hrun. cbv zeta in Hrun.
  destruct (List.existsb _ _); [discriminate|].
  injection Hrun as Hc Ht Hw1.
  assert (Hskip : forall now v, In v (users w) ->
            opt_eqb (verificationToken (emailInfo v)) (hashData token)
            && opt_gt (verificationExpires (emailInfo v)) now = false).
  { intros now v Hv. rewrite (opt_eqb_false _ _ (Hfresh v Hv)). reflexivity. }
  assert (Hus : users w1 = (users w ++ [created])%list)
    by (rewrite <- Hw1, <- Hc; reflexivity).
  assert (Htok : verificationToken (emailInfo created) = Some (hashData token))
    by (rewrite <- Hc, <- Ht; reflexivity).
  assert (Hexp : verificationExpires (emailInfo created)
                 = Some (dayjsAddDay 1 (clock w)))
    by (rewrite <- Hc; reflexivity).
  assert (Hpend : pendingEmail (emailInfo created) = None)
    by (rewrite <- Hc; reflexivity).
  assert (Hprov : provider (emailInfo created) = None)
    by (rewrite <- Hc; reflexivity).
  assert (Hver : isVerified (emailInfo created) = false)
    by (rewrite <- Hc; reflexivity).
  assert (Hem : email created = e) by (rewrite <- Hc; reflexivity).
  split.
  - intros later Hlater.
    eexists. split.
    + rewrite (verifyEmailWithToken_run token (set_clock later w1) created
                 created).
      * rewrite Hver. reflexivity.
      * cbn [users set_clock clock]. rewrite Hus.
        rewrite find_app_skip by (apply Hskip).
        cbn [find]. rewrite Htok, Hexp. cbn [opt_eqb opt_gt].
        rewrite String.eqb_refl. apply Z.ltb_lt in Hlater.
        rewrite Hlater. reflexivity.
      * rewrite Hpend. intros Hp. discriminate Hp.
      * cbn [users set_clock]. rewrite Hus. rewrite find_app_skip.
        -- cbn [find]. rewrite String.eqb_refl. reflexivity.
        -- intros v Hv. apply String.eqb_neq. exact (Hid v Hv).
    + split; [|split].
      * cbn [users rewrite_user set_users set_clock]. rewrite Hus.
        rewrite map_app. rewrite map_untouched by exact Hid.
        cbn [map]. rewrite String.eqb_refl. reflexivity.
      * unfold verified_data. cbn [emailInfo with_emailInfo].
        rewrite Hprov. reflexivity.
      * unfold verified_data. rewrite Hpend. exact Hem.
  - intros later Hlater.
    unfold verifyEmailWithToken, bind at 1, currentDate.
    unfold bind at 1, user_findFirst.
    cbn [users set_clock clock]. rewrite Hus.
    rewrite find_app_skip by (apply Hskip).
    cbn [find]. rewrite Htok, Hexp. cbn [opt_eqb opt_gt].
    rewrite String.eqb_refl.
    replace (later <? dayjsAddDay 1 (clock w)) with false
      by (symmetry; apply Z.ltb_ge; exact Hlater).
    reflexivity.
Qed.

Lemma verifyEmailWithToken_inv (t : string) (w w' : World)
    (r : User * bool) :
  verifyEmailWithToken t w = (Returns r, w') ->
  exists d stored,
    find (fun v => opt_eqb (verificationToken (emailInfo v)) (hashData t)
                   && opt_gt (verificationExpires (emailInfo v)) (clock w))
         (users w) = Some d /\
    find (fun v => (uid v =? uid d)%string) (users w) = Some stored /\
    w' = rewrite_user (uid d) (verified_data d) w /\
    r = (verified_data d stored, negb (isVerified (emailInfo d))).
Proof.
  unfold verifyEmailWithToken, bind at 1, currentDate.
  unfold bind at 1, user_findFirst.
  destruct (find _ (users w)) as [u|] eqn:Hu; [|discriminate].
  pose proof Hu as Hin. apply find_some in Hin. destruct Hin as [Hin _].
  destruct (find_present (fun v => (uid v =? uid u)%string) _ u Hin
              (String.eqb_refl _)) as [stored Hs].
  unfold bind at 1.
  destruct (truthy (pendingEmail (emailInfo u))).
  - unfold bind at 1.
    destruct (find (fun u0 => opt_eqb _ (email u0) && _) (users w))
      as [taken|]; [discriminate|].
    unfold ret, bind, user_update. rewrite Hs. intros [= <- <-].
    exists u, stored. repeat split. exact Hs.
  - unfold ret, bind, user_update. rewrite Hs. intros [= <- <-].
    exists u, stored. repeat split. exact Hs.
Qed.

(** X17. The [verifyEmail] controller issues tokens only for a first
    verification: when the matched account was unverified the reply carries
    a token pair and one session of that account is added; when it was
    already verified (a confirmed email change) the reply carries no tokens
    and no session is added. In both cases the account shown is verified. *)
Theorem verifyEmail_tokens (t : string) (ua ip remote : option string)
    (w w' : World) (message : string) (shown : SerializedUser)
    (tokens : option TokenPair) :
  verifyEmail t ua ip remote w = (Returns (message, shown, tokens), w') ->
  exists d,
    find (fun v => opt_eqb (verificationToken (emailInfo v)) (hashData t)
                   && opt_gt (verificationExpires (emailInfo v)) (clock w))
         (users w) = Some d /\
    ser_email_verified shown = true /\
    ser_id shown = uid d /\
    (isVerified (emailInfo d) = true ->
     tokens = None /\ sessions w' = sessions w) /\
    (isVerified (emailInfo d) = false ->
     exists pair created,
       tokens = Some pair /\
       sessions w' = (sessions w ++ [created])%list /\
       userId created = uid d /\
       refreshToken created = hashData (tp_refreshToken pair)).
Proof.
  unfold verifyEmail, bind at 1.
  destruct (verifyEmailWithToken t w) as [[r|x] w0] eqn:Hv; [|discriminate].
  destruct (verifyEmailWithToken_inv _ _ _ _ Hv)
    as [d [stored [Hd [Hs [-> ->]]]]].
  pose proof (find_by_uid_hit _ _ _ Hs) as Hid.
  assert (Huid : uid (verified_data d stored) = uid d).
  { unfold verified_data. cbn [uid with_emailInfo].
    destruct (truthy (pendingEmail (emailInfo d))); exact Hid. }
  destruct (isVerified (emailInfo d)) eqn:Hver; cbn [negb].
  - unfold bind, ret. intros [= <- <- <- <-].
    exists d. split; [exact Hd|]. split; [reflexivity|].
    split; [exact Huid|].
    split; [intros _; split; reflexivity|]. rewrite Hver. discriminate.
  - cbv beta iota. unfold bind at 1. unfold bind at 1.
    rewrite generateTokenPair_run. cbv zeta.
    destruct (List.existsb _ _); [discriminate|].
    unfold bind, ret. intros [= <- <- <- <-].
    exists d. split; [exact Hd|]. split; [reflexivity|].
    split; [exact Huid|].
    split; [rewrite Hver; discriminate|].
    intros _. eexists. eexists. split; [reflexivity|].
    split; [reflexivity|]. split; [exact Huid|reflexivity].
Qed.

(** *** The login controller *)



Lemma substring_all (t : string) : substring 0 (String.length t) t = t.
Proof. induction t as [|c t IH]; simpl; [reflexivity|]. now rewrite IH. Qed.

Lemma substring_bearer (t : string) :
  substring 7 (String.length ("Bearer " ++ t) - 7) ("Bearer " ++ t) = t.
Proof.
  cbn [String.append String.length]. cbn [Nat.sub substring].
  rewrite Nat.sub_0_r. apply substring_all.
Qed.

Lemma authenticateUser_valid_inv (e password : string) (w w' : World)
    (u : User) :
  authenticateUser e password w = (Returns (Some u, true), w') ->
  find (fun v => (email v =? e)%string) (users w) = Some u /\
  truthy (provider (emailInfo u)) && negb (truthy (hash (passwordInfo u)))
    = false /\
  isVerified (emailInfo u) = true /\
  isAccountLocked (clock w) u = false /\
  comparePassword (hash (passwordInfo u)) password = true.
Proof.
  intros Hrun.
  destruct (find (fun v => (email v =? e)%string) (users w)) as [u0|] eqn:Hf.
  2:{ unfold authenticateUser, bind at 1, user_findUnique_email in Hrun.
      rewrite Hf in Hrun. discriminate. }
  destruct (truthy (provider (emailInfo u0))
            && negb (truthy (hash (passwordInfo u0)))) eqn:Hsoc.
  { unfold authenticateUser, bind at 1, user_findUnique_email in Hrun.
    rewrite Hf, Hsoc in Hrun. discriminate. }
  destruct (isVerified (emailInfo u0)) eqn:Hver.
  2:{ unfold authenticateUser, bind at 1, user_findUnique_email in Hrun.
      rewrite Hf, Hsoc, Hver in Hrun. discriminate. }
  destruct (isAccountLocked (clock w) u0) eqn:Hlock.
  { rewrite (locked_run e password w u0 Hf Hsoc Hver Hlock) in Hrun.
    discriminate. }
  destruct (comparePassword (hash (passwordInfo u0)) password) eqn:Hpw.
  - destruct (right_password_run e password w u0 Hf Hsoc Hver Hlock Hpw)
      as [w1 [Hrun1 _]].
    rewrite Hrun1 in Hrun. injection Hrun as <- <-.
    repeat split; assumption.
  - rewrite (wrong_password_run e password w u0 Hf Hsoc Hver Hlock Hpw)
      in Hrun.
    discriminate.
Qed.

(** The world a login with the right password leaves, in full. *)
Lemma right_password_world (e password : string) (w : World) (u : User) :
  find (fun v => (email v =? e)%string) (users w) = Some u ->
  truthy (provider (emailInfo u)) && negb (truthy (hash (passwordInfo u)))
    = false ->
  isVerified (emailInfo u) = true ->
  isAccountLocked (clock w) u = false ->
  comparePassword (hash (passwordInfo u)) password = true ->
  authenticateUser e password w =
    (Returns (Some u, true),
     rewrite_user (uid u) (with_lastLoginAt (Some (clock w)))
       (if (0 <? failedAttemptCount (lockoutInfo u))%N
        then rewrite_user (uid u)
               (with_lockoutInfo (mkLockout false None 0%N)) w
        else w)).
Proof.
  intros Hf Hsoc Hver Hlock Hpw.
  destruct (found_by_email_has_uid _ _ _ Hf) as [stored Hs].
  unfold authenticateUser, bind at 1, user_findUnique_email.
  rewrite Hf, Hsoc, Hver. cbn [negb]. cbv beta iota.
  unfold bind at 1, currentDate. rewrite Hlock, Hpw. cbn [negb]. cbv beta iota.
  destruct (0 <? failedAttemptCount (lockoutInfo u))%N.
  - unfold resetFailedLoginAttempts, bind, ret.
    erewrite user_update_run by exact Hs.
    erewrite user_update_run; [reflexivity|].
    rewrite rewrite_user_by_uid, Hs by reflexivity. reflexivity.
  - unfold bind, ret. erewrite user_update_run by exact Hs. reflexivity.
Qed.

(** X19. The tokens [login] returns open the protected routes: the next
    request that carries them as [Bearer <accessToken>] and refresh token is
    let through by [authenticate], which attaches the account that logged
    in. Assumed: the JWT library verifies what it signed for the stored
    accounts, the access token
    has no surrounding blanks, ids are non-empty and name one account each,
    the refresh lifetime is positive, and a positive number of calendar
    days after an instant is a later instant. *)
Theorem login_then_authenticate (e password : string)
    (ua ip remote : option string) (w w1 : World) (message : string)
    (shown : SerializedUser) (pair : TokenPair) :
  (forall v, In v (users w) ->
             jwtVerify (jwtSign (mkPayload (uid v) (email v)))
             = Verified (mkPayload (uid v) (email v))) ->
  js_trim (accessToken pair) = accessToken pair ->
  e <> "" ->
  (forall v, In v (users w) -> uid v <> "") ->
  (forall a b, In a (users w) -> In b (users w) -> uid a = uid b -> a = b) ->
  (forall n t, 0 < n -> t < dayjsAddDay n t) ->
  0 < refreshExpiresDays jwtConfig ->
  login e password ua ip remote w = (Returns (message, shown, pair), w1) ->
  exists user payload,
    authenticate (Some ("Bearer " ++ accessToken pair))
                 (Some (tp_refreshToken pair)) w1
      = (Returns (user, payload), w1) /\
    uid user = ser_id shown /\
    email user = e /\
    jwt_userId payload = uid user.
Proof.
  intros Hjwt Htrim He Hids Huniq Hday Hdays Hlogin.
  unfold login, bind at 1 in Hlogin.
  destruct (authenticateUser e password w) as [[[found valid]|y] w0] eqn:Ha;
    [|discriminate].
  destruct found as [u|]; [|discriminate].
  destruct valid; [|discriminate]. cbn [negb] in Hlogin.
  destruct (authenticateUser_valid_inv _ _ _ _ _ Ha)
    as [Hf [Hsoc [Hver [Hlock Hpw]]]].
  rewrite (right_password_world e password w u Hf Hsoc Hver Hlock Hpw) in Ha.
  injection Ha as Hw0.
  unfold bind at 1 in Hlogin. rewrite generateTokenPair_run in Hlogin.
  cbv zeta in Hlogin.
  destruct (List.existsb _ _); [discriminate|].
  unfold ret in Hlogin. injection Hlogin as _ Hshown Hpair Hw1.
  pose proof Hf as Hin. apply find_some in Hin. destruct Hin as [Hin Hem].
  apply String.eqb_eq in Hem.
  destruct (found_by_email_has_uid _ _ _ Hf) as [stored Hs].
  assert (stored = u).
  { pose proof (find_by_uid_hit _ _ _ Hs) as Hid.
    apply find_some in Hs. destruct Hs as [Hs _].
    exact (Huniq stored u Hs Hin Hid). }
  subst stored.
  set (g := fun v : User =>
              with_lastLoginAt (Some (clock w))
                (if (0 <? failedAttemptCount (lockoutInfo u))%N
                 then with_lockoutInfo (mkLockout false None 0%N) v else v)).
  assert (Hfu : find (fun v => (uid v =? uid u)%string) (users w0)
                = Some (g u)).
  { rewrite <- Hw0. unfold g.
    destruct (0 <? failedAttemptCount (lockoutInfo u))%N.
    - rewrite rewrite_user_by_uid by reflexivity.
      rewrite rewrite_user_by_uid, Hs by reflexivity. reflexivity.
    - rewrite rewrite_user_by_uid, Hs by reflexivity. reflexivity. }
  assert (Hclk : clock w0 = clock w).
  { rewrite <- Hw0.
    destruct (0 <? failedAttemptCount (lockoutInfo u))%N; reflexivity. }
  assert (Hfree : isAccountLocked (clock w) (g u) = false).
  { unfold g. destruct (0 <? failedAttemptCount (lockoutInfo u))%N.
    - reflexivity.
    - exact Hlock. }
  exists (g u), (mkPayload (uid u) (email u)).
  split.
  - rewrite authenticate_run. rewrite substring_bearer, Htrim.
    rewrite <- Hpair, <- Hw1. cbn [accessToken tp_refreshToken].
    unfold verifyAccessToken. rewrite (Hjwt u Hin).
    cbn [jwt_userId jwt_email users sessions clock].
    replace (truthy (Some (uid u))) with true
      by (symmetry; apply truthy_Some; exact (Hids u Hin)).
    replace (truthy (Some (email u))) with true
      by (symmetry; apply truthy_Some; rewrite Hem; exact He).
    cbn [negb orb].
    destruct (find_present
                (fun s => (refreshToken s
                           =? hashData (randomBytesHex 40 (draws w0)))%string
                          && (clock w0 <? expiresAt s))
                (sessions w0
                 ++ [mkSession (newObjectId (minted w0)) (uid u)
                       (hashData (randomBytesHex 40 (draws w0)))
                       (or_null ua) (or_null (client_address ip remote))
                       (dayjsAddDay (refreshExpiresDays jwtConfig)
                          (clock w0))])%list
                (mkSession (newObjectId (minted w0)) (uid u)
                       (hashData (randomBytesHex 40 (draws w0)))
                       (or_null ua) (or_null (client_address ip remote))
                       (dayjsAddDay (refreshExpiresDays jwtConfig) (clock w0))))
      as [s Hs'].
    + apply in_or_app. right. now left.
    + cbn [refreshToken expiresAt]. rewrite String.eqb_refl.
      apply Z.ltb_lt. apply Hday. exact Hdays.
    + rewrite Hs', Hfu, Hclk, Hfree. reflexivity.
  - split; [|split].
    + rewrite <- Hshown. unfold g.
      destruct (0 <? failedAttemptCount (lockoutInfo u))%N; reflexivity.
    + unfold g.
      destruct (0 <? failedAttemptCount (lockoutInfo u))%N; exact Hem.
    + unfold g.
      destruct (0 <? failedAttemptCount (lockoutInfo u))%N; reflexivity.
Qed.

(** *** Profile updates *)

(** X20. An update that asks for nothing writes nothing: when no name,
    phone or password is given (or they are empty) and the email is absent,
    or is the account's own email which no other account holds,
    [updateUserProfile] returns the account it was given with "Profile
    updated successfully" and leaves the store as it was. *)
Theorem updateUserProfile_noop (user : User) (updates : UpdateUserProfile)
    (w : World) :
  truthy (upd_fullname updates) = false ->
  truthy (upd_phone updates) = false ->
  truthy (upd_password updates) = false ->
  (truthy (upd_email updates) = false \/
   (uid user <> "" /\ upd_email updates = Some (email user) /\
    forall v, In v (users w) -> email v = email user -> uid v = uid user)) ->
  updateUserProfile user updates w =
    (Returns (user, "Profile updated successfully"), w).
Proof.
  intros Hn Hp Hpw Hem.
  assert (Hpre : resolveConflicts user updates w = (Returns tt, w)).
  { unfold resolveConflicts. rewrite Hp.
    destruct Hem as [He|[Hid [He Hown]]].
    - rewrite He. reflexivity.
    - rewrite He. destruct (truthy (Some (email user))) eqn:Ht;
        [|reflexivity].
      cbn [orb]. unfold bind at 1, checkUserExists. rewrite Ht.
      cbn [negb andb]. unfold bind at 1, user_findFirst.
      rewrite find_absent; [reflexivity|].
      intros v Hv. rewrite Hp. cbn [andb orb]. rewrite orb_false_r.
      replace (truthy (Some (uid user))) with true
        by (symmetry; now apply truthy_Some).
      cbn [opt_eqb].
      destruct (String.eqb_spec (email user) (email v)) as [E|E];
        [|reflexivity].
      rewrite (Hown v Hv (eq_sym E)), String.eqb_refl. reflexivity. }
  assert (Hskip : truthy (upd_email updates)
                  && negb (opt_eqb (upd_email updates) (email user)) = false).
  { destruct Hem as [He|[_ [He _]]].
    - rewrite He. reflexivity.
    - rewrite He. cbn [opt_eqb]. rewrite String.eqb_refl.
      apply andb_false_r. }
  unfold updateUserProfile, bind at 1. rewrite Hpre, Hskip.
  unfold bind at 1, ret at 1. unfold bind at 1. rewrite Hpw.
  unfold ret at 1. rewrite Hn. reflexivity.
Qed.

(** X21. A password set through [updateUserProfile] is the password that
    logs in: the call answers "Password updated successfully", and
    [authenticateUser] then accepts the account's email with the new
    password (for a verified, unlocked account, bcrypt accepting the
    password it hashed). *)
Theorem password_change_then_login (u : User) (password : string)
    (redirect : option string) (w : World) :
  password <> "" ->
  find (fun v => (email v =? email u)%string) (users w) = Some u ->
  isVerified (emailInfo u) = true ->
  isAccountLocked (clock w) u = false ->
  bcryptCompare password (bcryptHash password) = true ->
  bcryptHash password <> "" ->
  exists shown w1 logged w2,
    updateUserProfile u (mkUpdates None None None (Some password) redirect) w
      = (Returns (shown, "Password updated successfully"), w1) /\
    hash (passwordInfo shown) = Some (bcryptHash password) /\
    authenticateUser (email u) password w1
      = (Returns (Some logged, true), w2) /\
    uid logged = uid u.
Proof.
  intros Hpw Hf Hver Hlock Hbc Hne.
  destruct (found_by_email_has_uid _ _ _ Hf) as [stored Hs].
  assert (Ht : truthy (Some password) = true) by now apply truthy_Some.
  set (f := fun v : User =>
              with_passwordInfo
                (mkPasswordInfo (Some (bcryptHash password))
                   (resetToken (passwordInfo u))
                   (resetExpires (passwordInfo u))) v).
  assert (Hrun : updateUserProfile u
                   (mkUpdates None None None (Some password) redirect) w
                 = (Returns (f stored, "Password updated successfully"),
                    rewrite_user (uid u) f w)).
  { assert (Hpe : (password =? "")%string = false)
      by now apply String.eqb_neq.
    unfold updateUserProfile, bind at 1, resolveConflicts.
    cbn [upd_email upd_phone upd_password upd_fullname truthy orb andb].
    rewrite Hpe. cbn [negb].
    unfold ret at 1. unfold bind at 1, ret at 1.
    unfold bind at 1.
    unfold bind at 1, hashPassword, ret at 1. unfold ret at 1.
    unfold bind.
    erewrite user_update_run by exact Hs. reflexivity. }
  assert (Hf1 := rewrite_user_by_email (email u) f w u (fun v => eq_refl) Hf).
  destruct (right_password_run (email u) password (rewrite_user (uid u) f w)
              (f u)) as [w2 [Hlogin _]].
  - exact Hf1.
  - unfold f. cbn [passwordInfo with_passwordInfo hash].
    replace (truthy (Some (bcryptHash password))) with true
      by (symmetry; now apply truthy_Some).
    apply andb_false_r.
  - exact Hver.
  - exact Hlock.
  - unfold f, comparePassword. cbn [passwordInfo with_passwordInfo hash].
    apply String.eqb_neq in Hne. rewrite Hne. exact Hbc.
  - exists (f stored), (rewrite_user (uid u) f w), (f u), w2.
    split; [exact Hrun|]. split; [reflexivity|].
    split; [exact Hlogin|reflexivity].
Qed.

(** X22. Email change, end to end. For an address that no account holds,
    [updateUserProfile] answers that a verification mail was sent and returns
    the account as it was given (the pending address is not in the reply);
    the token it drew then confirms the change at any time before the
    expiry, the instant one calendar day after the request as dayjs computes
    it: the stored account gets the new email, is verified, and has no
    pending address or token left. The verification counts as a first
    verification exactly when the account was unverified. *)
Theorem email_change_then_verify (u : User) (e' : string)
    (redirect : option string) (w : World) :
  let token := randomBytesHex 32 (draws w) in
  e' <> "" ->
  e' <> email u ->
  In u (users w) ->
  (forall v, In v (users w) -> email v <> e') ->
  (forall v, In v (users w) ->
             verificationToken (emailInfo v) <> Some (hashData token)) ->
  (forall w2,
     sendEmailVerification e' (fullname u) token (assert_present redirect)
       true w2 = (Returns tt, w2)) ->
  exists w1,
    updateUserProfile u (mkUpdates None (Some e') None None redirect) w =
      (Returns
         (u, "Profile updated. Verification email sent to your new email address. Please verify to complete the email change."),
       w1) /\
    forall later,
      later < dayjsAddDay 1 (clock w) ->
      exists r w2 after,
        verifyEmailWithToken token (set_clock later w1) = (Returns r, w2) /\
        snd r = negb (isVerified (emailInfo u)) /\
        find (fun v => (uid v =? uid u)%string) (users w2) = Some after /\
        email after = e' /\
        emailInfo after =
          mkEmailInfo true None None None (provider (emailInfo u)).
Proof.
  intros token He Hdiff Hin Hfree Hfresh Hsend.
  assert (Ht : truthy (Some e') = true) by now apply truthy_Some.
  destruct (find_present (fun v => (uid v =? uid u)%string) _ u Hin
              (String.eqb_refl _)) as [stored Hs].
  set (pendingf := with_emailInfo
         (mkEmailInfo (isVerified (emailInfo u)) (Some (hashData token))
            (Some (dayjsAddDay 1 (clock w))) (Some e')
            (provider (emailInfo u)))).
  set (w0 := mkWorld (users w) (sessions w) (clock w) (S (draws w))
                     (minted w)).
  exists (rewrite_user (uid u) pendingf w0).
  split.
  - unfold updateUserProfile, bind at 1, resolveConflicts.
    cbn [upd_email upd_phone upd_password upd_fullname]. rewrite Ht.
    cbn [orb]. unfold bind at 1, checkUserExists. rewrite Ht.
    cbn [negb andb truthy]. unfold bind at 1, user_findFirst.
    rewrite find_absent.
    2:{ intros v Hv. cbn [andb orb opt_eqb].
        destruct (String.eqb_spec e' (email v)) as [E|E]; [|reflexivity].
        exfalso. exact (Hfree v Hv (eq_sym E)). }
    unfold ret at 1. unfold ret at 1.
    replace (opt_eqb (Some e') (email u)) with false
      by (symmetry; apply opt_eqb_false; congruence).
    cbn [negb andb]. unfold bind at 1. unfold bind at 1.
    unfold generateVerificationToken, bind at 1, generateRandomString.
    unfold bind at 1, addDays, bind at 1, currentDate, ret at 1.
    unfold ret at 1. cbv beta iota. cbn [clock]. fold w0. fold token.
    unfold try_catch, bind at 1.
    erewrite user_update_run by exact Hs.
    unfold bind at 1. cbn [assert_present] in Hsend |- *. rewrite Hsend.
    unfold ret at 1. unfold bind at 1, ret at 1. unfold ret.
    reflexivity.
  - intros later Hlater.
    destruct (find_rewritten
                (fun v => opt_eqb (verificationToken (emailInfo v))
                                  (hashData token)
                          && opt_gt (verificationExpires (emailInfo v)) later)
                pendingf (uid u) (users w))
      as [v0 [Hin0 [Hv0 Hfind]]].
    + intros v Hv _. rewrite (opt_eqb_false _ _ (Hfresh v Hv)). reflexivity.
    + intros v _. unfold pendingf.
      cbn [with_emailInfo emailInfo verificationToken verificationExpires
           opt_eqb opt_gt].
      rewrite String.eqb_refl. apply Z.ltb_lt in Hlater. rewrite Hlater.
      reflexivity.
    + exists u. split; [exact Hin|reflexivity].
    + set (d := pendingf v0) in *.
      assert (Hd : uid d = uid u) by exact Hv0.
      assert (Hs1 : find (fun v => (uid v =? uid d)%string)
                         (users (set_clock later
                                   (rewrite_user (uid u) pendingf w0)))
                    = Some (pendingf stored)).
      { rewrite Hd. cbn [users set_clock].
        rewrite rewrite_user_by_uid by reflexivity.
        cbn [users w0]. rewrite Hs. reflexivity. }
      eexists. eexists. exists (verified_data d (pendingf stored)).
      split.
      * apply (verifyEmailWithToken_run token
                 (set_clock later (rewrite_user (uid u) pendingf w0))
                 d (pendingf stored)).
        -- exact Hfind.
        -- intros _. apply find_absent. intros a Ha.
           cbn [users set_clock rewrite_user set_users w0] in Ha.
           apply in_map_iff in Ha. destruct Ha as [v [<- Hv]].
           assert (Hev : email (if (uid v =? uid u)%string
                                then pendingf v else v) = email v)
             by (destruct (uid v =? uid u)%string; reflexivity).
           unfold d, pendingf at 1.
           cbn [with_emailInfo emailInfo pendingEmail opt_eqb].
           rewrite Hev.
           destruct (String.eqb_spec e' (email v)) as [E|E]; [|reflexivity].
           exfalso. exact (Hfree v Hv (eq_sym E)).
        -- exact Hs1.
      * split; [reflexivity|]. split.
        -- assert (Hpres : forall v, uid (verified_data d v) = uid v).
           { intros v. unfold verified_data. cbn [uid with_emailInfo].
             destruct (truthy (pendingEmail (emailInfo d))); reflexivity. }
           rewrite (find_ext_eq (fun v => (uid v =? uid u)%string)
                                (fun v => (uid v =? uid d)%string))
             by (intros a; rewrite Hd; reflexivity).
           rewrite rewrite_user_by_uid by exact Hpres.
           rewrite Hs1. reflexivity.
        -- unfold verified_data, d, pendingf.
           cbn [with_emailInfo emailInfo pendingEmail provider].
           rewrite Ht. cbn [assert_present email with_email with_emailInfo
                            emailInfo].
           split; reflexivity.
Qed.

(** *** Refused confirmations *)

(** X23. [verifyEmailWithToken] throws in two cases only and writes nothing
    in either: no account holds the hash with an expiry after now (403), or
    the pending address of the matched account is the email of another
    account (409). A confirmation refused for the second reason leaves the
    token in place. *)
Theorem verifyEmailWithToken_refusals (t : string) (w w' : World) (x : Exn) :
  verifyEmailWithToken t w = (Throws x, w') ->
  w' = w /\
  ((find (fun v => opt_eqb (verificationToken (emailInfo v)) (hashData t)
                   && opt_gt (verificationExpires (emailInfo v)) (clock w))
         (users w) = None /\
    x = AppError "Invalid or expired email verification token" 403)
   \/
   (exists d other e,
      find (fun v => opt_eqb (verificationToken (emailInfo v)) (hashData t)
                     && opt_gt (verificationExpires (emailInfo v)) (clock w))
           (users w) = Some d /\
      pendingEmail (emailInfo d) = Some e /\
      In other (users w) /\ email other = e /\ uid other <> uid d /\
      x = AppError "Email address is already in use" 409)).
Proof.
  unfold verifyEmailWithToken, bind at 1, currentDate.
  unfold bind at 1, user_findFirst.
  destruct (find _ (users w)) as [d|] eqn:Hd.
  2:{ intros [= <- <-]. split; [reflexivity|]. left. split; reflexivity. }
  pose proof Hd as Hin. apply find_some in Hin. destruct Hin as [Hin _].
  destruct (find_present (fun v => (uid v =? uid d)%string) _ d Hin
              (String.eqb_refl _)) as [stored Hs].
  unfold bind at 1.
  destruct (truthy (pendingEmail (emailInfo d))) eqn:Hp.
  - unfold bind at 1.
    destruct (find (fun u0 => opt_eqb _ (email u0) && _) (users w))
      as [other|] eqn:Ho.
    + intros [= <- <-]. split; [reflexivity|]. right.
      apply find_some in Ho. destruct Ho as [Hino Hc].
      apply andb_true_iff in Hc. destruct Hc as [Hc1 Hc2].
      apply opt_eqb_true in Hc1. apply negb_true_iff in Hc2.
      apply String.eqb_neq in Hc2.
      exists d, other, (email other). repeat split; assumption.
    + unfold ret, bind, user_update. rewrite Hs. discriminate.
  - unfold ret, bind, user_update. rewrite Hs. discriminate.
Qed.

(** *** Accounts from an OAuth provider *)

(** X24. [createOAuthUser] returns an account that already has the email as
    it is and writes nothing; otherwise it stores a new account that is
    verified, carries the provider and has no password. A password login on
    such an account is refused with 403 and is not counted as a failed
    attempt: the store stays as it is. *)
Theorem oauth_account (o : IOAuthUser) (w : World) :
  (forall existing,
     find (fun v => (email v =? oa_email o)%string) (users w) = Some existing ->
     createOAuthUser o w = (Returns existing, w))
  /\
  (find (fun v => (email v =? oa_email o)%string) (users w) = None ->
   oa_provider o <> "" ->
   exists created w1,
     createOAuthUser o w = (Returns created, w1) /\
     users w1 = (users w ++ [created])%list /\
     email created = oa_email o /\
     emailInfo created =
       mkEmailInfo true None None None (Some (oa_provider o)) /\
     passwordInfo created = mkPasswordInfo None None None /\
     lastLoginAt created = Some (clock w) /\
     forall password,
       authenticateUser (oa_email o) password w1 =
         (Throws
            (AppError
               "You signed in with a social account. To log in with a password, please set one using 'Forgot Password'."
               403), w1)).
Proof.
  split.
  - intros existing Hf. unfold createOAuthUser, bind at 1,
      user_findUnique_email. rewrite Hf. reflexivity.
  - intros Hf Hprov.
    assert (Hnone : forall v, In v (users w) ->
                      (email v =? oa_email o)%string = false)
      by exact (find_none _ _ Hf).
    assert (Htp : truthy (Some (oa_provider o)) = true)
      by now apply truthy_Some.
    eexists. eexists. split.
    + unfold createOAuthUser, bind at 1, user_findUnique_email. rewrite Hf.
      unfold bind, currentDate, user_create. cbn [email].
      rewrite (existsb_none _ _ Hnone). reflexivity.
    + split; [reflexivity|]. split; [reflexivity|].
      split; [unfold or_null; rewrite Htp; reflexivity|].
      split; [reflexivity|]. split; [reflexivity|].
      intros password.
      unfold authenticateUser, bind at 1, user_findUnique_email.
      cbn [users]. rewrite find_app_skip by exact Hnone.
      cbn [find email]. rewrite String.eqb_refl.
      cbn [emailInfo provider passwordInfo hash]. unfold or_null.
      rewrite Htp, Htp. reflexivity.
Qed.

(** *** The login-code store *)

Lemma map_get_set_same (code : string) (r : LoginStoreRecord)
    (store : LoginStore) :
  map_get code (map_set code r store) = Some r.
Proof.
  unfold map_get. induction store as [|b rest IH]; simpl.
  - rewrite String.eqb_refl. reflexivity.
  - destruct (fst b =? code)%string eqn:E; simpl.
    + rewrite String.eqb_refl. reflexivity.
    + rewrite E. exact IH.
Qed.

Lemma map_get_set_other (code other : string) (r : LoginStoreRecord)
    (store : LoginStore) :
  other <> code ->
  map_get other (map_set code r store) = map_get other store.
Proof.
  intros Hne. unfold map_get. induction store as [|b rest IH]; simpl.
  - apply String.eqb_neq in Hne. rewrite String.eqb_sym, Hne. reflexivity.
  - destruct (String.eqb_spec (fst b) code) as [E|E]; simpl.
    + rewrite E.
      destruct (String.eqb_spec code other) as [E'|E']; [congruence|].
      reflexivity.
    + destruct (fst b =? other)%string; [reflexivity|exact IH].
Qed.

Lemma map_get_delete_same (code : string) (store : LoginStore) :
  map_get code (map_delete code store) = None.
Proof.
  unfold map_get, map_delete. rewrite find_absent; [reflexivity|].
  intros b Hb. apply filter_In in Hb. destruct Hb as [_ Hb].
  now apply negb_true_iff in Hb.
Qed.

(** X25. A login code is good for five minutes: after [loginStore_set] at
    time [now], [loginStore_get] returns the stored account and tokens at
    every time up to and including [now] plus five minutes and keeps the
    entry; at any later time it returns null and removes the entry. Entries
    under other codes are not affected by the set. *)
Theorem loginStore_ttl (now : Z) (code : string) (user : User)
    (tokens : TokenPair) (store : LoginStore) :
  let stored := loginStore_set now code user tokens store in
  (forall later,
     later <= now + 5 * 60000 ->
     loginStore_get later code stored =
       (Some (mkLoginRecord user tokens (now + 5 * 60000)), stored))
  /\
  (forall later,
     now + 5 * 60000 < later ->
     loginStore_get later code stored = (None, map_delete code stored) /\
     map_get code (map_delete code stored) = None)
  /\
  (forall other, other <> code -> map_get other stored = map_get other store).
Proof.
  intros stored. unfold stored, loginStore_set, loginStore_get.
  change (LOGIN_CODE_EXPIRY_MINUTES * ms_per_minute) with (5 * 60000).
  split; [|split].
  - intros later Hlater. rewrite map_get_set_same. cbn [lsr_expiresAt].
    replace (now + 5 * 60000 <? later) with false
      by (symmetry; apply Z.ltb_ge; exact Hlater).
    reflexivity.
  - intros later Hlater. rewrite map_get_set_same. cbn [lsr_expiresAt].
    replace (now + 5 * 60000 <? later) with true
      by (symmetry; apply Z.ltb_lt; exact Hlater).
    split; [reflexivity|apply map_get_delete_same].
  - intros other Hne. apply map_get_set_other. exact Hne.
Qed.

(** X26. A login code is exchanged once: after [exchangeCode] has answered
    with the account and tokens, every later exchange of the same code fails
    with "Invalid or expired login code" (400); an absent or empty code
    fails with "Missing login code" (400) and touches nothing. *)
Theorem exchangeCode_single_use (now : Z) (code : string)
    (store store1 : LoginStore)
    (reply : string * SerializedUser * TokenPair) :
  exchangeCode now (Some code) store = (Returns reply, store1) ->
  (exists record,
     map_get code store = Some record /\
     now <= lsr_expiresAt record /\
     reply = ("Login successful", serializeUser (lsr_user record),
              lsr_tokens record)) /\
  (forall later,
     exchangeCode later (Some code) store1 =
       (Throws (AppError "Invalid or expired login code" 400), store1)) /\
  (forall later c, truthy c = false ->
     exchangeCode later c store1 =
       (Throws (AppError "Missing login code" 400), store1)).
Proof.
  unfold exchangeCode.
  destruct (truthy (Some code)) eqn:Ht; cbn [negb]; [|discriminate].
  cbn [assert_present]. unfold loginStore_get.
  destruct (map_get code store) as [record|] eqn:Hg; [|discriminate].
  destruct (lsr_expiresAt record <? now) eqn:Hx; [discriminate|].
  intros [= <- <-]. split; [|split].
  - exists record. split; [reflexivity|]. split; [|reflexivity].
    apply Z.ltb_ge. exact Hx.
  - intros later. unfold loginStore_delete.
    rewrite map_get_delete_same. reflexivity.
  - intros later c Hc. rewrite Hc. reflexivity.
Qed.

Lemma map_get_in (code : string) (store : LoginStore) (r : LoginStoreRecord) :
  map_get code store = Some r -> In (code, r) store.
Proof.
  unfold map_get. destruct (find _ store) as [[c r0]|] eqn:Hf; [|discriminate].
  cbn [option_map snd]. intros [= <-].
  apply find_some in Hf. destruct Hf as [Hin Hc].
  cbn [fst] in Hc. apply String.eqb_eq in Hc. now subst.
Qed.

Lemma map_get_unique (code : string) (store : LoginStore)
    (r : LoginStoreRecord) :
  NoDup (map fst store) -> In (code, r) store -> map_get code store = Some r.
Proof.
  unfold map_get. induction store as [|[c r0] rest IH]; intros Hnd Hin.
  - destruct Hin.
  - cbn [find fst]. inversion Hnd as [|? ? Hnotin Hnd']; subst.
    destruct Hin as [E|Hin].
    + injection E as -> ->. rewrite String.eqb_refl. reflexivity.
    + destruct (String.eqb_spec c code) as [E|E].
      * exfalso. apply Hnotin. subst c.
        change code with (fst (code, r)). now apply in_map.
      * exact (IH Hnd' Hin).
Qed.

Lemma NoDup_keys_filter (p : string * LoginStoreRecord -> bool)
    (store : LoginStore) :
  NoDup (map fst store) -> NoDup (map fst (filter p store)).
Proof.
  induction store as [|b rest IH]; simpl; intros Hnd; [constructor|].
  inversion Hnd as [|? ? Hnotin Hnd']; subst.
  destruct (p b); [|exact (IH Hnd')].
  simpl. constructor; [|exact (IH Hnd')].
  intros Hin. apply Hnotin. apply in_map_iff in Hin.
  destruct Hin as [c [Hc Hin]]. apply filter_In in Hin.
  rewrite <- Hc. apply in_map. tauto.
Qed.

Lemma map_set_keys (code : string) (r : LoginStoreRecord)
    (store : LoginStore) (k : string) :
  In k (map fst (map_set code r store)) -> k = code \/ In k (map fst store).
Proof.
  induction store as [|b rest IH]; simpl.
  - intros [<-|[]]. now left.
  - destruct (String.eqb_spec (fst b) code) as [E|E]; simpl.
    + intros [<-|H]; [now left|right; now right].
    + intros [<-|H]; [right; now left|].
      destruct (IH H) as [->|H']; [now left|right; now right].
Qed.

Lemma NoDup_keys_set (code : string) (r : LoginStoreRecord)
    (store : LoginStore) :
  NoDup (map fst store) -> NoDup (map fst (map_set code r store)).
Proof.
  induction store as [|b rest IH]; simpl; intros Hnd.
  - constructor; [intros []|constructor].
  - inversion Hnd as [|? ? Hnotin Hnd']; subst.
    destruct (String.eqb_spec (fst b) code) as [E|E]; simpl.
    + constructor; [rewrite <- E; exact Hnotin|exact Hnd'].
    + constructor; [|exact (IH Hnd')].
      intros Hin. destruct (map_set_keys _ _ _ _ Hin) as [E'|Hin'];
        [congruence|contradiction].
Qed.

(** X27. The store keeps one entry per code, and the periodic [cleanup] is
    invisible to the callers: with one entry per code, [loginStore_set],
    [loginStore_delete], [cleanup] and the store [loginStore_get] leaves all
    keep one entry per code, and at any time not before the sweep
    [loginStore_get] answers the same on the swept store as on the
    unswept one. *)
Theorem loginStore_cleanup_invisible (store : LoginStore) :
  NoDup (map fst store) ->
  (forall now code user tokens,
     NoDup (map fst (loginStore_set now code user tokens store))) /\
  (forall code, NoDup (map fst (loginStore_delete code store))) /\
  (forall now, NoDup (map fst (cleanup now store))) /\
  (forall now code, NoDup (map fst (snd (loginStore_get now code store)))) /\
  (forall swept later code,
     swept <= later ->
     fst (loginStore_get later code (cleanup swept store)) =
     fst (loginStore_get later code store)).
Proof.
  intros Hnd. split; [|split; [|split; [|split]]].
  - intros. apply NoDup_keys_set. exact Hnd.
  - intros. apply NoDup_keys_filter. exact Hnd.
  - intros. apply NoDup_keys_filter. exact Hnd.
  - intros now code. unfold loginStore_get.
    destruct (map_get code store) as [r|]; [|exact Hnd].
    destruct (lsr_expiresAt r <? now); [|exact Hnd].
    apply NoDup_keys_filter. exact Hnd.
  - intros swept later code Hle. unfold loginStore_get.
    destruct (map_get code store) as [r|] eqn:Hg.
    + destruct (lsr_expiresAt r <? swept) eqn:Hs.
      * apply Z.ltb_lt in Hs.
        replace (lsr_expiresAt r <? later) with true
          by (symmetry; apply Z.ltb_lt; lia).
        destruct (map_get code (cleanup swept store)) as [r'|] eqn:Hg';
          [|reflexivity].
        apply map_get_in in Hg'. unfold cleanup in Hg'.
        apply filter_In in Hg'. destruct Hg' as [Hin' Hk].
        rewrite (map_get_unique code store r' Hnd Hin') in Hg.
        injection Hg as ->. cbn [snd] in Hk.
        apply negb_true_iff, Z.ltb_ge in Hk. lia.
      * rewrite (map_get_unique code (cleanup swept store) r).
        -- destruct (lsr_expiresAt r <? later); reflexivity.
        -- apply NoDup_keys_filter. exact Hnd.
        -- unfold cleanup. apply filter_In. split.
           ++ now apply map_get_in.
           ++ cbn [snd]. rewrite Hs. reflexivity.
    + destruct (map_get code (cleanup swept store)) as [r'|] eqn:Hg';
        [|reflexivity].
      apply map_get_in in Hg'. unfold cleanup in Hg'.
      apply filter_In in Hg'. destruct Hg' as [Hin' _].
      rewrite (map_get_unique code store r' Hnd Hin') in Hg. discriminate.
Qed.

(** *** Looking up and deleting accounts *)

Lemma filter_none {A} (p : A -> bool) (l : list A) :
  (forall a, In a l -> p a = false) -> filter p l = [].
Proof.
  induction l as [|b l IH]; simpl; [reflexivity|].
  intros H. rewrite (H b (or_introl eq_refl)). apply IH.
  intros a Ha. apply H. now right.
Qed.

Lemma set_users_same (w : World) : set_users (users w) w = w.
Proof. destruct w; reflexivity. Qed.

(** X29. [deleteUnverifiedUser] never deletes a verified account. It
    removes the unverified accounts with the given id and no other; it adds
    no session and keeps every session of the other accounts. When there is
    no such account (no such id, or the account is verified) it throws
    "User not found or already verified" (404) and leaves the store as it
    is. *)
Theorem deleteUnverifiedUser_spec (i : string) (w : World) :
  (forall v, In v (users (snd (deleteUnverifiedUser i w))) <->
             In v (users w) /\
             ~ (uid v = i /\ isVerified (emailInfo v) = false))
  /\
  (forall s, In s (sessions (snd (deleteUnverifiedUser i w))) ->
             In s (sessions w))
  /\
  (forall s, In s (sessions w) -> userId s <> i ->
             In s (sessions (snd (deleteUnverifiedUser i w))))
  /\
  ((forall v, In v (users w) -> uid v = i ->
              isVerified (emailInfo v) = true) ->
   deleteUnverifiedUser i w =
     (Throws (AppError "User not found or already verified" 404), w))
  /\
  (forall v, In v (users w) -> uid v = i ->
             isVerified (emailInfo v) = false ->
             fst (deleteUnverifiedUser i w) = Returns tt).
Proof.
  set (p := fun u => (uid u =? i)%string && negb (isVerified (emailInfo u))).
  assert (Hsnd : snd (deleteUnverifiedUser i w) =
                 set_sessions
                   (filter (fun s => negb (List.existsb
                                             (fun u => (uid u =? userId s)%string)
                                             (filter p (users w))))
                           (sessions w))
                   (set_users (filter (fun u => negb (p u)) (users w)) w)).
  { unfold deleteUnverifiedUser, bind, user_deleteMany. cbv zeta.
    destruct (Nat.eqb _ 0); reflexivity. }
  split; [|split; [|split; [|split]]].
  - intros v. rewrite Hsnd. cbn [users set_users set_sessions].
    rewrite filter_In. unfold p. split.
    + intros [Hin Hk]. split; [exact Hin|]. intros [Hid Hun].
      rewrite Hid, String.eqb_refl, Hun in Hk. discriminate.
    + intros [Hin Hn]. split; [exact Hin|].
      destruct (String.eqb_spec (uid v) i) as [E|E]; [|reflexivity].
      destruct (isVerified (emailInfo v)) eqn:Ev; [reflexivity|].
      exfalso. apply Hn. split; [exact E|reflexivity].
  - intros s. rewrite Hsnd. cbn [sessions set_sessions].
    intros Hs. apply filter_In in Hs. exact (proj1 Hs).
  - intros s Hs Hother. rewrite Hsnd. cbn [sessions set_sessions].
    apply filter_In. split; [exact Hs|].
    rewrite existsb_none; [reflexivity|].
    intros u Hu. apply filter_In in Hu. destruct Hu as [_ Hp].
    unfold p in Hp. apply andb_true_iff in Hp. destruct Hp as [Hid _].
    apply String.eqb_eq in Hid. apply String.eqb_neq. congruence.
  - intros Hver. unfold deleteUnverifiedUser, bind, user_deleteMany.
    cbv zeta. fold p.
    assert (Hnone : forall v, In v (users w) -> p v = false).
    { intros v Hv. unfold p.
      destruct (String.eqb_spec (uid v) i) as [E|E]; [|reflexivity].
      rewrite (Hver v Hv E). reflexivity. }
    rewrite (filter_all (fun u => negb (p u))).
    2:{ intros v Hv. rewrite (Hnone v Hv). reflexivity. }
    rewrite (filter_none p (users w) Hnone).
    cbn [List.length Nat.eqb List.existsb negb].
    rewrite (filter_all (fun _ : Session => true)) by reflexivity.
    rewrite set_users_same. unfold throwError, throw.
    destruct w; reflexivity.
  - intros v Hv Hid Hun. unfold deleteUnverifiedUser, bind, user_deleteMany.
    cbv zeta.
    rewrite (filter_nonempty _ _ v Hv); [reflexivity|].
    rewrite Hid, String.eqb_refl, Hun. reflexivity.
Qed.

(** X30. [checkUserExists] only reads. An account it reports is stored,
    matches the given email or the given phone, and is not the excluded
    one; it is reported under "email" exactly when its email is the given
    one. When it reports none, no stored account other than the excluded
    one has the given email. With neither email nor phone it reports
    none. *)
Theorem checkUserExists_spec (e p excluded : option string) (w : World) :
  exists r,
    checkUserExists e p excluded w = (Returns r, w) /\
    (forall u field, r = Exists u field ->
       In u (users w) /\
       ((truthy e = true /\ e = Some (email u)) \/
        (truthy p = true /\ phone u = p)) /\
       (truthy excluded = true -> excluded <> Some (uid u)) /\
       (field = "email" <-> e = Some (email u)) /\
       (field = "email" \/ field = "phone")) /\
    (r = NotExists ->
       forall v, In v (users w) -> truthy e = true -> e = Some (email v) ->
                 truthy excluded = true /\ excluded = Some (uid v)) /\
    (truthy e = false -> truthy p = false -> r = NotExists).
Proof.
  unfold checkUserExists.
  destruct (negb (truthy e) && negb (truthy p)) eqn:Hnone.
  - exists NotExists. split; [reflexivity|].
    apply andb_true_iff in Hnone. destruct Hnone as [He Hp].
    apply negb_true_iff in He.
    split; [discriminate|]. split; [|reflexivity].
    intros _ v _ Hte. congruence.
  - unfold bind, user_findFirst.
    destruct (find _ (users w)) as [u|] eqn:Hf.
    + eexists. split; [reflexivity|]. split; [|split].
      * intros u' field [= <- <-].
        apply find_some in Hf. destruct Hf as [Hin Hc].
        apply andb_true_iff in Hc. destruct Hc as [Hmatch Hex].
        split; [exact Hin|]. split; [|split; [|split]].
        -- apply orb_true_iff in Hmatch. destruct Hmatch as [H|H];
             apply andb_true_iff in H; destruct H as [H1 H2].
           ++ left. split; [exact H1|]. now apply opt_eqb_true.
           ++ right. split; [exact H1|].
              destruct (phone u) as [q|]; [|discriminate].
              apply opt_eqb_true in H2. now subst.
        -- intros Ht. rewrite Ht in Hex. apply negb_true_iff in Hex.
           intros E. rewrite E in Hex. cbn [opt_eqb] in Hex.
           rewrite String.eqb_refl in Hex. discriminate.
        -- destruct (opt_eqb e (email u)) eqn:Ee.
           ++ split; [intros _; now apply opt_eqb_true|reflexivity].
           ++ split; [discriminate|].
              intros E. rewrite E in Ee. cbn [opt_eqb] in Ee.
              rewrite String.eqb_refl in Ee. discriminate.
        -- destruct (opt_eqb e (email u)); [now left|now right].
      * discriminate.
      * intros He Hp. rewrite He, Hp in Hnone. discriminate.
    + exists NotExists. split; [reflexivity|]. split; [discriminate|].
      split.
      * intros _ v Hv Hte Hev.
        pose proof (find_none _ _ Hf v Hv) as Hc. cbv beta in Hc.
        rewrite Hte, Hev in Hc. cbn [opt_eqb andb orb] in Hc.
        rewrite String.eqb_refl in Hc. cbn [orb andb] in Hc.
        destruct (truthy excluded) eqn:Hx; [|discriminate].
        split; [reflexivity|].
        apply negb_false_iff in Hc. now apply opt_eqb_true.
      * intros He Hp. rewrite He, Hp in Hnone. discriminate.
Qed.

End Services.

(** ** Closed instances on the sample data *)

Lemma refreshAccessToken_rotation_witness :
  (exists pair w',
     refreshAccessToken sample_addDay sample_hash sample_random sample_objectId
       sample_jwtSign sample_jwtConfig "refresh-1" sample_world
     = (Returns pair, w')) /\
  refreshAccessToken sample_addDay sample_hash sample_random sample_objectId
    sample_jwtSign sample_jwtConfig "forged" sample_world
  = (Throws (AppError "Invalid or expired refresh token" 500), sample_world).
Proof.
  split.
  - destruct (refreshAccessToken_rotation sample_addDay sample_hash sample_random
                sample_objectId sample_jwtSign sample_jwtConfig "refresh-1"
                sample_world) as [_ [_ H]].
    apply (H jane_session jane); reflexivity.
  - destruct (refreshAccessToken_rotation sample_addDay sample_hash sample_random
                sample_objectId sample_jwtSign sample_jwtConfig "forged"
                sample_world) as [H _].
    apply H. simpl. intros s [<-|[<-|[]]] Hh _; discriminate Hh.
Defined.

Lemma isAccountLocked_spec_witness :
  isAccountLocked 1000 jane_expired_lock = false.
Proof.
  apply (proj2 (isAccountLocked_spec 1000 jane_expired_lock) 900).
  - reflexivity.
  - lia.
Defined.

Lemma incrementFailedLoginAttempts_spec_witness :
  exists w4 u4 w5 u5,
    failedLogins sample_bcryptCompare sample_security 4 "jane@x.com" "nope"
      sample_world = (Returns tt, w4) /\
    find (fun v => (email v =? "jane@x.com")%string) (users w4) = Some u4 /\
    lockoutInfo u4 = mkLockout false None 4%N /\
    failedLogins sample_bcryptCompare sample_security 5 "jane@x.com" "nope"
      sample_world = (Returns tt, w5) /\
    find (fun v => (email v =? "jane@x.com")%string) (users w5) = Some u5 /\
    lockoutInfo u5 = mkLockout true (Some (1000 + 15 * ms_per_minute)) 5%N.
Proof.
  apply (proj2 (incrementFailedLoginAttempts_spec sample_bcryptCompare
                  sample_security)
               "jane@x.com" "nope" sample_world jane); reflexivity.
Defined.

Lemma expired_lock_relocks_witness :
  isAccountLocked 1000 jane_expired_lock = false /\
  exists w' u',
    authenticateUser sample_bcryptCompare sample_security "jane@x.com" "nope"
      sample_world_expired = (Returns (Some jane_expired_lock, false), w') /\
    find (fun v => (email v =? "jane@x.com")%string) (users w') = Some u' /\
    isLocked (lockoutInfo u') = true /\
    failedAttemptCount (lockoutInfo u') = 6%N /\
    isAccountLocked (clock w') u' = true.
Proof.
  destruct (expired_lock_relocks sample_bcryptCompare sample_security
              "jane@x.com" "nope" sample_world_expired jane_expired_lock 900)
    as [Hfree [w' [u' [Hrun [_ [Hf [Hc [Hl [_ [_ Hlocked]]]]]]]]]].
  - reflexivity.
  - reflexivity.
  - reflexivity.
  - reflexivity.
  - simpl. lia.
  - reflexivity.
  - simpl. lia.
  - reflexivity.
  - split; [exact Hfree|]. exists w', u'. repeat split; assumption.
Defined.

Lemma resetPasswordWithToken_effect_witness :
  exists w' after,
    resetPasswordWithToken sample_hash sample_bcryptHash "reset-3" "NewP@ss1"
      sample_world = (Returns tt, w') /\
    find (fun v => (uid v =? "u3")%string) (users w') = Some after /\
    passwordInfo after = mkPasswordInfo (Some "bcrypt:NewP@ss1") None None /\
    lockoutInfo after = mkLockout false None 0%N /\
    isVerified (emailInfo after) = true /\
    (forall s, In s (sessions w') -> userId s <> "u3").
Proof.
  destruct (resetPasswordWithToken_effect sample_hash sample_bcryptHash
              "reset-3" "NewP@ss1" sample_world carol eq_refl)
    as [w' [after [Hrun [Hf [Hp [Hl [_ [Hv Hs]]]]]]]].
  exists w', after. repeat split; try assumption.
  - exact (Hl eq_refl).
  - exact (proj1 (Hv eq_refl)).
Defined.

Lemma failedAttemptCount_reset_witness :
  exists w' after,
    authenticateUser sample_bcryptCompare sample_security "bob@x.com" "old"
      sample_world = (Returns (Some bob, true), w') /\
    find (fun v => (email v =? "bob@x.com")%string) (users w') = Some after /\
    failedAttemptCount (lockoutInfo after) = 0%N.
Proof.
  exists (snd (authenticateUser sample_bcryptCompare sample_security
                 "bob@x.com" "old" sample_world)).
  destruct (proj1 (failedAttemptCount_reset sample_hash sample_bcryptHash
                     sample_bcryptCompare sample_security)
                  "bob@x.com" "old" sample_world
                  (snd (authenticateUser sample_bcryptCompare sample_security
                          "bob@x.com" "old" sample_world))
                  bob eq_refl) as [after [Hf [_ Hc]]].
  exists after. repeat split; assumption.
Defined.

(** Bob is not locked and has three failures on record: his password reset
    succeeds and the count is still three. *)
Lemma reset_keeps_count_of_unlocked_account :
  exists w' after,
    resetPasswordWithToken sample_hash sample_bcryptHash "reset-1" "NewP@ss1"
      sample_world = (Returns tt, w') /\
    find (fun v => (uid v =? "u2")%string) (users w') = Some after /\
    failedAttemptCount (lockoutInfo after) = 3%N /\
    failedAttemptCount (lockoutInfo after) <> 0%N.
Proof.
  exists (snd (resetPasswordWithToken sample_hash sample_bcryptHash
                 "reset-1" "NewP@ss1" sample_world)).
  exists (reset_data bob (sample_bcryptHash "NewP@ss1") bob).
  split; [reflexivity|]. split; [reflexivity|].
  split; [reflexivity|]. discriminate.
Qed.

Lemma tokens_single_use_witness :
  exists r w1 w2,
    verifyEmailWithToken sample_hash "verify-3" sample_world
      = (Returns r, w1) /\
    verifyEmailWithToken sample_hash "verify-3" (set_clock 1001 w1) =
      (Throws (AppError "Invalid or expired email verification token" 403),
       set_clock 1001 w1) /\
    resetPasswordWithToken sample_hash sample_bcryptHash "reset-3" "NewP@ss1"
      sample_world = (Returns tt, w2) /\
    resetPasswordWithToken sample_hash sample_bcryptHash "reset-3" "NewP@ss1"
      (set_clock 1001 w2) =
      (Throws (AppError "Invalid or expired password reset token" 500),
       set_clock 1001 w2).
Proof.
  assert (Hv1 : forall a b, In a (users sample_world) ->
            In b (users sample_world) ->
            verificationToken (emailInfo a) = Some (sample_hash "verify-3") ->
            verificationToken (emailInfo b) = Some (sample_hash "verify-3") ->
            uid a = uid b).
  { simpl. intros a b [<-|[<-|[<-|[]]]] [<-|[<-|[<-|[]]]] Ha Hb;
      try discriminate Ha; try discriminate Hb; reflexivity. }
  assert (Hr1 : forall a b, In a (users sample_world) ->
            In b (users sample_world) ->
            resetToken (passwordInfo a) = Some (sample_hash "reset-3") ->
            resetToken (passwordInfo b) = Some (sample_hash "reset-3") ->
            uid a = uid b).
  { simpl. intros a b [<-|[<-|[<-|[]]]] [<-|[<-|[<-|[]]]] Ha Hb;
      try discriminate Ha; try discriminate Hb; reflexivity. }
  destruct (tokens_single_use sample_hash sample_bcryptHash "verify-3")
    as [Hverify [_ [Hverifies _]]].
  destruct (tokens_single_use sample_hash sample_bcryptHash "reset-3")
    as [_ [Hreset [_ Hresets]]].
  destruct (Hverifies sample_world carol eq_refl) as [r [w1 Hrun1]];
    [discriminate|].
  destruct (Hresets sample_world "NewP@ss1" carol eq_refl) as [w2 Hrun2].
  exists r, w1, w2.
  split; [exact Hrun1|].
  split; [exact (proj2 (Hverify sample_world w1 r Hv1 Hrun1)
                   (set_clock 1001 w1) eq_refl)|].
  split; [exact Hrun2|].
  exact (proj2 (Hreset sample_world w2 "NewP@ss1" Hr1 Hrun2)
           (set_clock 1001 w2) "NewP@ss1" eq_refl).
Defined.

Lemma verifyAccessToken_failure_witness :
  verifyAccessToken sample_jwtVerify "expired" =
    Throws (AppError "Access token has expired" 401).
Proof.
  apply (verifyAccessToken_failure sample_jwtVerify "expired"
           TokenExpiredError).
  reflexivity.
Defined.

(** C7. The claim, and the tests of [verifyAccessToken] for an expired
    and a malformed token, have every failure answered with the generic
    "Invalid or expired access token". The code does not: on an expired
    token, for which the JWT library throws [TokenExpiredError], it throws
    "Access token has expired"; on a malformed one ([JsonWebTokenError]) it
    throws "Invalid access token"; the two failures are told apart by the
    error. *)
Lemma verifyAccessToken_distinguishes :
  verifyAccessToken sample_jwtVerify "expired" =
    Throws (AppError "Access token has expired" 401) /\
  verifyAccessToken sample_jwtVerify "garbage" =
    Throws (AppError "Invalid access token" 401) /\
  verifyAccessToken sample_jwtVerify "expired" <>
    Throws (AppError "Invalid or expired access token" 401) /\
  verifyAccessToken sample_jwtVerify "garbage" <>
    Throws (AppError "Invalid or expired access token" 401) /\
  verifyAccessToken sample_jwtVerify "expired" <>
    verifyAccessToken sample_jwtVerify "garbage".
Proof.
  split; [reflexivity|]. split; [reflexivity|].
  split; [discriminate|]. split; discriminate.
Qed.

Lemma updateUserProfile_rollback_witness :
  exists w' after,
    updateUserProfile sample_addDay sample_hash sample_random sample_bcryptHash
      sample_render sample_transport_down jane
      (mkUpdates None (Some "new@x.com") None None (Some "https://x"))
      sample_world
    = (Throws (AppError "Failed to send email" 500), w') /\
    find (fun v => (uid v =? "u1")%string) (users w') = Some after /\
    pendingEmail (emailInfo after) = None /\
    verificationToken (emailInfo after) = None /\
    verificationExpires (emailInfo after) = None.
Proof.
  apply (updateUserProfile_rollback sample_addDay sample_hash sample_random
           sample_bcryptHash sample_render sample_transport_down jane jane
           (mkUpdates None (Some "new@x.com") None None (Some "https://x"))
           sample_world sample_world).
  - reflexivity.
  - reflexivity.
  - reflexivity.
  - reflexivity.
  - intros w2. reflexivity.
Defined.

Lemma handleGithubAuth_email_witness :
  handleGithubAuth sample_objectId sample_fetch_two octo_profile "gho_abc"
    sample_world =
  createOAuthUser sample_objectId
    (mkOAuthUser "octo@x.com" "Octo" None AUTH_PROVIDERS_GITHUB true)
    sample_world.
Proof.
  destruct (proj2 (handleGithubAuth_email sample_objectId sample_fetch_two
                     octo_profile "gho_abc" sample_world eq_refl)
                  (mkResponse true 200
                     (Some [mkGithubEmail "old@x.com" false true;
                            mkGithubEmail "octo@x.com" true true]))
                  _ eq_refl eq_refl eq_refl)
    as [chosen [Hp [_ [_ Hgo]]]].
  destruct (Hp (mkGithubEmail "octo@x.com" true true)
               (or_intror (or_introl eq_refl)) eq_refl)
    as [first [Hfirst [_ Hchosen]]].
  injection Hfirst as <-.
  apply (Hgo "octo@x.com" "Octo"); [exact Hchosen| |reflexivity|reflexivity].
  rewrite Hchosen. reflexivity.
Defined.

(** The email endpoint answers with an empty list: the operation fails
    with code 404, not 400. *)
Lemma handleGithubAuth_no_email_is_404 :
  handleGithubAuth sample_objectId sample_fetch_empty octo_profile "gho_abc"
    sample_world =
    (Throws (AppError "No email found for GitHub user" 404), sample_world) /\
  forall message : string,
    handleGithubAuth sample_objectId sample_fetch_empty octo_profile "gho_abc"
      sample_world <> (Throws (AppError message 400), sample_world).
Proof.
  split; [reflexivity|]. intros message. discriminate.
Qed.

(** ** Closed instances of the further properties *)

Lemma issued_token_rotates_witness :
  exists w2,
    refreshAccessToken sample_addDay sample_hash sample_random sample_objectId
      sample_jwtSign sample_jwtConfig (sample_random 40 0)
      (set_clock 2000
         (snd (generateTokenPair sample_addDay sample_hash sample_random sample_objectId
                 sample_jwtSign sample_jwtConfig jane None None sample_world)))
    = (Returns (mkTokenPair "jwt.u1.jane@x.com" (sample_random 40 1) "15m"),
       w2).
Proof.
  destruct (issued_token_rotates sample_addDay sample_hash sample_random sample_objectId
              sample_jwtSign sample_jwtConfig jane jane None None sample_world
              (snd (generateTokenPair sample_addDay sample_hash sample_random
                      sample_objectId sample_jwtSign sample_jwtConfig jane
                      None None sample_world))
              (mkTokenPair "jwt.u1.jane@x.com" (sample_random 40 0) "15m")
              2000 eq_refl eq_refl eq_refl eq_refl)
    as [w2 [H _]].
  exists w2. exact H.
Defined.

Lemma rotated_token_is_dead_witness :
  refreshAccessToken sample_addDay sample_hash sample_random sample_objectId
    sample_jwtSign sample_jwtConfig "refresh-1"
    (snd (refreshAccessToken sample_addDay sample_hash sample_random sample_objectId
            sample_jwtSign sample_jwtConfig "refresh-1" sample_world))
  = (Throws (AppError "Invalid or expired refresh token" 500),
     snd (refreshAccessToken sample_addDay sample_hash sample_random sample_objectId
            sample_jwtSign sample_jwtConfig "refresh-1" sample_world)).
Proof.
  apply (rotated_token_is_dead sample_addDay sample_hash sample_random sample_objectId
           sample_jwtSign sample_jwtConfig "refresh-1" sample_world
           (snd (refreshAccessToken sample_addDay sample_hash sample_random sample_objectId
                   sample_jwtSign sample_jwtConfig "refresh-1" sample_world))
           (mkTokenPair "jwt.u1.jane@x.com" (sample_random 40 0) "15m")).
  - reflexivity.
  - discriminate.
  - reflexivity.
Defined.

Lemma authenticate_spec_witness :
  authenticate sample_hash sample_jwtVerify_accounts sample_trim
    (Some "Bearer jwt.u1.jane@x.com") (Some "refresh-1") sample_world
  = (Returns (jane, mkPayload "u1" "jane@x.com"), sample_world).
Proof.
  apply (proj1 (authenticate_spec sample_hash sample_jwtVerify_accounts
                  sample_trim "Bearer jwt.u1.jane@x.com" "refresh-1"
                  sample_world)).
  split; [reflexivity|]. split; [reflexivity|].
  split; [discriminate|]. split; [discriminate|].
  split.
  - exists jane_session. split; [now left|]. split; reflexivity.
  - split; reflexivity.
Defined.

Lemma logout_ends_the_session_witness :
  exists w1,
    logout sample_hash (Some jane) (Some "refresh-1") sample_world
      = (Returns "Logout successful", w1) /\
    forall r,
      fst (authenticate sample_hash sample_jwtVerify_accounts sample_trim
             (Some "Bearer jwt.u1.jane@x.com") (Some "refresh-1") w1)
      <> Returns r.
Proof.
  destruct (logout_ends_the_session sample_hash sample_jwtVerify_accounts
              sample_trim (Some "Bearer jwt.u1.jane@x.com") "refresh-1"
              sample_world sample_world jane (mkPayload "u1" "jane@x.com"))
    as [w1 [Hrun [_ [_ Hdead]]]].
  - discriminate.
  - reflexivity.
  - exists w1. split; [exact Hrun|].
    exact (Hdead (Some "Bearer jwt.u1.jane@x.com") w1 eq_refl).
Defined.

Lemma logout_edges_witness :
  logout sample_hash (Some jane) (Some "never-issued") sample_world
    = (Throws P2025, sample_world).
Proof.
  apply (proj1 (logout_edges sample_hash jane sample_world)).
  - discriminate.
  - simpl. intros s [<-|[<-|[]]]; discriminate.
Defined.

Lemma reset_invalidates_refresh_tokens_witness :
  exists w1,
    resetPasswordWithToken sample_hash sample_bcryptHash "reset-3" "NewP@ss1"
      sample_world = (Returns tt, w1) /\
    forall r,
      fst (authenticate sample_hash sample_jwtVerify_accounts sample_trim
             (Some "Bearer jwt.u3.carol@x.com") (Some "refresh-3") w1)
      <> Returns r.
Proof.
  destruct (reset_invalidates_refresh_tokens sample_hash sample_bcryptHash
              sample_jwtVerify_accounts sample_trim "reset-3" "NewP@ss1"
              sample_world carol eq_refl) as [w1 [Hrun Hdead]].
  exists w1. split; [exact Hrun|].
  apply (Hdead (Some "Bearer jwt.u3.carol@x.com") "refresh-3" w1);
    [|reflexivity].
  simpl. intros s [<-|[<-|[]]] Hh; [discriminate Hh|reflexivity].
Defined.

Lemma authenticateUser_refusals_witness :
  authenticateUser sample_bcryptCompare sample_security "nobody@x.com" "pw"
    sample_world = (Returns (None, false), sample_world).
Proof.
  apply (proj2 (authenticateUser_refusals sample_bcryptCompare sample_security
                  "nobody@x.com" "pw" sample_world)).
  reflexivity.
Defined.

Lemma lock_holds_then_lapses_witness :
  exists wN,
    failedLogins sample_bcryptCompare sample_security 5 "jane@x.com" "nope"
      sample_world = (Returns tt, wN) /\
    authenticateUser sample_bcryptCompare sample_security "jane@x.com"
      "Str0ng!Pass" (set_clock 2000 wN)
    = (Throws (AppError
                 "Account is temporarily locked due to multiple failed login attempts"
                 423), set_clock 2000 wN).
Proof.
  destruct (lock_holds_then_lapses sample_bcryptCompare sample_security
              "jane@x.com" "nope" "Str0ng!Pass" sample_world jane)
    as [wN [Hrun [Hheld _]]]; try reflexivity.
  exists wN. split; [exact Hrun|]. apply Hheld. reflexivity.
Defined.

Lemma forgotPassword_same_answer_witness :
  forgotPassword sample_hash sample_random sample_transport_up
    sample_render_reset "nobody@x.com" "https://x" sample_world
  = (Returns
       "If an account with that email exists, a password reset link has been sent",
     sample_world).
Proof.
  apply (proj1 (forgotPassword_same_answer sample_hash sample_random
                  sample_transport_up sample_render_reset "nobody@x.com"
                  "https://x" sample_world)).
  reflexivity.
Defined.

Lemma reset_mail_failure_keeps_token_witness :
  exists w1 after,
    sendPasswordResetEmail sample_hash sample_random sample_transport_down
      sample_render_reset "jane@x.com" "https://x" sample_world
    = (Throws (AppError "Failed to send email" 500), w1) /\
    find (fun v => (email v =? "jane@x.com")%string) (users w1) = Some after /\
    resetToken (passwordInfo after) = Some (sample_hash (sample_random 32 0)).
Proof.
  destruct (reset_mail_failure_keeps_token sample_hash sample_random
              sample_transport_down sample_render_reset "jane@x.com"
              "https://x" sample_world jane
              (mkTemplate "Reset your password" (sample_random 32 0)
                          "https://x")
              eq_refl eq_refl eq_refl) as [w1 [after [Hrun [Hf Hp]]]].
  exists w1, after. split; [exact Hrun|]. split; [exact Hf|].
  rewrite Hp. reflexivity.
Defined.

Lemma forgot_reset_login_witness :
  exists w2 w3 u3,
    resetPasswordWithToken sample_hash sample_bcryptHash (sample_random 32 0)
      "NewP@ss1"
      (set_clock 2000
         (snd (sendPasswordResetEmail sample_hash sample_random
                 sample_transport_up sample_render_reset "jane@x.com"
                 "https://x" sample_world)))
    = (Returns tt, w2) /\
    authenticateUser sample_bcryptCompare sample_security "jane@x.com"
      "NewP@ss1" w2 = (Returns (Some u3, true), w3).
Proof.
  assert (Hfresh : forall v, In v (users sample_world) ->
            resetToken (passwordInfo v)
            <> Some (sample_hash (sample_random 32 (draws sample_world)))).
  { simpl. intros v [<-|[<-|[<-|[]]]]; discriminate. }
  destruct (proj1 (forgot_reset_login sample_hash sample_random
                     sample_bcryptHash sample_bcryptCompare
                     sample_transport_up sample_security sample_render_reset
                     "jane@x.com" "https://x" "NewP@ss1" sample_world jane
                     eq_refl Hfresh eq_refl
                     ltac:(discriminate))
                  2000 eq_refl) as [w2 [w3 [u3 [Hreset [Hlogin _]]]]].
  exists w2, w3, u3. split; assumption.
Defined.

Lemma register_fresh_witness :
  exists w1,
    register sample_addDay sample_hash sample_random sample_objectId sample_bcryptHash
      sample_render sample_transport_up true "New" "new@x.com" None "pw"
      "https://x" sample_world
    = (Returns
         "User registered successfully. Please check your email for verification.",
       w1) /\
    sessions w1 = sessions sample_world.
Proof.
  destruct (register_fresh sample_addDay sample_hash sample_random sample_objectId
              sample_bcryptHash sample_render sample_transport_up true
              "New" "new@x.com" None "pw" "https://x" sample_world)
    as [w1 [Hrun [Hs _]]].
  - discriminate.
  - simpl. intros v [<-|[<-|[<-|[]]]]; reflexivity.
  - exists w1. split; assumption.
Defined.


Lemma register_replaces_abandoned_witness :
  exists w1 created,
    register sample_addDay sample_hash sample_random sample_objectId sample_bcryptHash
      sample_render sample_transport_up true "Carol" "carol@x.com" None
      "pw" "https://x" sample_world
    = (Returns
         "User registered successfully. Please check your email for verification.",
       w1) /\
    users w1 = [jane; bob; created] /\
    passwordInfo created = mkPasswordInfo (Some "bcrypt:pw") None None.
Proof.
  destruct (register_replaces_abandoned sample_addDay sample_hash sample_random
              sample_objectId sample_bcryptHash sample_render
              sample_transport_up true "Carol" "carol@x.com" None "pw"
              "https://x" sample_world carol)
    as [w1 [created [Hrun [Hus [_ [_ [_ Hp]]]]]]].
  - discriminate.
  - reflexivity.
  - reflexivity.
  - simpl. intros v [<-|[<-|[<-|[]]]] H; vm_compute in H;
      try discriminate H; split; reflexivity.
  - exists w1, created. split; [exact Hrun|]. split; [exact Hus|exact Hp].
Defined.

Lemma register_then_verify_witness :
  exists w2 verified,
    verifyEmailWithToken sample_hash (sample_random 32 0)
      (set_clock 2000
         (snd (createUserWithVerification sample_addDay sample_hash sample_random
                 sample_objectId sample_bcryptHash true "New" "new@x.com"
                 None "pw" sample_world)))
    = (Returns (verified, true), w2) /\
    users w2 = [jane; bob; carol; verified] /\
    emailInfo verified = mkEmailInfo true None None None None.
Proof.
  assert (Hids : forall v, In v (users sample_world) ->
                           uid v <> sample_objectId 0).
  { simpl. intros v [<-|[<-|[<-|[]]]]; discriminate. }
  assert (Hfresh : forall v, In v (users sample_world) ->
            verificationToken (emailInfo v)
            <> Some (sample_hash (sample_random 32 0))).
  { simpl. intros v [<-|[<-|[<-|[]]]]; discriminate. }
  destruct (proj1 (register_then_verify sample_addDay sample_hash sample_random
                     sample_objectId sample_bcryptHash true "New"
                     "new@x.com" None "pw" sample_world _ _ _
                     eq_refl Hids Hfresh) 2000 eq_refl)
    as [w2 [Hrun [Hus [Hinfo _]]]].
  eexists w2, _. split; [exact Hrun|]. split; [exact Hus|exact Hinfo].
Defined.

Lemma verifyEmail_tokens_witness :
  exists pair created,
    sessions (snd (verifyEmail sample_addDay sample_hash sample_random sample_objectId
                     sample_jwtSign sample_jwtConfig "verify-3" None None
                     None sample_world))
    = [jane_session; carol_session; created] /\
    userId created = "u3" /\
    refreshToken created = sample_hash (tp_refreshToken pair).
Proof.
  destruct (verifyEmail_tokens sample_addDay sample_hash sample_random sample_objectId
              sample_jwtSign sample_jwtConfig "verify-3" None None None
              sample_world _ _ _ _ eq_refl)
    as [d [Hd [_ [_ [_ Hnew]]]]].
  vm_compute in Hd. injection Hd as <-.
  destruct (Hnew eq_refl) as [pair [created [_ [Hs [Hu Hr]]]]].
  exists pair, created. split; [exact Hs|]. split; [exact Hu|exact Hr].
Defined.


Lemma login_then_authenticate_witness :
  exists user payload w1,
    authenticate sample_hash sample_jwtVerify_accounts sample_trim
      (Some "Bearer jwt.u1.jane@x.com") (Some (sample_random 40 0)) w1
    = (Returns (user, payload), w1) /\
    email user = "jane@x.com".
Proof.
  assert (Hjwt : forall v, In v (users sample_world) ->
            sample_jwtVerify_accounts
              (sample_jwtSign (mkPayload (uid v) (email v)))
            = Verified (mkPayload (uid v) (email v))).
  { simpl. intros v [<-|[<-|[<-|[]]]]; reflexivity. }
  assert (Hids : forall v, In v (users sample_world) -> uid v <> "").
  { simpl. intros v [<-|[<-|[<-|[]]]]; discriminate. }
  assert (Huniq : forall a b, In a (users sample_world) ->
                              In b (users sample_world) ->
                              uid a = uid b -> a = b).
  { simpl. intros a b [<-|[<-|[<-|[]]]] [<-|[<-|[<-|[]]]] H;
      try reflexivity; discriminate H. }
  assert (Hday : forall n t, 0 < n -> t < sample_addDay n t).
  { intros n t Hn. unfold sample_addDay, ms_per_day. lia. }
  destruct (login_then_authenticate sample_addDay sample_hash sample_random
              sample_objectId sample_bcryptCompare sample_jwtSign
              sample_jwtVerify_accounts sample_security sample_jwtConfig
              sample_trim "jane@x.com" "Str0ng!Pass" None None None
              sample_world _ _ _
              (mkTokenPair "jwt.u1.jane@x.com" (sample_random 40 0) "15m")
              Hjwt eq_refl ltac:(discriminate) Hids Huniq Hday eq_refl
              eq_refl)
    as [user [payload [Hauth [_ [He _]]]]].
  eexists user, payload, _. split; [exact Hauth|exact He].
Defined.

Lemma updateUserProfile_noop_witness :
  updateUserProfile sample_addDay sample_hash sample_random sample_bcryptHash sample_render
    sample_transport_down jane
    (mkUpdates None (Some "jane@x.com") None None None) sample_world
  = (Returns (jane, "Profile updated successfully"), sample_world).
Proof.
  apply (updateUserProfile_noop sample_addDay sample_hash sample_random sample_bcryptHash
           sample_render sample_transport_down jane
           (mkUpdates None (Some "jane@x.com") None None None) sample_world);
    try reflexivity.
  right. split; [discriminate|]. split; [reflexivity|].
  simpl. intros v [<-|[<-|[<-|[]]]] H; try reflexivity; discriminate H.
Defined.

Lemma password_change_then_login_witness :
  exists shown w1 logged w2,
    updateUserProfile sample_addDay sample_hash sample_random sample_bcryptHash
      sample_render sample_transport_down jane
      (mkUpdates None None None (Some "NewP@ss1") None) sample_world
    = (Returns (shown, "Password updated successfully"), w1) /\
    authenticateUser sample_bcryptCompare sample_security "jane@x.com"
      "NewP@ss1" w1 = (Returns (Some logged, true), w2).
Proof.
  destruct (password_change_then_login sample_addDay sample_hash sample_random
              sample_bcryptHash sample_bcryptCompare sample_render
              sample_transport_down sample_security jane "NewP@ss1" None
              sample_world)
    as [shown [w1 [logged [w2 [Hrun [_ [Hlogin _]]]]]]];
    try reflexivity; try discriminate.
  exists shown, w1, logged, w2. split; assumption.
Defined.

Lemma email_change_then_verify_witness :
  exists w1 r w2 after,
    updateUserProfile sample_addDay sample_hash sample_random sample_bcryptHash
      sample_render sample_transport_up jane
      (mkUpdates None (Some "new@x.com") None None (Some "https://x"))
      sample_world
    = (Returns
         (jane, "Profile updated. Verification email sent to your new email address. Please verify to complete the email change."),
       w1) /\
    verifyEmailWithToken sample_hash (sample_random 32 0) (set_clock 2000 w1)
    = (Returns r, w2) /\
    snd r = false /\
    find (fun v => (uid v =? "u1")%string) (users w2) = Some after /\
    email after = "new@x.com".
Proof.
  assert (Hfree : forall v, In v (users sample_world) ->
                            email v <> "new@x.com").
  { simpl. intros v [<-|[<-|[<-|[]]]]; discriminate. }
  assert (Hfresh : forall v, In v (users sample_world) ->
            verificationToken (emailInfo v)
            <> Some (sample_hash (sample_random 32 (draws sample_world)))).
  { simpl. intros v [<-|[<-|[<-|[]]]]; discriminate. }
  destruct (email_change_then_verify sample_addDay sample_hash sample_random
              sample_bcryptHash sample_render sample_transport_up jane
              "new@x.com" (Some "https://x") sample_world
              ltac:(discriminate) ltac:(discriminate)
              (or_introl eq_refl) Hfree Hfresh (fun w2 => eq_refl))
    as [w1 [Hrun Hlater]].
  destruct (Hlater 2000 eq_refl) as [r [w2 [after [Hv [Hr [Hf [He _]]]]]]].
  exists w1, r, w2, after.
  split; [exact Hrun|]. split; [exact Hv|]. split; [exact Hr|].
  split; [exact Hf|exact He].
Defined.

Lemma verifyEmailWithToken_refusals_witness :
  exists other,
    In other (users sample_world_pending) /\ email other = "jane@x.com" /\
    uid other <> "u4".
Proof.
  destruct (verifyEmailWithToken_refusals sample_hash "change-4"
              sample_world_pending sample_world_pending
              (AppError "Email address is already in use" 409) eq_refl)
    as [_ [[_ Hx]|[d [other [e [Hd [Hp [Hin [He [Hu _]]]]]]]]]].
  - discriminate Hx.
  - vm_compute in Hd. injection Hd as <-. injection Hp as <-.
    exists other. split; [exact Hin|]. split; [exact He|exact Hu].
Defined.

Lemma oauth_account_witness :
  exists created w1,
    createOAuthUser sample_objectId sample_oauth sample_world
      = (Returns created, w1) /\
    authenticateUser sample_bcryptCompare sample_security "octo@x.com"
      "guess" w1
    = (Throws
         (AppError
            "You signed in with a social account. To log in with a password, please set one using 'Forgot Password'."
            403), w1).
Proof.
  destruct (proj2 (oauth_account sample_objectId sample_bcryptCompare
                     sample_security sample_oauth sample_world)
              eq_refl ltac:(discriminate))
    as [created [w1 [Hrun [_ [_ [_ [_ [_ Hpw]]]]]]]].
  exists created, w1. split; [exact Hrun|exact (Hpw "guess")].
Defined.

Lemma loginStore_ttl_witness :
  loginStore_get 301001 "code-2"
    (loginStore_set 1000 "code-2" jane sample_tokens sample_store)
  = (None,
     map_delete "code-2"
       (loginStore_set 1000 "code-2" jane sample_tokens sample_store)).
Proof.
  apply (proj1 (proj2 (loginStore_ttl 1000 "code-2" jane sample_tokens
                         sample_store))).
  reflexivity.
Defined.

Lemma exchangeCode_single_use_witness :
  exchangeCode 1600 (Some "code-1")
    (snd (exchangeCode 1500 (Some "code-1") sample_store))
  = (Throws (AppError "Invalid or expired login code" 400),
     snd (exchangeCode 1500 (Some "code-1") sample_store)).
Proof.
  exact (proj1 (proj2 (exchangeCode_single_use 1500 "code-1" sample_store
                         (snd (exchangeCode 1500 (Some "code-1")
                                 sample_store))
                         ("Login successful", serializeUser jane,
                          sample_tokens)
                         eq_refl)) 1600).
Defined.

Lemma loginStore_cleanup_invisible_witness :
  fst (loginStore_get 2500 "code-1" (cleanup 2400 sample_store))
  = fst (loginStore_get 2500 "code-1" sample_store).
Proof.
  apply (proj2 (proj2 (proj2 (proj2 (loginStore_cleanup_invisible
                                       sample_store
                                       ltac:(repeat constructor; simpl;
                                             tauto)))))).
  lia.
Defined.

Lemma deleteUnverifiedUser_spec_witness :
  deleteUnverifiedUser "u1" sample_world
  = (Throws (AppError "User not found or already verified" 404),
     sample_world).
Proof.
  apply (proj1 (proj2 (proj2 (proj2 (deleteUnverifiedUser_spec "u1"
                                       sample_world))))).
  simpl. intros v [<-|[<-|[<-|[]]]] H; try reflexivity; discriminate H.
Defined.

Lemma checkUserExists_spec_witness :
  exists r,
    checkUserExists (Some "") None None sample_world
      = (Returns r, sample_world) /\
    r = NotExists.
Proof.
  destruct (checkUserExists_spec (Some "") None None sample_world)
    as [r [Hrun [_ [_ Hnone]]]].
  exists r. split; [exact Hrun|]. apply Hnone; reflexivity.
Defined.
